(** * Command orchestration core: aggregates and command services

    A shallow embedding of the Go sources of the domain aggregates
    (tournament, participant, battle, bot command, player account,
    analytics session, group) and of the command services that
    orchestrate them, followed by the properties proved about them.

    Conventions of the embedding:
    - a Go [string] is a Rocq [string] (a sequence of bytes);
    - a Go [int] is a [Z] kept in the 64-bit two's-complement range, with
      the wrap-around of [+] written out ([Go.int_add]);
    - a [time.Time] is the instant it denotes, a [Z] counting nanoseconds
      from the zero time, so that [IsZero] is a comparison with [0] and
      [Before] is [<]; a [*time.Time] is an [option];
    - a Go [error] is a value of the inductive type [Go.error]; the [nil]
      error is [None];
    - a pointer that may be [nil] is an [option]; a map that may be [nil]
      is an [option] of a [gmap];
    - reads of the wall clock ([time.Now]) and calls to repositories and
      providers are explicit state passing. *)

From Stdlib Require Import ZArith NArith Ascii String List.
From stdpp Require Import gmap strings list.

Local Open Scope string_scope.
Local Open Scope Z_scope.

(* ===================================================================== *)
(** * Go runtime values                                                    *)
(* ===================================================================== *)

Module Go.

(** ** Machine integers: [int] on a 64-bit platform. *)

Definition int_bits : Z := 64.
Definition max_int : Z := 2 ^ (int_bits - 1) - 1.
Definition min_int : Z := - 2 ^ (int_bits - 1).

Definition int_wrap (z : Z) : Z :=
  (z - min_int) mod 2 ^ int_bits + min_int.

Definition int_add (a b : Z) : Z := int_wrap (a + b).

Definition in_int (z : Z) : Prop := min_int <= z <= max_int.

(** ** Time. *)

Definition Time : Type := Z.
Definition Duration : Type := Z.

Definition zeroTime : Time := 0.
Definition IsZero (t : Time) : bool := t =? 0.
Definition Before (t u : Time) : bool := t <? u.
Definition Add (t : Time) (d : Duration) : Time := t + d.

Definition After (t u : Time) : bool := u <? t.

(** [t.Sub(u)]: the difference, held at the smallest or largest
    [Duration] when it does not fit 64 bits. *)
Definition Sub (t u : Time) : Duration :=
  Z.max min_int (Z.min max_int (t - u)).

(** The wall clock: the sequence of instants that successive calls of
    [time.Now] return, and the number of calls made so far. *)
Record Wall : Type := mkWall { wall_at : nat -> Time; wall_reads : nat }.

Definition time_Now (w : Wall) : Time * Wall :=
  (wall_at w (wall_reads w), mkWall (wall_at w) (S (wall_reads w))).

(** [time.Since(t)], for a [t] without monotonic reading. *)
Definition Since (t : Time) (w : Wall) : Duration * Wall :=
  let '(now, w) := time_Now w in (Sub now t, w).

(** ** Errors. *)

Inductive error : Type :=
| errors_New (msg : string)
| Sentinel (name msg : string)
| Wrap (msg : string) (inner : error).

(** The method [Error()]. *)
Definition Error (e : error) : string :=
  match e with
  | errors_New msg => msg
  | Sentinel _ msg => msg
  | Wrap msg _ => msg
  end.

(** [e == target] where [target] is a package-level error variable: an
    error built in place by [errors.New] is a fresh pointer and equals
    no such variable. *)
Definition error_eqb_head (e target : error) : bool :=
  match e, target with
  | Sentinel n _, Sentinel n' _ => String.eqb n n'
  | _, _ => false
  end.

(** [errors.Is]: [target] is [err] or is found along its unwrap chain. *)
Fixpoint errors_Is (err target : error) : bool :=
  error_eqb_head err target ||
  match err with
  | Wrap _ inner => errors_Is inner target
  | _ => false
  end.

(** A call either returns or panics. *)
Inductive Result (A : Type) : Type :=
| Ok (a : A)
| Panic (msg : string).
Arguments Ok {A} a.
Arguments Panic {A} msg.

(** ** [strings.TrimSpace]. *)

Definition bytes_of (s : string) : list N :=
  List.map N_of_ascii (list_ascii_of_string s).

Definition string_of (l : list N) : string :=
  string_of_list_ascii (List.map ascii_of_N l).

Definition asciiSpace (b : N) : bool :=
  ((b =? 9) || (b =? 10) || (b =? 11) || (b =? 12) || (b =? 13) || (b =? 32))%N.

(** Is [bs] the UTF-8 encoding of one white-space rune?  These are
    U+0009..U+000D, U+0020, U+0085, U+00A0, U+1680, U+2000..U+200A,
    U+2028, U+2029, U+202F, U+205F and U+3000. *)
Definition isSpaceEnc (bs : list N) : bool :=
  match bs with
  | [b] => asciiSpace b
  | [b0; b1] => ((b0 =? 194) && ((b1 =? 133) || (b1 =? 160)))%N
  | [b0; b1; b2] =>
      (((b0 =? 225) && (b1 =? 154) && (b2 =? 128))
       || ((b0 =? 226) && (b1 =? 128)
           && (((128 <=? b2) && (b2 <=? 138))
               || (b2 =? 168) || (b2 =? 169) || (b2 =? 175)))
       || ((b0 =? 226) && (b1 =? 129) && (b2 =? 159))
       || ((b0 =? 227) && (b1 =? 128) && (b2 =? 128)))%N
  | _ => false
  end.

(** Width in bytes of the white-space rune [l] starts with, [0] if it
    starts with none. *)
Definition leadingSpace (l : list N) : nat :=
  if isSpaceEnc (firstn 1 l) then 1%nat
  else if isSpaceEnc (firstn 2 l) then 2%nat
  else if isSpaceEnc (firstn 3 l) then 3%nat
  else 0%nat.

Fixpoint trimLeftFuel (fuel : nat) (l : list N) : list N :=
  match fuel with
  | O => l
  | S fuel' =>
      match leadingSpace l with
      | O => l
      | w => trimLeftFuel fuel' (skipn w l)
      end
  end.

Definition trimLeft (l : list N) : list N := trimLeftFuel (List.length l) l.

(** The trailing side is the leading side of the reversed string, the
    encodings being read backwards. *)
Definition trailingSpace (r : list N) : nat :=
  if isSpaceEnc (rev (firstn 1 r)) then 1%nat
  else if isSpaceEnc (rev (firstn 2 r)) then 2%nat
  else if isSpaceEnc (rev (firstn 3 r)) then 3%nat
  else 0%nat.

Fixpoint trimRightFuel (fuel : nat) (r : list N) : list N :=
  match fuel with
  | O => r
  | S fuel' =>
      match trailingSpace r with
      | O => r
      | w => trimRightFuel fuel' (skipn w r)
      end
  end.

Definition trimRight (l : list N) : list N :=
  rev (trimRightFuel (List.length l) (rev l)).

Definition TrimSpace (s : string) : string :=
  string_of (trimRight (trimLeft (bytes_of s))).

End Go.

Import Go.

(* ===================================================================== *)
(** * Package shared: identifiers and errors                               *)
(* ===================================================================== *)

Module shared.

Definition PlayerID : Type := string.
Definition GroupID : Type := string.
Definition BattleID : Type := string.
Definition SeasonID : Type := string.
Definition BotCommandID : Type := string.
Definition IdempotencyKey : Type := string.
Definition TournamentID : Type := string.

Definition ErrDuplicate : error :=
  Sentinel "shared.ErrDuplicate" "duplicate operation".
Definition ErrNotFound : error :=
  Sentinel "shared.ErrNotFound" "entity not found".
Definition ErrConflict : error :=
  Sentinel "shared.ErrConflict" "entity conflict".
Definition ErrInvalidState : error :=
  Sentinel "shared.ErrInvalidState" "invalid state transition".

Definition PlayerID_Validate (id : PlayerID) : option error :=
  if String.eqb (TrimSpace id) "" then Some (errors_New "player id is required")
  else None.

Definition GroupID_Validate (id : GroupID) : option error :=
  if String.eqb (TrimSpace id) "" then Some (errors_New "group id is required")
  else None.

Definition BattleID_Validate (id : BattleID) : option error :=
  if String.eqb (TrimSpace id) "" then Some (errors_New "battle id is required")
  else None.

Definition SeasonID_Validate (id : SeasonID) : option error :=
  if String.eqb (TrimSpace id) "" then Some (errors_New "season id is required")
  else None.

Definition BotCommandID_Validate (id : BotCommandID) : option error :=
  if String.eqb (TrimSpace id) "" then Some (errors_New "bot command id is required")
  else None.

Definition IdempotencyKey_Validate (key : IdempotencyKey) : option error :=
  if String.eqb (TrimSpace key) "" then Some (errors_New "idempotency key is required")
  else None.

(** Modelled from the spec: the type [shared.TournamentID] and its
    [Validate] method are used by the tournament packages but are not
    declared in the sources at hand.  The specification gives every
    identifier type the same rule: [Validate] fails when the trimmed
    value is blank.  The error value is the one the sibling identifier
    types build. *)
Definition TournamentID_Validate (id : TournamentID) : option error :=
  if String.eqb (TrimSpace id) "" then Some (errors_New "tournament id is required")
  else None.

End shared.

(* ===================================================================== *)
(** * Package tournament: the Tournament aggregate                         *)
(* ===================================================================== *)

Module tournament.

Definition ErrTournamentNotFound : error :=
  Sentinel "tournament.ErrTournamentNotFound" "tournament not found".
Definition ErrTournamentAlreadyExists : error :=
  Sentinel "tournament.ErrTournamentAlreadyExists" "tournament already exists".
Definition ErrTournamentAlreadyEnded : error :=
  Sentinel "tournament.ErrTournamentAlreadyEnded" "tournament already ended".
Definition ErrParticipantNotFound : error :=
  Sentinel "tournament.ErrParticipantNotFound" "participant not found".
Definition ErrParticipantAlreadyJoined : error :=
  Sentinel "tournament.ErrParticipantAlreadyJoined" "participant already joined".
Definition ErrTournamentFull : error :=
  Sentinel "tournament.ErrTournamentFull" "tournament is full".
Definition ErrInvalidAttemptCount : error :=
  Sentinel "tournament.ErrInvalidAttemptCount" "invalid attempt count".

(** [SortOrder], [Operator] and [TournamentState] are string types. *)
Definition SortOrder : Type := string.
Definition SortOrderAscending : SortOrder := "asc".
Definition SortOrderDescending : SortOrder := "desc".

Definition Operator : Type := string.
Definition OperatorBest : Operator := "best".
Definition OperatorSet : Operator := "set".
Definition OperatorIncrement : Operator := "incr".
Definition OperatorDecrement : Operator := "decr".

Definition TournamentState : Type := string.
Definition StateActive : TournamentState := "active".
Definition StateEnded : TournamentState := "ended".
Definition StateReset : TournamentState := "reset".

Record Tournament : Type := mkTournament {
  ID : shared.TournamentID;
  Title : string;
  Description : string;
  Category : Z;
  Sort : SortOrder;
  Op : Operator;
  ResetSchedule : string;
  Authoritative : bool;
  JoinRequired : bool;
  MaxSize : Z;
  MaxNumScore : Z;
  StartTime : Time;
  EndTime : option Time;
  Duration : Go.Duration;
  State : TournamentState;
  CreatedAt : Time;
  UpdatedAt : Time
}.

Definition NewTournament
    (id : shared.TournamentID) (title description : string) (category : Z)
    (sortOrder : SortOrder) (operator : Operator) (resetSchedule : string)
    (authoritative joinRequired : bool) (maxSize maxNumScore : Z)
    (startTime : Time) (duration : Go.Duration) (now : Time)
  : Tournament + error :=
  match shared.TournamentID_Validate id with
  | Some err => inr err
  | None =>
    if String.eqb title "" then inr (errors_New "title is required")
    else if category <? 0 then
      inr (errors_New "category must be non-negative")
    else if maxSize <? 0 then
      inr (errors_New "max size must be non-negative")
    else if maxNumScore <? 0 then
      inr (errors_New "max num score must be non-negative")
    else if IsZero startTime then
      inr (errors_New "start time is required")
    else if duration <? 0 then
      inr (errors_New "duration must be non-negative")
    else
      inl {| ID := id; Title := title; Description := description;
               Category := category; Sort := sortOrder; Op := operator;
               ResetSchedule := resetSchedule;
               Authoritative := authoritative; JoinRequired := joinRequired;
               MaxSize := maxSize; MaxNumScore := maxNumScore;
               StartTime := startTime; EndTime := None;
               Duration := duration; State := StateActive;
               CreatedAt := now; UpdatedAt := now |}
  end.

Definition set_ended (t : Tournament) (endTime : Time) : Tournament :=
  {| ID := ID t; Title := Title t; Description := Description t;
     Category := Category t; Sort := Sort t; Op := Op t;
     ResetSchedule := ResetSchedule t;
     Authoritative := Authoritative t; JoinRequired := JoinRequired t;
     MaxSize := MaxSize t; MaxNumScore := MaxNumScore t;
     StartTime := StartTime t; EndTime := Some endTime;
     Duration := Duration t; State := StateEnded;
     CreatedAt := CreatedAt t; UpdatedAt := endTime |}.

Definition set_reset (t : Tournament) (resetTime : Time) : Tournament :=
  {| ID := ID t; Title := Title t; Description := Description t;
     Category := Category t; Sort := Sort t; Op := Op t;
     ResetSchedule := ResetSchedule t;
     Authoritative := Authoritative t; JoinRequired := JoinRequired t;
     MaxSize := MaxSize t; MaxNumScore := MaxNumScore t;
     StartTime := StartTime t; EndTime := EndTime t;
     Duration := Duration t; State := StateReset;
     CreatedAt := CreatedAt t; UpdatedAt := resetTime |}.

(** [End] on a pointer receiver: the receiver after the call and the
    error returned. *)
Definition End (t : Tournament) (endTime : Time) : Tournament * option error :=
  if String.eqb (State t) StateEnded then (t, Some ErrTournamentAlreadyEnded)
  else if Before endTime (StartTime t) then
    (t, Some (errors_New "end time cannot be before start time"))
  else (set_ended t endTime, None).

Definition Reset (t : Tournament) (resetTime : Time) : Tournament * option error :=
  if negb (String.eqb (State t) StateActive)
     && negb (String.eqb (State t) StateEnded)
  then (t, Some (errors_New "can only reset active or ended tournaments"))
  else (set_reset t resetTime, None).

Definition IsActive (t : Tournament) : bool := String.eqb (State t) StateActive.

Definition CalculateEndTime (t : Tournament) : Time :=
  if 0 <? Duration t then Add (StartTime t) (Duration t)
  else match EndTime t with
       | Some e => e
       | None => zeroTime
       end.

Definition Validate (t : Tournament) : option error :=
  match shared.TournamentID_Validate (ID t) with
  | Some err => Some err
  | None =>
    if String.eqb (Title t) "" then Some (errors_New "title is required")
    else if IsZero (StartTime t) then Some (errors_New "start time is required")
    else None
  end.

End tournament.

(** The Participant entity of package tournament. *)
Module participant.

Record Participant : Type := mkParticipant {
  TournamentID : shared.TournamentID;
  PlayerID : shared.PlayerID;
  Attempts : Z;
  JoinedAt : Time;
  UpdatedAt : Time
}.

Definition NewParticipant (tournamentID : shared.TournamentID)
    (playerID : shared.PlayerID) (joinedAt : Time)
  : Participant + error :=
  match shared.TournamentID_Validate tournamentID with
  | Some err => inr err
  | None =>
    match shared.PlayerID_Validate playerID with
    | Some err => inr err
    | None =>
      if IsZero joinedAt then inr (errors_New "joined time is required")
      else inl {| TournamentID := tournamentID; PlayerID := playerID;
                    Attempts := 0; JoinedAt := joinedAt;
                    UpdatedAt := joinedAt |}
    end
  end.

Definition AddAttempts (p : Participant) (count : Z) (now : Time)
  : Participant * option error :=
  if count <=? 0 then (p, Some (errors_New "attempt count must be positive"))
  else ({| TournamentID := TournamentID p; PlayerID := PlayerID p;
           Attempts := int_add (Attempts p) count;
           JoinedAt := JoinedAt p; UpdatedAt := now |}, None).


End participant.


(* ===================================================================== *)
(** * Package player: the PlayerAccount aggregate                          *)
(* ===================================================================== *)

Module player.

Definition ErrEmailRequired : error :=
  Sentinel "player.ErrEmailRequired" "player email is required".
Definition ErrAccountSuspended : error :=
  Sentinel "player.ErrAccountSuspended" "player account suspended".
Definition ErrDeviceInvalid : error :=
  Sentinel "player.ErrDeviceInvalid" "device fingerprint invalid".

(** The fields [ID], [Platform] and [LastSeen] of [DeviceFingerprint]. *)
Record DeviceFingerprint : Type := mkDeviceFingerprint {
  dev_ID : string;
  dev_Platform : string;
  dev_LastSeen : Time
}.

Record SessionMetadata : Type := mkSessionMetadata {
  SessionID : string;
  IpAddress : string;
  UserAgent : string;
  IssuedAt : Time
}.

(** [Devices] is a Go map: [None] is the nil map, which reads as the
    empty map and panics when written. *)
Record PlayerAccount : Type := mkPlayerAccount {
  ID : shared.PlayerID;
  Email : string;
  DisplayName : string;
  Devices : option (gmap string DeviceFingerprint);
  Sessions : list SessionMetadata;
  CreatedAt : Time;
  UpdatedAt : Time;
  Suspended : bool;
  SuspensionMsg : string
}.

Definition NewPlayerAccount (id : shared.PlayerID) (email displayName : string)
    (now : Time) : PlayerAccount + error :=
  match shared.PlayerID_Validate id with
  | Some err => inr err
  | None =>
    if String.eqb email "" then inr ErrEmailRequired
    else
      inl {| ID := id; Email := email; DisplayName := displayName;
               Devices := Some ∅; Sessions := [];
               CreatedAt := now; UpdatedAt := now;
               Suspended := false; SuspensionMsg := "" |}
  end.

Definition with_Devices (p : PlayerAccount)
    (d : option (gmap string DeviceFingerprint)) : PlayerAccount :=
  {| ID := ID p; Email := Email p; DisplayName := DisplayName p;
     Devices := d; Sessions := Sessions p;
     CreatedAt := CreatedAt p; UpdatedAt := UpdatedAt p;
     Suspended := Suspended p; SuspensionMsg := SuspensionMsg p |}.

Definition with_Sessions (p : PlayerAccount) (s : list SessionMetadata)
  : PlayerAccount :=
  {| ID := ID p; Email := Email p; DisplayName := DisplayName p;
     Devices := Devices p; Sessions := s;
     CreatedAt := CreatedAt p; UpdatedAt := UpdatedAt p;
     Suspended := Suspended p; SuspensionMsg := SuspensionMsg p |}.

Definition with_UpdatedAt (p : PlayerAccount) (t : Time) : PlayerAccount :=
  {| ID := ID p; Email := Email p; DisplayName := DisplayName p;
     Devices := Devices p; Sessions := Sessions p;
     CreatedAt := CreatedAt p; UpdatedAt := t;
     Suspended := Suspended p; SuspensionMsg := SuspensionMsg p |}.

Definition with_Suspension (p : PlayerAccount) (b : bool) (msg : string)
  : PlayerAccount :=
  {| ID := ID p; Email := Email p; DisplayName := DisplayName p;
     Devices := Devices p; Sessions := Sessions p;
     CreatedAt := CreatedAt p; UpdatedAt := UpdatedAt p;
     Suspended := b; SuspensionMsg := msg |}.

(** [RegisterDevice] reads the wall clock: the result is the receiver
    after the call with the error returned, or a panic (a write to a nil
    [Devices] map), together with the wall clock after the call. *)
Definition RegisterDevice (p : PlayerAccount) (device : DeviceFingerprint)
    (w : Wall) : Result (PlayerAccount * option error) * Wall :=
  if Suspended p then (Ok (p, Some ErrAccountSuspended), w)
  else if String.eqb (dev_ID device) "" then (Ok (p, Some ErrDeviceInvalid), w)
  else
    let '(device, w) :=
      if IsZero (dev_LastSeen device) then
        let '(t, w) := time_Now w in
        ({| dev_ID := dev_ID device; dev_Platform := dev_Platform device;
            dev_LastSeen := t |}, w)
      else (device, w) in
    match Devices p with
    | None => (Panic "assignment to entry in nil map", w)
    | Some m =>
      let p := with_Devices p (Some (<[dev_ID device := device]> m)) in
      let '(t, w) := time_Now w in
      (Ok (with_UpdatedAt p t, None), w)
    end.

(** [RecordSession] has no result value; it reads the wall clock. *)
Definition RecordSession (p : PlayerAccount) (session : SessionMetadata)
    (w : Wall) : PlayerAccount * Wall :=
  if String.eqb (SessionID session) "" then (p, w)
  else
    let '(session, w) :=
      if IsZero (IssuedAt session) then
        let '(t, w) := time_Now w in
        ({| SessionID := SessionID session; IpAddress := IpAddress session;
            UserAgent := UserAgent session; IssuedAt := t |}, w)
      else (session, w) in
    let p := with_Sessions p (Sessions p ++ [session]) in
    let '(t, w) := time_Now w in
    (with_UpdatedAt p t, w).

Definition Suspend (p : PlayerAccount) (message : string) (w : Wall)
  : PlayerAccount * Wall :=
  let p := with_Suspension p true message in
  let '(t, w) := time_Now w in
  (with_UpdatedAt p t, w).

Definition Reinstate (p : PlayerAccount) (w : Wall) : PlayerAccount * Wall :=
  let p := with_Suspension p false "" in
  let '(t, w) := time_Now w in
  (with_UpdatedAt p t, w).

Definition CanStartBattle (p : PlayerAccount) (key : shared.IdempotencyKey)
  : PlayerAccount * option error :=
  if Suspended p then (p, Some ErrAccountSuspended)
  else match shared.IdempotencyKey_Validate key with
       | Some err => (p, Some err)
       | None => (p, None)
       end.

End player.

(* ===================================================================== *)
(** * Package battle: the Battle aggregate                                 *)
(* ===================================================================== *)

Module battle.

Definition ErrPlayerAlreadyJoined : error :=
  Sentinel "battle.ErrPlayerAlreadyJoined" "player already joined battle".
Definition ErrPlayerNotFound : error :=
  Sentinel "battle.ErrPlayerNotFound" "player not in battle".

(** The field [UpdatedAt] of [MatchState] is [ms_UpdatedAt]. *)
Record MatchState : Type := mkMatchState {
  Tick : Z;
  Payload : list N;
  ms_UpdatedAt : Time
}.

Record PlayerSlot : Type := mkPlayerSlot {
  PlayerID : shared.PlayerID;
  JoinedAt : Time;
  Ready : bool
}.

Record Battle : Type := mkBattle {
  ID : shared.BattleID;
  Leader : shared.PlayerID;
  Slots : list PlayerSlot;
  StateSnapshot : MatchState;
  CreatedAt : Time;
  UpdatedAt : Time;
  IdempotencyKey : shared.IdempotencyKey
}.

Definition NewBattle (id : shared.BattleID) (leader : shared.PlayerID)
    (key : shared.IdempotencyKey) (now : Time) : Battle + error :=
  match shared.BattleID_Validate id with
  | Some err => inr err
  | None =>
    match shared.PlayerID_Validate leader with
    | Some err => inr err
    | None =>
      match shared.IdempotencyKey_Validate key with
      | Some err => inr err
      | None =>
        inl {| ID := id; Leader := leader;
                 Slots := [ {| PlayerID := leader; JoinedAt := now; Ready := true |} ];
                 StateSnapshot := {| Tick := 0; Payload := []; ms_UpdatedAt := zeroTime |};
                 CreatedAt := now; UpdatedAt := now;
                 IdempotencyKey := key |}
      end
    end
  end.

(** The loop of [AddPlayer]: is some slot held by [player]? *)
Fixpoint joined (slots : list PlayerSlot) (player : shared.PlayerID) : bool :=
  match slots with
  | [] => false
  | slot :: rest => if String.eqb (PlayerID slot) player then true else joined rest player
  end.

Definition AddPlayer (b : Battle) (player : shared.PlayerID) (now : Time)
  : Battle * option error :=
  if joined (Slots b) player then (b, Some ErrPlayerAlreadyJoined)
  else
    ({| ID := ID b; Leader := Leader b;
        Slots := Slots b ++ [ {| PlayerID := player; JoinedAt := now; Ready := false |} ];
        StateSnapshot := StateSnapshot b;
        CreatedAt := CreatedAt b; UpdatedAt := now;
        IdempotencyKey := IdempotencyKey b |}, None).

(** The loop of [MarkReady]: the index of the first slot of [player],
    counted from [i]. *)
Fixpoint slot_index (slots : list PlayerSlot) (player : shared.PlayerID) (i : nat)
  : option (nat * PlayerSlot) :=
  match slots with
  | [] => None
  | slot :: rest =>
    if String.eqb (PlayerID slot) player then Some (i, slot)
    else slot_index rest player (S i)
  end.

Definition MarkReady (b : Battle) (player : shared.PlayerID) (ready : bool)
    (now : Time) : Battle * option error :=
  match slot_index (Slots b) player 0 with
  | Some (i, slot) =>
    let slot := {| PlayerID := PlayerID slot; JoinedAt := JoinedAt slot;
                   Ready := ready |} in
    ({| ID := ID b; Leader := Leader b;
        Slots := <[i := slot]> (Slots b);
        StateSnapshot := StateSnapshot b;
        CreatedAt := CreatedAt b; UpdatedAt := now;
        IdempotencyKey := IdempotencyKey b |}, None)
  | None => (b, Some ErrPlayerNotFound)
  end.

(** [UpdateSnapshot] reads the wall clock when the snapshot carries no
    time of its own. *)
Definition UpdateSnapshot (b : Battle) (state : MatchState) (w : Wall)
  : Battle * Wall :=
  let '(state, w) :=
    if IsZero (ms_UpdatedAt state) then
      let '(t, w) := time_Now w in
      ({| Tick := Tick state; Payload := Payload state; ms_UpdatedAt := t |}, w)
    else (state, w) in
  ({| ID := ID b; Leader := Leader b; Slots := Slots b;
      StateSnapshot := state;
      CreatedAt := CreatedAt b; UpdatedAt := ms_UpdatedAt state;
      IdempotencyKey := IdempotencyKey b |}, w).

End battle.

(* ===================================================================== *)
(** * Package group: the Group aggregate                                   *)
(* ===================================================================== *)

Module group.

Definition ErrNameRequired : error :=
  Sentinel "group.ErrNameRequired" "group name required".
Definition ErrMemberNotFound : error :=
  Sentinel "group.ErrMemberNotFound" "group member not found".

Definition Role : Type := string.
Definition RoleOwner : Role := "owner".

(** The field [Role] of [Membership] is [mem_Role]. *)
Record Membership : Type := mkMembership {
  PlayerID : shared.PlayerID;
  mem_Role : Role;
  JoinedAt : Time
}.

Record Group : Type := mkGroup {
  ID : shared.GroupID;
  Name : string;
  Description : string;
  Members : option (gmap string Membership);
  CreatedAt : Time;
  UpdatedAt : Time
}.

Definition NewGroup (id : shared.GroupID) (name : string)
    (owner : shared.PlayerID) (now : Time) : Group + error :=
  match shared.GroupID_Validate id with
  | Some err => inr err
  | None =>
    match shared.PlayerID_Validate owner with
    | Some err => inr err
    | None =>
      if String.eqb name "" then inr ErrNameRequired
      else
        inl {| ID := id; Name := name; Description := "";
                 Members := Some {[ owner :=
                   {| PlayerID := owner; mem_Role := RoleOwner; JoinedAt := now |} ]};
                 CreatedAt := now; UpdatedAt := now |}
    end
  end.

(** A read of a nil map finds nothing. *)
Definition member_lookup (g : Group) (playerID : shared.PlayerID)
  : option Membership :=
  match Members g with
  | Some m => m !! playerID
  | None => None
  end.

Definition AssignRole (g : Group) (playerID : shared.PlayerID) (role : Role)
    (now : Time) : Group * option error :=
  match Members g, member_lookup g playerID with
  | Some m, Some member =>
    let member := {| PlayerID := PlayerID member; mem_Role := role;
                     JoinedAt := JoinedAt member |} in
    ({| ID := ID g; Name := Name g; Description := Description g;
        Members := Some (<[playerID := member]> m);
        CreatedAt := CreatedAt g; UpdatedAt := now |}, None)
  | _, _ => (g, Some ErrMemberNotFound)
  end.

End group.

(* ===================================================================== *)
(** * Package analytics (domain): sessions and events                      *)
(* ===================================================================== *)

Module analytics.

Definition ErrSessionNotFound : error :=
  Sentinel "analytics.ErrSessionNotFound" "session not found".
Definition ErrSessionAlreadyEnded : error :=
  Sentinel "analytics.ErrSessionAlreadyEnded" "session already ended".
Definition ErrInvalidEvent : error :=
  Sentinel "analytics.ErrInvalidEvent" "invalid event".
Definition ErrDispatchFailed : error :=
  Sentinel "analytics.ErrDispatchFailed" "failed to dispatch events".

Definition SessionState : Type := string.
Definition SessionStateActive : SessionState := "active".
Definition SessionStateEnded : SessionState := "ended".

Record Session : Type := mkSession {
  UserID : shared.PlayerID;
  State : SessionState;
  Version : string;
  Variant : string;
  StartedAt : Time;
  EndedAt : option Time
}.

Definition NewSession (userID : shared.PlayerID) (version variant : string)
    (startedAt : Time) : Session + error :=
  match shared.PlayerID_Validate userID with
  | Some err => inr err
  | None =>
    if String.eqb version "" then inr (errors_New "version is required")
    else if IsZero startedAt then inr (errors_New "start time is required")
    else inl {| UserID := userID; State := SessionStateActive;
                Version := version; Variant := variant;
                StartedAt := startedAt; EndedAt := None |}
  end.

Definition End (s : Session) (endedAt : Time) : Session * option error :=
  if String.eqb (State s) SessionStateEnded then
    (s, Some (errors_New "session already ended"))
  else if Before endedAt (StartedAt s) then
    (s, Some (errors_New "end time cannot be before start time"))
  else
    ({| UserID := UserID s; State := SessionStateEnded;
        Version := Version s; Variant := Variant s;
        StartedAt := StartedAt s; EndedAt := Some endedAt |}, None).

Definition IsActive (s : Session) : bool := String.eqb (State s) SessionStateActive.

Definition EventType : Type := string.
Definition EventTypeIdentify : EventType := "identify".
Definition EventTypeTrack : EventType := "track".

Definition EventName : Type := string.
Definition EventNameStart : EventName := "start".
Definition EventNameEnd : EventName := "end".

(** The fields [Name] and [Version] of [LibraryInfo], [AppInfo] and
    [OSInfo] carry the name of their record. *)
Record LibraryInfo : Type := mkLibraryInfo { lib_Name : string; lib_Version : string }.
Record Context : Type := mkContext { Direct : bool; Library : LibraryInfo }.
Record AppInfo : Type := mkAppInfo { app_Name : string; app_Version : string }.
Record OSInfo : Type := mkOSInfo { os_Name : string; os_Version : string }.

(** The fields [Type], [UserID], [Name] and [Context] of [Event] are
    [ev_Type], [ev_UserID], [ev_Name] and [ev_Context]. *)
Record Event : Type := mkEvent {
  ev_Type : EventType;
  ev_UserID : shared.PlayerID;
  ev_Name : EventName;
  ev_Context : Context;
  App : option AppInfo;
  OS : option OSInfo;
  Timestamp : Time
}.

Definition NewIdentifyEvent (userID : shared.PlayerID) (ctx : Context)
    (timestamp : Time) : Event + error :=
  match shared.PlayerID_Validate userID with
  | Some err => inr err
  | None =>
    if IsZero timestamp then inr (errors_New "timestamp cannot be zero")
    else inl {| ev_Type := EventTypeIdentify; ev_UserID := userID;
                ev_Name := ""; ev_Context := ctx;
                App := None; OS := None; Timestamp := timestamp |}
  end.

Definition NewTrackEvent (userID : shared.PlayerID) (name : EventName)
    (ctx : Context) (timestamp : Time) : Event + error :=
  match shared.PlayerID_Validate userID with
  | Some err => inr err
  | None =>
    if String.eqb name "" then inr (errors_New "event name cannot be empty")
    else if IsZero timestamp then inr (errors_New "timestamp cannot be zero")
    else inl {| ev_Type := EventTypeTrack; ev_UserID := userID;
                ev_Name := name; ev_Context := ctx;
                App := None; OS := None; Timestamp := timestamp |}
  end.

(** [Duration] of a session: read off the wall clock while the session
    has no end. *)
Definition Duration (s : Session) (w : Wall) : Go.Duration * Wall :=
  match EndedAt s with
  | None => Since (StartedAt s) w
  | Some e => (Sub e (StartedAt s), w)
  end.

Definition WithAppInfo (e : Event) (name version : string) : Event :=
  {| ev_Type := ev_Type e; ev_UserID := ev_UserID e; ev_Name := ev_Name e;
     ev_Context := ev_Context e;
     App := Some {| app_Name := name; app_Version := version |};
     OS := OS e; Timestamp := Timestamp e |}.

Definition WithOSInfo (e : Event) (name version : string) : Event :=
  {| ev_Type := ev_Type e; ev_UserID := ev_UserID e; ev_Name := ev_Name e;
     ev_Context := ev_Context e;
     App := App e;
     OS := Some {| os_Name := name; os_Version := version |};
     Timestamp := Timestamp e |}.

(** [Validate] of an event. *)
Definition Validate (e : Event) : option error :=
  if String.eqb (ev_Type e) "" then Some (errors_New "event type is required")
  else
    match shared.PlayerID_Validate (ev_UserID e) with
    | Some err => Some err
    | None =>
      if String.eqb (ev_Type e) EventTypeTrack && String.eqb (ev_Name e) "" then
        Some (errors_New "track events require a name")
      else if IsZero (Timestamp e) then Some (errors_New "timestamp is required")
      else None
    end.

End analytics.

(* ===================================================================== *)
(** * Package bot (domain): the Command aggregate                          *)
(* ===================================================================== *)

Module bot.

Definition CommandState : Type := string.
Definition CommandStatePending : CommandState := "pending".
Definition CommandStateCompleted : CommandState := "completed".
Definition CommandStateFailed : CommandState := "failed".

Record Command : Type := mkCommand {
  ID : shared.BotCommandID;
  Channel : string;
  Payload : list N;
  IdempotencyKey : shared.IdempotencyKey;
  State : CommandState;
  AttemptedAt : Time;
  CompletedAt : Time;
  RetryCount : Z;
  LastError : string;
  CreatedAt : Time
}.

Definition NewCommand (id : shared.BotCommandID) (channel : string)
    (payload : list N) (key : shared.IdempotencyKey) (now : Time)
  : Command + error :=
  match shared.BotCommandID_Validate id with
  | Some err => inr err
  | None =>
    match shared.IdempotencyKey_Validate key with
    | Some err => inr err
    | None =>
      inl {| ID := id; Channel := channel; Payload := payload;
             IdempotencyKey := key; State := CommandStatePending;
             AttemptedAt := zeroTime; CompletedAt := zeroTime;
             RetryCount := 0; LastError := ""; CreatedAt := now |}
    end
  end.

Definition MarkAttempt (c : Command) (now : Time) (err : option error) : Command :=
  match err with
  | Some err =>
    {| ID := ID c; Channel := Channel c; Payload := Payload c;
       IdempotencyKey := IdempotencyKey c; State := CommandStateFailed;
       AttemptedAt := now; CompletedAt := CompletedAt c;
       RetryCount := int_add (RetryCount c) 1; LastError := Error err;
       CreatedAt := CreatedAt c |}
  | None =>
    {| ID := ID c; Channel := Channel c; Payload := Payload c;
       IdempotencyKey := IdempotencyKey c; State := CommandStateCompleted;
       AttemptedAt := now; CompletedAt := now;
       RetryCount := RetryCount c; LastError := "";
       CreatedAt := CreatedAt c |}
  end.

End bot.

(* ===================================================================== *)
(** * Calls of a command service                                           *)
(* ===================================================================== *)

(** A command service runs against an environment [E]: whatever state its
    repositories, providers and clock keep.  A call of a collaborator is a
    function [E -> A * E].  The service threads the environment through
    its calls and records each call in a trace of events of type [C]; it
    returns, or panics on a nil dereference. *)
Module Eff.

Section Monad.
Context {E C : Type}.

Definition M (A : Type) : Type := E * list C -> Result A * (E * list C).

Definition ret {A} (a : A) : M A := fun w => (Ok a, w).

Definition bind {A B} (m : M A) (f : A -> M B) : M B :=
  fun w =>
    match m w with
    | (Ok a, w') => f a w'
    | (Panic msg, w') => (Panic msg, w')
    end.

Definition panic {A} (msg : string) : M A := fun w => (Panic msg, w).

(** Call a collaborator, recording the event [ev]. *)
Definition call {A} (ev : C) (op : E -> A * E) : M A :=
  fun w =>
    let '(a, e) := op (fst w) in
    (Ok a, (e, (snd w ++ [ev])%list)).

(** Record an event that touches no collaborator. *)
Definition note (ev : C) : M unit :=
  fun w => (Ok tt, (fst w, (snd w ++ [ev])%list)).

(** Call a collaborator that may panic. *)
Definition call_may_panic {A} (ev : C) (op : E -> Result A * E) : M A :=
  fun w =>
    let '(r, e) := op (fst w) in
    (r, (e, (snd w ++ [ev])%list)).

(** A step on the environment that is no call of a collaborator. *)
Definition silent {A} (op : E -> A * E) : M A :=
  fun w =>
    let '(a, e) := op (fst w) in
    (Ok a, (e, snd w)).

End Monad.

Arguments M : clear implicits.

#[global] Instance M_ret {E C} : MRet (M E C) := fun A a => ret a.
#[global] Instance M_bind {E C} : MBind (M E C) := fun A B f m => bind m f.

End Eff.


(* ===================================================================== *)
(** * Package bot (application): command intake                            *)
(* ===================================================================== *)

Module botapp.

Import bot.

Section Service.
Context {E : Type}.

(** The interface [bot.Repository]. *)
Class Repository : Type := {
  ReserveCommand : shared.IdempotencyKey -> E -> (option Command * option error) * E;
  Save : Command -> E -> option error * E;
  MarkProcessed : shared.BotCommandID -> CommandState -> E -> option error * E
}.

Class QueueProducer : Type := {
  Enqueue : Command -> E -> option error * E
}.

(** The payload of [Notify] is a map from strings to values; the service
    only ever sends strings. *)
Class Notifier : Type := {
  Notify : shared.PlayerID -> gmap string string -> E -> option error * E
}.

(** A nil [Producer] or [Notifier] is [None]. *)
Record Service : Type := mkService {
  Repo : Repository;
  Producer : option QueueProducer;
  Notif : option Notifier;
  Clock : E -> Time * E
}.

Record CommandInput : Type := mkCommandInput {
  CommandID : shared.BotCommandID;
  in_Channel : string;
  PlayerID : shared.PlayerID;
  in_Payload : list N;
  in_IdempotencyKey : shared.IdempotencyKey
}.

Record CommandResult : Type := mkCommandResult { Accepted : bool }.

Inductive Call : Type :=
| CallClock
| CallReserveCommand (key : shared.IdempotencyKey)
| CallNewCommand
| CallSave (c : Command)
| CallMarkProcessed (id : shared.BotCommandID) (st : CommandState)
| CallEnqueue (c : Command)
| CallNotify (p : shared.PlayerID).

Definition is_store_write (c : Call) : bool :=
  match c with
  | CallSave _ | CallMarkProcessed _ _ | CallEnqueue _ | CallNotify _ => true
  | _ => false
  end.

(** The tail of [Handle], after the command is saved and enqueued. *)
Definition acknowledge (s : Service) (input : CommandInput)
  : Eff.M E Call (CommandResult * option error) :=
  match Notif s with
  | Some n =>
    if negb (String.eqb (PlayerID input) "") then
      _ ← Eff.call (CallNotify (PlayerID input))
            (@Notify n (PlayerID input) {[ "status" := "accepted" ]});
      mret ({| Accepted := true |}, None)
    else mret ({| Accepted := true |}, None)
  | None => mret ({| Accepted := true |}, None)
  end.

Definition Handle (s : Service) (input : CommandInput)
  : Eff.M E Call (CommandResult * option error) :=
  now ← Eff.call CallClock (Clock s);
  '(existing, err) ← Eff.call (CallReserveCommand (in_IdempotencyKey input))
                       (@ReserveCommand (Repo s) (in_IdempotencyKey input));
  match err with
  | None =>
    match existing with
    | None => Eff.panic "nil pointer dereference"
    | Some existing =>
      if String.eqb (State existing) CommandStateCompleted then
        mret ({| Accepted := true |}, None)
      else mret ({| Accepted := false |}, Some shared.ErrDuplicate)
    end
  | Some err =>
    if negb (errors_Is err shared.ErrNotFound) then
      mret ({| Accepted := false |}, Some err)
    else
      _ ← Eff.note CallNewCommand;
      match NewCommand (CommandID input) (in_Channel input) (in_Payload input)
                       (in_IdempotencyKey input) now with
      | inr err => mret ({| Accepted := false |}, Some err)
      | inl cmd =>
        err ← Eff.call (CallSave cmd) (@Save (Repo s) cmd);
        match err with
        | Some err => mret ({| Accepted := false |}, Some err)
        | None =>
          match Producer s with
          | Some producer =>
            err ← Eff.call (CallEnqueue cmd) (@Enqueue producer cmd);
            match err with
            | Some err =>
              let cmd := MarkAttempt cmd now (Some err) in
              _ ← Eff.call (CallSave cmd) (@Save (Repo s) cmd);
              mret ({| Accepted := false |}, Some err)
            | None => acknowledge s input
            end
          | None => acknowledge s input
          end
        end
      end
  end.

End Service.

Arguments Repository : clear implicits.
Arguments QueueProducer : clear implicits.
Arguments Notifier : clear implicits.
Arguments Service : clear implicits.

End botapp.

(* ===================================================================== *)
(** * Package analytics (application): session tracking                    *)
(* ===================================================================== *)

Module analyticsapp.

Import analytics.

Section Service.
Context {E : Type}.

Class EventDispatcher : Type := {
  Dispatch : list Event -> E -> option error * E
}.

Class SessionRepository : Type := {
  Save : Session -> E -> option error * E;
  Get : shared.PlayerID -> E -> (option Session * option error) * E;
  Delete : shared.PlayerID -> E -> option error * E
}.

Record Service : Type := mkService {
  Dispatcher : EventDispatcher;
  Sessions : SessionRepository;
  Clock : E -> Time * E;
  ContextFactory : E -> Context * E
}.

Record EndSessionCommand : Type := mkEndSessionCommand {
  UserID : shared.PlayerID
}.

Inductive Call : Type :=
| CallClock
| CallContextFactory
| CallGet (u : shared.PlayerID)
| CallSave (s : Session)
| CallDelete (u : shared.PlayerID)
| CallDispatch (events : list Event).

(** [EndSession].  The session that [Get] hands out is mutated by [End]
    and then given to [Save]. *)
Definition EndSession (s : Service) (cmd : EndSessionCommand)
  : Eff.M E Call (option error) :=
  match shared.PlayerID_Validate (UserID cmd) with
  | Some err => mret (Some err)
  | None =>
    '(session, err) ← Eff.call (CallGet (UserID cmd))
                        (@Get (Sessions s) (UserID cmd));
    match err with
    | Some err => mret (Some err)
    | None =>
      match session with
      | None => Eff.panic "nil pointer dereference"
      | Some session =>
        now ← Eff.call CallClock (Clock s);
        let '(session, err) := End session now in
        match err with
        | Some err => mret (Some err)
        | None =>
          err ← Eff.call (CallSave session) (@Save (Sessions s) session);
          match err with
          | Some err => mret (Some err)
          | None =>
            context ← Eff.call CallContextFactory (ContextFactory s);
            match NewTrackEvent (UserID cmd) EventNameEnd context now with
            | inr err => mret (Some err)
            | inl trackEvent =>
              let events := [trackEvent] in
              err ← Eff.call (CallDispatch events) (@Dispatch (Dispatcher s) events);
              match err with
              | Some _ => mret (Some ErrDispatchFailed)
              | None =>
                _ ← Eff.call (CallDelete (UserID cmd))
                      (@Delete (Sessions s) (UserID cmd));
                mret None
              end
            end
          end
        end
      end
    end
  end.

(** [runtime.GOOS] and [runtime.GOARCH], constants of the platform. *)
Variable GOOS GOARCH : string.

(** The fields [UserID], [Version] and [Variant] of
    [StartSessionCommand]. *)
Record StartSessionCommand : Type := mkStartSessionCommand {
  start_UserID : shared.PlayerID;
  start_Version : string;
  start_Variant : string
}.

Definition StartSession (s : Service) (cmd : StartSessionCommand)
  : Eff.M E Call (option error) :=
  match shared.PlayerID_Validate (start_UserID cmd) with
  | Some err => mret (Some err)
  | None =>
    if String.eqb (start_Version cmd) "" then mret (Some ErrInvalidEvent)
    else
      now ← Eff.call CallClock (Clock s);
      match NewSession (start_UserID cmd) (start_Version cmd)
                       (start_Variant cmd) now with
      | inr err => mret (Some err)
      | inl session =>
        err ← Eff.call (CallSave session) (@Save (Sessions s) session);
        match err with
        | Some err => mret (Some err)
        | None =>
          context ← Eff.call CallContextFactory (ContextFactory s);
          match NewIdentifyEvent (start_UserID cmd) context now with
          | inr err => mret (Some err)
          | inl identifyEvent =>
            match NewTrackEvent (start_UserID cmd) EventNameStart context now with
            | inr err => mret (Some err)
            | inl trackEvent =>
              let trackEvent :=
                WithOSInfo (WithAppInfo trackEvent (start_Variant cmd)
                                        (start_Version cmd)) GOOS GOARCH in
              let events := [identifyEvent; trackEvent] in
              err ← Eff.call (CallDispatch events)
                      (@Dispatch (Dispatcher s) events);
              match err with
              | Some _ => mret (Some ErrDispatchFailed)
              | None => mret None
              end
            end
          end
        end
      end
  end.

(** The fields of [TrackEventCommand]. *)
Record TrackEventCommand : Type := mkTrackEventCommand {
  track_UserID : shared.PlayerID;
  track_Name : EventName;
  track_AppName : string;
  track_AppVersion : string;
  track_OSName : string;
  track_OSVersion : string
}.

Definition TrackEvent (s : Service) (cmd : TrackEventCommand)
  : Eff.M E Call (option error) :=
  match shared.PlayerID_Validate (track_UserID cmd) with
  | Some err => mret (Some err)
  | None =>
    now ← Eff.call CallClock (Clock s);
    context ← Eff.call CallContextFactory (ContextFactory s);
    match NewTrackEvent (track_UserID cmd) (track_Name cmd) context now with
    | inr err => mret (Some err)
    | inl event =>
      let event :=
        if negb (String.eqb (track_AppName cmd) "")
           || negb (String.eqb (track_AppVersion cmd) "")
        then WithAppInfo event (track_AppName cmd) (track_AppVersion cmd)
        else event in
      let event :=
        if negb (String.eqb (track_OSName cmd) "")
           || negb (String.eqb (track_OSVersion cmd) "")
        then WithOSInfo event (track_OSName cmd) (track_OSVersion cmd)
        else event in
      let events := [event] in
      err ← Eff.call (CallDispatch events) (@Dispatch (Dispatcher s) events);
      match err with
      | Some _ => mret (Some ErrDispatchFailed)
      | None => mret None
      end
    end
  end.

End Service.

Arguments EventDispatcher : clear implicits.
Arguments SessionRepository : clear implicits.
Arguments Service : clear implicits.

(** Package infra/analytics: [MemorySessionRepository], over any
    environment that holds its map of sessions. *)
Section Memory.
Context {E : Type}.
Variable sessions : E -> gmap string Session.
Variable set_sessions : gmap string Session -> E -> E.

Definition MemorySessionRepository : SessionRepository E := {|
  Save := fun session e =>
    (None, set_sessions (<[analytics.UserID session := session]> (sessions e)) e);
  Get := fun userID e =>
    match sessions e !! userID with
    | Some session => ((Some session, None), e)
    | None => ((None, Some ErrSessionNotFound), e)
    end;
  Delete := fun userID e =>
    (None, set_sessions (delete userID (sessions e)) e)
|}.

End Memory.

End analyticsapp.

(* ===================================================================== *)
(** * Package tournaments (application)                                    *)
(* ===================================================================== *)

Module tournaments.

Import tournament.

Record CreateTournamentParams : Type := mkCreateTournamentParams {
  p_ID : string;
  p_Authoritative : bool;
  p_SortOrder : string;
  p_Operator : string;
  p_ResetSchedule : string;
  p_Title : string;
  p_Description : string;
  p_Category : Z;
  p_StartTime : Z;
  p_EndTime : Z;
  p_Duration : Z;
  p_MaxSize : Z;
  p_MaxNumScore : Z;
  p_JoinRequired : bool
}.

Record CreateTournamentCommand : Type := mkCreateTournamentCommand {
  c_ID : shared.TournamentID;
  c_Title : string;
  c_Description : string;
  c_Category : Z;
  c_SortOrder : SortOrder;
  c_Operator : Operator;
  c_ResetSchedule : string;
  c_Authoritative : bool;
  c_JoinRequired : bool;
  c_MaxSize : Z;
  c_MaxNumScore : Z;
  c_StartTime : Time;
  c_EndTime : option Time;
  c_Duration : Go.Duration
}.

Record CreateTournamentResult : Type := mkCreateTournamentResult {
  r_TournamentID : shared.TournamentID
}.

Record DeleteTournamentCommand : Type := mkDeleteTournamentCommand {
  d_TournamentID : shared.TournamentID
}.

Inductive Call : Type :=
| CallClock
| CallRepoSave (t : Tournament)
| CallRepoDelete (id : shared.TournamentID)
| CallProviderCreate (params : CreateTournamentParams)
| CallProviderDelete (id : shared.TournamentID).

Section Service.
Context {E : Type}.

(** The interface [tournament.Repository]; its method [List], which the
    operations below do not call, is left out. *)
Class Repository : Type := {
  Save : Tournament -> E -> option error * E;
  Get : shared.TournamentID -> E -> (option Tournament * option error) * E;
  Delete : shared.TournamentID -> E -> option error * E
}.

Class NakamaProvider : Type := {
  ProviderCreateTournament : CreateTournamentParams -> E -> option error * E;
  ProviderDeleteTournament : shared.TournamentID -> E -> option error * E;
  ProviderAddAttempt : shared.TournamentID -> shared.PlayerID -> Z -> E -> option error * E
}.

Record Service : Type := mkService {
  Repo : Repository;
  Provider : NakamaProvider;
  Clock : E -> Time * E
}.

(** [int(t.Unix())] and [int(d.Seconds())]: the conversions to the
    provider's seconds.  [Seconds] goes through a float; both are taken as
    given. *)
Variable unixSeconds : Time -> Z.
Variable durationSeconds : Go.Duration -> Z.

Definition paramsOf (cmd : CreateTournamentCommand) : CreateTournamentParams :=
  {| p_ID := c_ID cmd;
     p_Authoritative := c_Authoritative cmd;
     p_SortOrder := c_SortOrder cmd;
     p_Operator := c_Operator cmd;
     p_ResetSchedule := c_ResetSchedule cmd;
     p_Title := c_Title cmd;
     p_Description := c_Description cmd;
     p_Category := c_Category cmd;
     p_StartTime := unixSeconds (c_StartTime cmd);
     p_EndTime := match c_EndTime cmd with
                  | Some e => unixSeconds e
                  | None => 0
                  end;
     p_Duration := durationSeconds (c_Duration cmd);
     p_MaxSize := c_MaxSize cmd;
     p_MaxNumScore := c_MaxNumScore cmd;
     p_JoinRequired := c_JoinRequired cmd |}.

Definition CreateTournament (s : Service) (cmd : CreateTournamentCommand)
  : Eff.M E Call (CreateTournamentResult * option error) :=
  now ← Eff.call CallClock (Clock s);
  match NewTournament (c_ID cmd) (c_Title cmd) (c_Description cmd)
          (c_Category cmd) (c_SortOrder cmd) (c_Operator cmd)
          (c_ResetSchedule cmd) (c_Authoritative cmd) (c_JoinRequired cmd)
          (c_MaxSize cmd) (c_MaxNumScore cmd) (c_StartTime cmd)
          (c_Duration cmd) now with
  | inr err => mret ({| r_TournamentID := "" |}, Some err)
  | inl t =>
    err ← Eff.call (CallRepoSave t) (@Save (Repo s) t);
    match err with
    | Some err => mret ({| r_TournamentID := "" |}, Some err)
    | None =>
      let params := paramsOf cmd in
      err ← Eff.call (CallProviderCreate params)
              (@ProviderCreateTournament (Provider s) params);
      match err with
      | Some err => mret ({| r_TournamentID := "" |}, Some err)
      | None => mret ({| r_TournamentID := ID t |}, None)
      end
    end
  end.

Definition DeleteTournament (s : Service) (cmd : DeleteTournamentCommand)
  : Eff.M E Call (option error) :=
  match shared.TournamentID_Validate (d_TournamentID cmd) with
  | Some err => mret (Some err)
  | None =>
    err ← Eff.call (CallProviderDelete (d_TournamentID cmd))
            (@ProviderDeleteTournament (Provider s) (d_TournamentID cmd));
    match err with
    | Some err => mret (Some err)
    | None =>
      err ← Eff.call (CallRepoDelete (d_TournamentID cmd))
              (@Delete (Repo s) (d_TournamentID cmd));
      match err with
      | Some err => mret (Some err)
      | None => mret None
      end
    end
  end.

(** The field [Participants] of the service: the interface
    [tournament.ParticipantRepository], without [ListByTournament]. *)
Class ParticipantRepository : Type := {
  ParticipantSave : participant.Participant -> E -> option error * E;
  ParticipantGet : shared.TournamentID -> shared.PlayerID -> E
                   -> (option participant.Participant * option error) * E;
  ParticipantDelete : shared.TournamentID -> shared.PlayerID -> E -> option error * E
}.

Record AddAttemptCommand : Type := mkAddAttemptCommand {
  a_TournamentID : shared.TournamentID;
  a_PlayerID : shared.PlayerID;
  a_Count : Z
}.

Inductive AttemptCall : Type :=
| AttemptClock
| AttemptGet (t : shared.TournamentID) (p : shared.PlayerID)
| AttemptSave (p : participant.Participant)
| AttemptProvider (t : shared.TournamentID) (p : shared.PlayerID) (count : Z).

(** The tail of [AddAttempt], once the participant is at hand. *)
Definition addAndSync (participants : ParticipantRepository) (s : Service)
    (cmd : AddAttemptCommand) (now : Time) (p : participant.Participant)
  : Eff.M E AttemptCall (option error) :=
  let '(p, err) := participant.AddAttempts p (a_Count cmd) now in
  match err with
  | Some err => mret (Some err)
  | None =>
    err ← Eff.call (AttemptSave p) (@ParticipantSave participants p);
    match err with
    | Some err => mret (Some err)
    | None =>
      err ← Eff.call (AttemptProvider (a_TournamentID cmd) (a_PlayerID cmd) (a_Count cmd))
              (@ProviderAddAttempt (Provider s) (a_TournamentID cmd)
                 (a_PlayerID cmd) (a_Count cmd));
      match err with
      | Some err => mret (Some err)
      | None => mret None
      end
    end
  end.

(** [AddAttempt]; [participants] is the field [Participants] of [s]. *)
Definition AddAttempt (participants : ParticipantRepository) (s : Service)
    (cmd : AddAttemptCommand) : Eff.M E AttemptCall (option error) :=
  match shared.TournamentID_Validate (a_TournamentID cmd) with
  | Some err => mret (Some err)
  | None =>
    match shared.PlayerID_Validate (a_PlayerID cmd) with
    | Some err => mret (Some err)
    | None =>
      if a_Count cmd <=? 0 then mret (Some ErrInvalidAttemptCount)
      else
        now ← Eff.call AttemptClock (Clock s);
        '(found, err) ← Eff.call (AttemptGet (a_TournamentID cmd) (a_PlayerID cmd))
                          (@ParticipantGet participants (a_TournamentID cmd)
                             (a_PlayerID cmd));
        match err with
        | Some err =>
          if error_eqb_head err ErrParticipantNotFound then
            match participant.NewParticipant (a_TournamentID cmd)
                    (a_PlayerID cmd) now with
            | inr err => mret (Some err)
            | inl p => addAndSync participants s cmd now p
            end
          else mret (Some err)
        | None =>
          match found with
          | None => Eff.panic "nil pointer dereference"
          | Some p => addAndSync participants s cmd now p
          end
        end
    end
  end.

(** The method [List] of [tournament.Repository], which may panic. *)
Class ListRepository : Type := {
  List : Z -> Z -> E -> Result (list Tournament * option error) * E
}.

Inductive QueryCall : Type :=
| QueryGet (id : shared.TournamentID)
| QueryList (limit offset : Z).


(** [ListTournaments]; [repo] is the field [Repo] of the service. *)
Definition ListTournaments (repo : ListRepository) (limit offset : Z)
  : Eff.M E QueryCall (list Tournament * option error) :=
  let limit := if limit <=? 0 then 10 else limit in
  let offset := if offset <? 0 then 0 else offset in
  Eff.call_may_panic (QueryList limit offset) (@List repo limit offset).

End Service.

Arguments Repository : clear implicits.
Arguments NakamaProvider : clear implicits.
Arguments Service : clear implicits.
Arguments ParticipantRepository : clear implicits.
Arguments ListRepository : clear implicits.

(** Package infra/tournament: [MemoryRepository], over any environment
    that holds its map of tournaments. *)
Section Memory.
Context {E : Type}.
Variable tournaments : E -> gmap string Tournament.
Variable set_tournaments : gmap string Tournament -> E -> E.

Definition MemoryRepository : Repository E := {|
  Save := fun t e => (None, set_tournaments (<[ID t := t]> (tournaments e)) e);
  Get := fun id e =>
    match tournaments e !! id with
    | Some t => ((Some t, None), e)
    | None => ((None, Some ErrTournamentNotFound), e)
    end;
  Delete := fun id e => (None, set_tournaments (delete id (tournaments e)) e)
|}.

End Memory.

(** The pagination of [MemoryRepository.List], on the slice [all] that
    the loop over the map has filled.  The slice expression panics unless
    [0 <= start <= end]. *)
Definition paginate (all : list tournament.Tournament) (limit offset : Z)
  : Result (list tournament.Tournament) :=
  let len := Z.of_nat (length all) in
  let start := offset in
  if len <? start then Ok []
  else
    let stop := int_add start limit in
    let stop := if len <? stop then len else stop in
    if (0 <=? start) && (start <=? stop) then
      Ok (take (Z.to_nat (stop - start)) (drop (Z.to_nat start) all))
    else Panic "slice bounds out of range".

Section MemoryMore.
Context {E : Type}.
Variable tournaments : E -> gmap string tournament.Tournament.

(** The order in which a loop over the map visits its values; the
    language leaves it open. *)
Variable visit : gmap string tournament.Tournament -> list tournament.Tournament.

Definition MemoryRepositoryList : ListRepository E := {|
  List := fun limit offset e =>
    match paginate (visit (tournaments e)) limit offset with
    | Ok l => (Ok (l, None), e)
    | Panic msg => (Panic msg, e)
    end
|}.

Variable participants : E -> gmap string participant.Participant.
Variable set_participants : gmap string participant.Participant -> E -> E.

Definition makeKey (tournamentID : shared.TournamentID)
    (playerID : shared.PlayerID) : string :=
  tournamentID +:+ ":" +:+ playerID.

Definition MemoryParticipantRepository : ParticipantRepository E := {|
  ParticipantSave := fun p e =>
    let key := makeKey (participant.TournamentID p) (participant.PlayerID p) in
    (None, set_participants (<[key := p]> (participants e)) e);
  ParticipantGet := fun tournamentID playerID e =>
    match participants e !! makeKey tournamentID playerID with
    | Some p => ((Some p, None), e)
    | None => ((None, Some tournament.ErrParticipantNotFound), e)
    end;
  ParticipantDelete := fun tournamentID playerID e =>
    (None, set_participants (delete (makeKey tournamentID playerID) (participants e)) e)
|}.

End MemoryMore.

End tournaments.

(* ===================================================================== *)
(** * Package groups (application): group creation                         *)
(* ===================================================================== *)

Module groups.

Import group.

Record CreateGroupPayload : Type := mkCreateGroupPayload {
  p_Name : string;
  p_Description : string;
  p_CreatorID : shared.PlayerID;
  p_AvatarURL : string;
  p_LangTag : string;
  p_Open : bool
}.

Record CreateGroupResult : Type := mkCreateGroupResult {
  r_GroupID : shared.GroupID;
  r_Handle : string
}.

Record CreateInput : Type := mkCreateInput {
  in_CreatorID : shared.PlayerID;
  in_Name : string;
  in_Description : string;
  in_Open : bool;
  in_AvatarURL : string;
  in_LangTag : string
}.

Record CreateOutput : Type := mkCreateOutput {
  out_GroupID : shared.GroupID;
  out_Handle : string
}.

Inductive Call : Type :=
| CallClock
| CallProviderCreateGroup (payload : CreateGroupPayload)
| CallRepoSave (g : Group).

Section Service.
Context {E : Type}.

(** The methods of the interfaces that [CreateGroup] calls. *)
Class Provider : Type := {
  ProviderCreateGroup : CreateGroupPayload -> E -> (CreateGroupResult * option error) * E
}.

Class Repository : Type := {
  Save : Group -> E -> option error * E
}.

Record Service : Type := mkService {
  Repo : Repository;
  Prov : Provider;
  Clock : E -> Time * E
}.

Definition CreateGroup (s : Service) (cmd : CreateInput)
  : Eff.M E Call (CreateOutput * option error) :=
  match shared.PlayerID_Validate (in_CreatorID cmd) with
  | Some err => mret ({| out_GroupID := ""; out_Handle := "" |}, Some err)
  | None =>
    now ← Eff.call CallClock (Clock s);
    let payload :=
      {| p_Name := in_Name cmd; p_Description := in_Description cmd;
         p_CreatorID := in_CreatorID cmd; p_AvatarURL := in_AvatarURL cmd;
         p_LangTag := in_LangTag cmd; p_Open := in_Open cmd |} in
    '(result, err) ← Eff.call (CallProviderCreateGroup payload)
                       (@ProviderCreateGroup (Prov s) payload);
    match err with
    | Some err => mret ({| out_GroupID := ""; out_Handle := "" |}, Some err)
    | None =>
      match NewGroup (r_GroupID result) (in_Name cmd) (in_CreatorID cmd) now with
      | inr err => mret ({| out_GroupID := ""; out_Handle := "" |}, Some err)
      | inl aggregate =>
        let aggregate :=
          {| ID := ID aggregate; Name := Name aggregate;
             Description := in_Description cmd;
             Members := Members aggregate;
             CreatedAt := CreatedAt aggregate;
             UpdatedAt := UpdatedAt aggregate |} in
        err ← Eff.call (CallRepoSave aggregate) (@Save (Repo s) aggregate);
        match err with
        | Some err => mret ({| out_GroupID := ""; out_Handle := "" |}, Some err)
        | None => mret ({| out_GroupID := r_GroupID result;
                           out_Handle := r_Handle result |}, None)
        end
      end
    end
  end.

End Service.

Arguments Provider : clear implicits.
Arguments Repository : clear implicits.
Arguments Service : clear implicits.

End groups.

(* ===================================================================== *)
(** * Package battles (application): battle creation                       *)
(* ===================================================================== *)

Module battles.

Import battle.

Section Service.
Context {E : Type}.

(** The type of the metadata map, whose values are of any type; the
    service hands it on as it is. *)
Variable Metadata : Type.

Record StartBattlePayload : Type := mkStartBattlePayload {
  p_LeaderID : shared.PlayerID;
  p_Metadata : Metadata;
  p_Preset : string
}.

Record StartBattleResult : Type := mkStartBattleResult {
  r_BattleID : shared.BattleID;
  r_MatchID : string
}.

Record StartCommand : Type := mkStartCommand {
  c_LeaderID : shared.PlayerID;
  c_IdempotencyKey : shared.IdempotencyKey;
  c_Metadata : Metadata;
  c_Preset : string
}.

Record StartResult : Type := mkStartResult {
  BattleID : shared.BattleID;
  MatchID : string
}.

Inductive Call : Type :=
| CallClock
| CallCreateMatch (payload : StartBattlePayload)
| CallRepoSave (b : Battle).

Class MatchProvider : Type := {
  CreateMatch : StartBattlePayload -> E -> (StartBattleResult * option error) * E
}.

(** The method of [battle.Repository] that [StartBattle] calls. *)
Class Repository : Type := {
  Save : Battle -> E -> option error * E
}.

Record Service : Type := mkService {
  Repo : Repository;
  Provider : MatchProvider;
  Clock : E -> Time * E
}.

Definition StartBattle (s : Service) (cmd : StartCommand)
  : Eff.M E Call (StartResult * option error) :=
  match shared.PlayerID_Validate (c_LeaderID cmd) with
  | Some err => mret ({| BattleID := ""; MatchID := "" |}, Some err)
  | None =>
    match shared.IdempotencyKey_Validate (c_IdempotencyKey cmd) with
    | Some err => mret ({| BattleID := ""; MatchID := "" |}, Some err)
    | None =>
      let payload :=
        {| p_LeaderID := c_LeaderID cmd; p_Metadata := c_Metadata cmd;
           p_Preset := c_Preset cmd |} in
      '(result, err) ← Eff.call (CallCreateMatch payload)
                         (@CreateMatch (Provider s) payload);
      match err with
      | Some err => mret ({| BattleID := ""; MatchID := "" |}, Some err)
      | None =>
        now ← Eff.call CallClock (Clock s);
        match NewBattle (r_BattleID result) (c_LeaderID cmd)
                        (c_IdempotencyKey cmd) now with
        | inr err => mret ({| BattleID := ""; MatchID := "" |}, Some err)
        | inl aggregate =>
          err ← Eff.call (CallRepoSave aggregate) (@Save (Repo s) aggregate);
          match err with
          | Some err => mret ({| BattleID := ""; MatchID := "" |}, Some err)
          | None => mret ({| BattleID := r_BattleID result;
                             MatchID := r_MatchID result |}, None)
          end
        end
      end
    end
  end.

End Service.

Arguments MatchProvider : clear implicits.
Arguments Repository : clear implicits.
Arguments Service : clear implicits.

End battles.

(* ===================================================================== *)
(** * Package auth (application): player authentication                    *)
(* ===================================================================== *)

Module auth.

Import player.

Record AuthResult : Type := mkAuthResult {
  UserID : shared.PlayerID;
  SessionToken : string;
  RefreshToken : string;
  Username : string
}.

Definition noResult : AuthResult := mkAuthResult "" "" "" "".

Inductive Call : Type :=
| CallAuthenticateDevice (deviceID username : string)
| CallAuthenticateEmail (email password : string)
| CallClock
| CallGetByID (id : shared.PlayerID)
| CallSave (account : PlayerAccount).

Section Service.
Context {E : Type}.

(** The wall clock, as a part of the environment. *)
Variable wall : E -> Wall.
Variable set_wall : Wall -> E -> E.

Definition on_wall {A} (f : Wall -> A * Wall) : E -> A * E :=
  fun e => let '(a, w) := f (wall e) in (a, set_wall w e).

Class AuthProvider : Type := {
  ProviderAuthenticateDevice :
    string -> string -> gmap string string -> E -> (AuthResult * option error) * E;
  ProviderAuthenticateEmail :
    string -> string -> gmap string string -> E -> (AuthResult * option error) * E
}.

(** The interface [player.Repository]. *)
Class PlayerRepository : Type := {
  GetByID : shared.PlayerID -> E -> (option PlayerAccount * option error) * E;
  Save : PlayerAccount -> E -> option error * E;
  AppendSession : shared.PlayerID -> SessionMetadata -> E -> option error * E
}.

Record Service : Type := mkService {
  Repo : PlayerRepository;
  Auth : AuthProvider;
  Clock : E -> Time * E
}.

(** [vars[key]]: the empty string when the key is missing. *)
Definition var (vars : gmap string string) (key : string) : string :=
  default "" (vars !! key).

(** Load the account of [id], or build it when the repository reports
    [ErrNotFound]. *)
Definition loadOrCreate (s : Service) (id : shared.PlayerID)
    (email displayName : string) (now : Time)
  : Eff.M E Call (option PlayerAccount + error) :=
  '(account, err) ← Eff.call (CallGetByID id) (@GetByID (Repo s) id);
  match err with
  | Some err =>
    if negb (errors_Is err shared.ErrNotFound) then mret (inr err)
    else
      match NewPlayerAccount id email displayName now with
      | inr err => mret (inr err)
      | inl account => mret (inl (Some account))
      end
  | None => mret (inl account)
  end.

Definition AuthenticateDevice (s : Service) (deviceID username : string)
    (vars : gmap string string) : Eff.M E Call (AuthResult * option error) :=
  '(result, err) ← Eff.call (CallAuthenticateDevice deviceID username)
                     (@ProviderAuthenticateDevice (Auth s) deviceID username vars);
  match err with
  | Some err => mret (noResult, Some err)
  | None =>
    now ← Eff.call CallClock (Clock s);
    loaded ← loadOrCreate s (UserID result) (var vars "email") username now;
    match loaded with
    | inr err => mret (noResult, Some err)
    | inl None => Eff.panic "nil pointer dereference"
    | inl (Some account) =>
      registered ← Eff.silent (on_wall (RegisterDevice account
                     {| dev_ID := deviceID; dev_Platform := var vars "platform";
                        dev_LastSeen := now |}));
      match registered with
      | Panic msg => Eff.panic msg
      | Ok (account, _) =>
        account ← Eff.silent (on_wall (RecordSession account
                    {| SessionID := SessionToken result; IpAddress := "";
                       UserAgent := ""; IssuedAt := now |}));
        err ← Eff.call (CallSave account) (@Save (Repo s) account);
        match err with
        | Some err => mret (noResult, Some err)
        | None => mret (result, None)
        end
      end
    end
  end.

Definition AuthenticateEmail (s : Service) (email password : string)
    (vars : gmap string string) : Eff.M E Call (AuthResult * option error) :=
  '(result, err) ← Eff.call (CallAuthenticateEmail email password)
                     (@ProviderAuthenticateEmail (Auth s) email password vars);
  match err with
  | Some err => mret (noResult, Some err)
  | None =>
    now ← Eff.call CallClock (Clock s);
    loaded ← loadOrCreate s (UserID result) email (Username result) now;
    match loaded with
    | inr err => mret (noResult, Some err)
    | inl None => Eff.panic "nil pointer dereference"
    | inl (Some account) =>
      account ← Eff.silent (on_wall (RecordSession account
                  {| SessionID := SessionToken result; IpAddress := "";
                     UserAgent := ""; IssuedAt := now |}));
      err ← Eff.call (CallSave account) (@Save (Repo s) account);
      match err with
      | Some err => mret (noResult, Some err)
      | None => mret (result, None)
      end
    end
  end.

End Service.

Arguments AuthProvider : clear implicits.
Arguments PlayerRepository : clear implicits.
Arguments Service : clear implicits.

End auth.

(* ===================================================================== *)
(** * The aggregate mutators as one family                                 *)
(* ===================================================================== *)

(** Any Go function may read the wall clock.  A call of a mutator is run
    against the wall clock and yields the receiver after the call with
    the value returned, and the wall clock after the call. *)
Module mutators.

Inductive MutatorCall : Type :=
| TournamentEnd (t : tournament.Tournament) (endTime : Time)
| TournamentReset (t : tournament.Tournament) (resetTime : Time)
| SessionEnd (s : analytics.Session) (endedAt : Time)
| ParticipantAddAttempts (p : participant.Participant) (count : Z) (now : Time)
| BattleAddPlayer (b : battle.Battle) (player : shared.PlayerID) (now : Time)
| BattleMarkReady (b : battle.Battle) (player : shared.PlayerID) (ready : bool) (now : Time)
| BattleUpdateSnapshot (b : battle.Battle) (state : battle.MatchState)
| PlayerRegisterDevice (p : player.PlayerAccount) (device : player.DeviceFingerprint)
| PlayerRecordSession (p : player.PlayerAccount) (session : player.SessionMetadata)
| PlayerSuspend (p : player.PlayerAccount) (message : string)
| GroupAssignRole (g : group.Group) (playerID : shared.PlayerID) (role : group.Role) (now : Time).

Definition outcome (m : MutatorCall) : Type :=
  match m with
  | TournamentEnd _ _ | TournamentReset _ _ => (tournament.Tournament * option error)%type
  | SessionEnd _ _ => (analytics.Session * option error)%type
  | ParticipantAddAttempts _ _ _ => (participant.Participant * option error)%type
  | BattleAddPlayer _ _ _ | BattleMarkReady _ _ _ _ => (battle.Battle * option error)%type
  | BattleUpdateSnapshot _ _ => battle.Battle
  | PlayerRegisterDevice _ _ => Result (player.PlayerAccount * option error)
  | PlayerRecordSession _ _ | PlayerSuspend _ _ => player.PlayerAccount
  | GroupAssignRole _ _ _ _ => (group.Group * option error)%type
  end.

Definition run (m : MutatorCall) : Wall -> outcome m * Wall :=
  match m return Wall -> outcome m * Wall with
  | TournamentEnd t endTime => fun w => (tournament.End t endTime, w)
  | TournamentReset t resetTime => fun w => (tournament.Reset t resetTime, w)
  | SessionEnd s endedAt => fun w => (analytics.End s endedAt, w)
  | ParticipantAddAttempts p count now => fun w => (participant.AddAttempts p count now, w)
  | BattleAddPlayer b player now => fun w => (battle.AddPlayer b player now, w)
  | BattleMarkReady b player ready now => fun w => (battle.MarkReady b player ready now, w)
  | BattleUpdateSnapshot b state => battle.UpdateSnapshot b state
  | PlayerRegisterDevice p device => player.RegisterDevice p device
  | PlayerRecordSession p session => player.RecordSession p session
  | PlayerSuspend p message => player.Suspend p message
  | GroupAssignRole g playerID role now => fun w => (group.AssignRole g playerID role now, w)
  end.

(** The mutators whose signature carries the timestamp. *)
Definition takes_now (m : MutatorCall) : bool :=
  match m with
  | BattleUpdateSnapshot _ _ | PlayerRegisterDevice _ _
  | PlayerRecordSession _ _ | PlayerSuspend _ _ => false
  | _ => true
  end.

(** Two wall clocks that agree on their next two readings. *)
Definition same_readings (w1 w2 : Wall) : Prop :=
  wall_at w1 (wall_reads w1) = wall_at w2 (wall_reads w2) /\
  wall_at w1 (S (wall_reads w1)) = wall_at w2 (S (wall_reads w2)).

End mutators.

(* ===================================================================== *)
(** * Concrete values used in the examples                                 *)
(* ===================================================================== *)

Module fixtures.

Definition hour : Go.Duration := 3600000000000.

(** An instant well after the zero time. *)
Definition t0 : Time := 63000000000000000000.

Definition wallA : Wall := mkWall (fun _ => t0) 0.
Definition wallB : Wall := mkWall (fun _ => t0 + hour) 0.

(** The tournament of the scenario: id "t1", title "Cup", size 10,
    starting in an hour and lasting a day. *)
Definition cup : tournament.Tournament + error :=
  tournament.NewTournament "t1" "Cup" "" 0 tournament.SortOrderDescending
    tournament.OperatorBest "" true false 10 10 (t0 + hour) (24 * hour) t0.

Definition cup_value : tournament.Tournament :=
  match cup with
  | inl t => t
  | inr _ => tournament.mkTournament "" "" "" 0 "" "" "" false false 0 0 0 None 0 "" 0 0
  end.

Definition entrant : participant.Participant :=
  participant.mkParticipant "t1" "p1" 0 t0 t0.

Definition alice : player.PlayerAccount :=
  player.mkPlayerAccount "p1" "alice@example.org" "Alice" (Some ∅) [] t0 t0 false "".

Definition alice_suspended : player.PlayerAccount :=
  player.mkPlayerAccount "p1" "alice@example.org" "Alice" (Some ∅) [] t0 t0 true "abuse".

Definition phone : player.DeviceFingerprint :=
  player.mkDeviceFingerprint "d1" "ios" t0.

Definition login : player.SessionMetadata :=
  player.mkSessionMetadata "s1" "10.0.0.1" "agent" t0.

(** An environment for the bot service: the commands stored by
    idempotency key, the answer of the queue, and the clock. *)
Record BotEnv : Type := mkBotEnv {
  commands : gmap string bot.Command;
  queue_answer : option error;
  bot_now : Time
}.

(** Test doubles in the manner of the mocks of the service tests. *)
Definition stubBotRepository : botapp.Repository BotEnv := {|
  botapp.ReserveCommand := fun key e =>
    match commands e !! key with
    | Some c => ((Some c, None), e)
    | None => ((None, Some shared.ErrNotFound), e)
    end;
  botapp.Save := fun c e =>
    (None, mkBotEnv (<[bot.IdempotencyKey c := c]> (commands e))
                    (queue_answer e) (bot_now e));
  botapp.MarkProcessed := fun _ _ e => (None, e)
|}.

Definition stubProducer : botapp.QueueProducer BotEnv := {|
  botapp.Enqueue := fun _ e => (queue_answer e, e)
|}.

Definition botService : botapp.Service BotEnv :=
  botapp.mkService stubBotRepository (Some stubProducer) None
    (fun e => (bot_now e, e)).

Definition done_command : bot.Command :=
  bot.mkCommand "c1" "chat" [] "k1" bot.CommandStateCompleted t0 t0 0 "" t0.

Definition pending_command : bot.Command :=
  bot.mkCommand "c2" "chat" [] "k2" bot.CommandStatePending 0 0 0 "" t0.

Definition botEnv : BotEnv :=
  mkBotEnv (<["k1" := done_command]> (<["k2" := pending_command]> ∅)) None t0.

(** An environment for the analytics service. *)
Record AnalyticsEnv : Type := mkAnalyticsEnv {
  sessions : gmap string analytics.Session;
  dispatch_answer : option error;
  analytics_now : Time
}.

Definition set_sessions (m : gmap string analytics.Session) (e : AnalyticsEnv)
  : AnalyticsEnv :=
  mkAnalyticsEnv m (dispatch_answer e) (analytics_now e).

Definition stubDispatcher : analyticsapp.EventDispatcher AnalyticsEnv := {|
  analyticsapp.Dispatch := fun _ e => (dispatch_answer e, e)
|}.

Definition goContext : analytics.Context :=
  analytics.mkContext true (analytics.mkLibraryInfo "go" "go1.21").

Definition analyticsService : analyticsapp.Service AnalyticsEnv :=
  analyticsapp.mkService stubDispatcher
    (analyticsapp.MemorySessionRepository sessions set_sessions)
    (fun e => (analytics_now e, e))
    (fun e => (goContext, e)).

Definition live_session : analytics.Session :=
  analytics.mkSession "u1" analytics.SessionStateActive "1.0.0" "production" t0 None.

Definition analyticsEnv (answer : option error) : AnalyticsEnv :=
  mkAnalyticsEnv {[ "u1" := live_session ]} answer (t0 + hour).

(** An environment for the tournament service. *)
Record TournamentEnv : Type := mkTournamentEnv {
  tournaments : gmap string tournament.Tournament;
  save_answer : option error;
  provider_answer : option error;
  tournament_now : Time
}.

Definition set_tournaments (m : gmap string tournament.Tournament)
    (e : TournamentEnv) : TournamentEnv :=
  mkTournamentEnv m (save_answer e) (provider_answer e) (tournament_now e).

Definition stubProvider : tournaments.NakamaProvider TournamentEnv := {|
  tournaments.ProviderCreateTournament := fun _ e => (provider_answer e, e);
  tournaments.ProviderDeleteTournament := fun _ e => (provider_answer e, e);
  tournaments.ProviderAddAttempt := fun _ _ _ e => (provider_answer e, e)
|}.

(** A repository whose [Save] fails when the environment says so. *)
Definition stubRepository : tournaments.Repository TournamentEnv := {|
  tournaments.Save := fun t e =>
    match save_answer e with
    | Some err => (Some err, e)
    | None => @tournaments.Save _ (tournaments.MemoryRepository tournaments set_tournaments) t e
    end;
  tournaments.Get := @tournaments.Get _ (tournaments.MemoryRepository tournaments set_tournaments);
  tournaments.Delete := @tournaments.Delete _ (tournaments.MemoryRepository tournaments set_tournaments)
|}.

Definition tournamentService : tournaments.Service TournamentEnv :=
  tournaments.mkService stubRepository stubProvider
    (fun e => (tournament_now e, e)).

Definition unixSeconds (t : Time) : Z := t / 1000000000 - 62135596800.
Definition wholeSeconds (d : Go.Duration) : Z := d / 1000000000.

Definition cupCommand : tournaments.CreateTournamentCommand :=
  tournaments.mkCreateTournamentCommand "t1" "Cup" "" 0
    tournament.SortOrderDescending tournament.OperatorBest "" true false
    10 10 (t0 + hour) None (24 * hour).

Definition providerDown : error := errors_New "provider unavailable".
Definition diskFull : error := errors_New "disk full".

(** A store with no tournament, and a store holding the cup. *)
Definition emptyStore (save provider : option error) : TournamentEnv :=
  mkTournamentEnv ∅ save provider t0.

Definition cupStore (provider : option error) : TournamentEnv :=
  mkTournamentEnv {[ "t1" := cup_value ]} None provider t0.

(** A battle led by "p1" and a group owned by "p1". *)
Definition arena : battle.Battle :=
  battle.mkBattle "b1" "p1" [battle.mkPlayerSlot "p1" t0 true]
    (battle.mkMatchState 0 [] 0) t0 t0 "k1".


(** A bot environment with no stored command, whose queue answers
    [answer]; a fresh input for it and the command built from it. *)
Definition freshBotEnv (answer : option error) : BotEnv := mkBotEnv ∅ answer t0.

Definition freshInput : botapp.CommandInput :=
  botapp.mkCommandInput "c3" "chat" "p1" [] "k3".

Definition freshCommand : bot.Command :=
  bot.mkCommand "c3" "chat" [] "k3" bot.CommandStatePending 0 0 0 "" t0.

Definition savedBotEnv (c : bot.Command) (answer : option error) : BotEnv :=
  mkBotEnv {[ "k3" := c ]} answer t0.

(** A bot repository whose reservation fails. *)
Definition brokenBotRepository : botapp.Repository BotEnv := {|
  botapp.ReserveCommand := fun _ e => ((None, Some diskFull), e);
  botapp.Save := fun _ e => (Some diskFull, e);
  botapp.MarkProcessed := fun _ _ e => (Some diskFull, e)
|}.

Definition brokenBotService : botapp.Service BotEnv :=
  botapp.mkService brokenBotRepository (Some stubProducer) None
    (fun e => (bot_now e, e)).

(** An analytics environment with no session, and the session that
    [StartSession] records for "u1" at [t0 + hour]. *)
Definition noSession (answer : option error) : AnalyticsEnv :=
  mkAnalyticsEnv ∅ answer (t0 + hour).

Definition started_session : analytics.Session :=
  analytics.mkSession "u1" analytics.SessionStateActive "1.0.0" "production"
    (t0 + hour) None.

Definition startCommand : analyticsapp.StartSessionCommand :=
  analyticsapp.mkStartSessionCommand "u1" "1.0.0" "production".


(** An environment for [AddAttempt]: the participants stored, the answer
    of the provider, and the clock. *)
Record AttemptEnv : Type := mkAttemptEnv {
  entrants : gmap string participant.Participant;
  attempt_answer : option error;
  attempt_now : Time
}.

Definition set_entrants (m : gmap string participant.Participant)
    (e : AttemptEnv) : AttemptEnv :=
  mkAttemptEnv m (attempt_answer e) (attempt_now e).

Definition attemptProvider : tournaments.NakamaProvider AttemptEnv := {|
  tournaments.ProviderCreateTournament := fun _ e => (attempt_answer e, e);
  tournaments.ProviderDeleteTournament := fun _ e => (attempt_answer e, e);
  tournaments.ProviderAddAttempt := fun _ _ _ e => (attempt_answer e, e)
|}.

Definition attemptRepository : tournaments.Repository AttemptEnv := {|
  tournaments.Save := fun _ e => (None, e);
  tournaments.Get := fun _ e => ((None, Some tournament.ErrTournamentNotFound), e);
  tournaments.Delete := fun _ e => (None, e)
|}.

Definition attemptService : tournaments.Service AttemptEnv :=
  tournaments.mkService attemptRepository attemptProvider
    (fun e => (attempt_now e, e)).

Definition noEntrant (answer : option error) : AttemptEnv :=
  mkAttemptEnv ∅ answer t0.

Definition fiveAttempts : tournaments.AddAttemptCommand :=
  tournaments.mkAddAttemptCommand "t1" "p1" 5.

(** An environment for the auth service: the accounts stored, whether
    the provider accepts, the clock of the service and the wall clock. *)
Record AuthEnv : Type := mkAuthEnv {
  accounts : gmap string player.PlayerAccount;
  auth_answer : option error;
  auth_now : Time;
  auth_wall : Wall
}.

Definition set_auth_wall (w : Wall) (e : AuthEnv) : AuthEnv :=
  mkAuthEnv (accounts e) (auth_answer e) (auth_now e) w.

Definition granted : auth.AuthResult := auth.mkAuthResult "p1" "token-1" "refresh-1" "alice".

Definition stubAuthProvider : auth.AuthProvider AuthEnv := {|
  auth.ProviderAuthenticateDevice := fun _ _ _ e => ((granted, auth_answer e), e);
  auth.ProviderAuthenticateEmail := fun _ _ _ e => ((granted, auth_answer e), e)
|}.

Definition stubPlayerRepository : auth.PlayerRepository AuthEnv := {|
  auth.GetByID := fun id e =>
    match accounts e !! id with
    | Some a => ((Some a, None), e)
    | None => ((None, Some shared.ErrNotFound), e)
    end;
  auth.Save := fun a e =>
    (None, mkAuthEnv (<[player.ID a := a]> (accounts e)) (auth_answer e)
                     (auth_now e) (auth_wall e));
  auth.AppendSession := fun _ _ e => (None, e)
|}.

Definition authService : auth.Service AuthEnv :=
  auth.mkService stubPlayerRepository stubAuthProvider (fun e => (auth_now e, e)).

Definition authEnv (stored : gmap string player.PlayerAccount) : AuthEnv :=
  mkAuthEnv stored None t0 wallA.

(** Environments for the battle and the group service. *)
Record BattleEnv : Type := mkBattleEnv {
  battles_saved : list battle.Battle;
  match_id : shared.BattleID;
  battle_now : Time
}.

Definition stubMatchProvider : battles.MatchProvider BattleEnv unit := {|
  battles.CreateMatch := fun _ e =>
    ((battles.mkStartBattleResult (match_id e) "match-1", None), e)
|}.

Definition stubBattleRepository : battles.Repository BattleEnv := {|
  battles.Save := fun b e =>
    (None, mkBattleEnv (battles_saved e ++ [b]) (match_id e) (battle_now e))
|}.

Definition battleService : battles.Service BattleEnv unit :=
  battles.mkService unit stubBattleRepository stubMatchProvider
    (fun e => (battle_now e, e)).

Record GroupEnv : Type := mkGroupEnv {
  groups_saved : list group.Group;
  group_now : Time
}.

Definition stubGroupProvider : groups.Provider GroupEnv := {|
  groups.ProviderCreateGroup := fun _ e =>
    ((groups.mkCreateGroupResult "g1" "guild", None), e)
|}.

Definition stubGroupRepository : groups.Repository GroupEnv := {|
  groups.Save := fun g e => (None, mkGroupEnv (groups_saved e ++ [g]) (group_now e))
|}.

Definition groupService : groups.Service GroupEnv :=
  groups.mkService stubGroupRepository stubGroupProvider (fun e => (group_now e, e)).

End fixtures.

(* ===================================================================== *)
(** * Properties                                                           *)
(* ===================================================================== *)

(** ** Machine integers *)

Lemma int_wrap_id (z : Z) : in_int z -> int_wrap z = z.
Proof.
  unfold in_int, int_wrap, min_int, max_int, int_bits. intros Hz.
  rewrite Z.mod_small; lia.
Qed.

Lemma int_add_exact (a b : Z) : in_int (a + b) -> int_add a b = a + b.
Proof. apply int_wrap_id. Qed.

Lemma int_add_overflow : int_add max_int 1 = min_int.
Proof. reflexivity. Qed.

(** ** Identifiers *)

Lemma TrimSpace_spaces : TrimSpace "  " = "".
Proof. reflexivity. Qed.

Lemma TrimSpace_inner : TrimSpace " a b " = "a b".
Proof. reflexivity. Qed.

(** U+00A0, encoded on two bytes, is white space; U+00A9 is not. *)
Lemma TrimSpace_no_break_space :
  TrimSpace (string_of [194; 160; 32; 194; 160]%N) = "" /\
  TrimSpace (string_of [194; 169; 32]%N) = string_of [194; 169]%N.
Proof. split; reflexivity. Qed.

Lemma PlayerID_Validate_blank (id : shared.PlayerID) :
  TrimSpace id = "" ->
  shared.PlayerID_Validate id = Some (errors_New "player id is required").
Proof. unfold shared.PlayerID_Validate. intros ->. reflexivity. Qed.

Lemma PlayerID_Validate_p1 : shared.PlayerID_Validate "p1" = None.
Proof. reflexivity. Qed.

(** ** Tournament *)

Section TournamentFacts.
Import tournament.

Lemma End_ok_inv (t t' : Tournament) (endTime : Time) :
  tournament.End t endTime = (t', None) ->
  String.eqb (State t) StateEnded = false /\
  Before endTime (StartTime t) = false /\
  t' = set_ended t endTime.
Proof.
  unfold End.
  destruct (String.eqb (State t) StateEnded) eqn:Hs; [discriminate |].
  destruct (Before endTime (StartTime t)) eqn:Hb; [discriminate |].
  intros [= <-]. auto.
Qed.

Lemma End_ended (t : Tournament) (endTime : Time) :
  State t = StateEnded -> End t endTime = (t, Some ErrTournamentAlreadyEnded).
Proof. unfold End. intros ->. reflexivity. Qed.

Example cup_is_active :
  fixtures.cup = inl fixtures.cup_value /\ State fixtures.cup_value = StateActive.
Proof. split; reflexivity. Qed.

Example cup_ends_once :
  let ended := set_ended fixtures.cup_value (fixtures.t0 + 26 * fixtures.hour) in
  tournament.End fixtures.cup_value (fixtures.t0 + 26 * fixtures.hour) = (ended, None) /\
  tournament.End ended (fixtures.t0 + 27 * fixtures.hour)
    = (ended, Some ErrTournamentAlreadyEnded).
Proof. split; reflexivity. Qed.

Example cup_end_time :
  CalculateEndTime fixtures.cup_value = fixtures.t0 + 25 * fixtures.hour.
Proof. reflexivity. Qed.

(** C6. Once [End t1] has succeeded on a tournament, [End t2] returns
    [ErrTournamentAlreadyEnded] for every [t2] and leaves the tournament as
    the first call left it: its [EndTime] is still [t1] and its state is
    still ended. *)
Theorem End_twice_rejected (t t' : Tournament) (t1 t2 : Time) :
  tournament.End t t1 = (t', None) ->
  tournament.End t' t2 = (t', Some ErrTournamentAlreadyEnded) /\
  EndTime t' = Some t1 /\
  State t' = StateEnded.
Proof.
  intros H. apply End_ok_inv in H as (_ & _ & ->).
  split; [apply End_ended; reflexivity | split; reflexivity].
Qed.

Lemma End_twice_rejected_witness :
  let ended := set_ended fixtures.cup_value (fixtures.t0 + 26 * fixtures.hour) in
  tournament.End ended (fixtures.t0 + 27 * fixtures.hour)
    = (ended, Some ErrTournamentAlreadyEnded) /\
  EndTime ended = Some (fixtures.t0 + 26 * fixtures.hour) /\
  State ended = StateEnded.
Proof.
  apply (End_twice_rejected fixtures.cup_value).
  reflexivity.
Defined.

End TournamentFacts.

(** ** Participant *)

Section ParticipantFacts.
Import participant.

Example AddAttempts_five :
  AddAttempts fixtures.entrant 5 fixtures.t0
  = (mkParticipant "t1" "p1" 5 fixtures.t0 fixtures.t0, None).
Proof. reflexivity. Qed.

Example AddAttempts_zero :
  AddAttempts fixtures.entrant 0 fixtures.t0
  = (fixtures.entrant, Some (errors_New "attempt count must be positive")).
Proof. reflexivity. Qed.

(** C7, as stated, fails at the top of the [int] range.  A participant
    whose counter was brought to the largest [int] by one accepted call
    accepts one more attempt, and the counter wraps to the smallest [int]
    instead of growing by one. *)
Lemma AddAttempts_wraps :
  let p := fst (AddAttempts fixtures.entrant max_int fixtures.t0) in
  Attempts p = max_int /\
  snd (AddAttempts p 1 fixtures.t0) = None /\
  Attempts (fst (AddAttempts p 1 fixtures.t0)) = min_int /\
  Attempts (fst (AddAttempts p 1 fixtures.t0)) <> Attempts p + 1.
Proof. repeat split. vm_compute. discriminate. Qed.

(** C7, amended. [AddAttempts n now] with [n <= 0] returns an error and
    leaves the participant, so its counter, unchanged.  With [n > 0] it
    returns nil and sets the counter to the sum taken in [int] arithmetic;
    that is an increase by exactly [n] whenever the sum does not exceed
    the largest [int]. *)
Theorem AddAttempts_counts (p : Participant) (n : Z) (now : Time) :
  (n <= 0 ->
     exists err, AddAttempts p n now = (p, Some err)) /\
  (n > 0 ->
     snd (AddAttempts p n now) = None /\
     Attempts (fst (AddAttempts p n now)) = int_add (Attempts p) n /\
     (min_int <= Attempts p -> Attempts p + n <= max_int ->
      Attempts (fst (AddAttempts p n now)) = Attempts p + n)).
Proof.
  unfold AddAttempts. split; intros Hn.
  - apply Z.leb_le in Hn. rewrite Hn. eauto.
  - assert ((n <=? 0) = false) as -> by (apply Z.leb_gt; lia).
    cbn [fst snd Attempts]. repeat split.
    intros Hlo Hhi. apply int_add_exact. unfold in_int. lia.
Qed.

Lemma AddAttempts_counts_witness :
  (exists err, AddAttempts fixtures.entrant (-1) fixtures.t0
               = (fixtures.entrant, Some err)) /\
  Attempts (fst (AddAttempts fixtures.entrant 5 fixtures.t0)) = 0 + 5.
Proof.
  split.
  - apply (proj1 (AddAttempts_counts fixtures.entrant (-1) fixtures.t0)). lia.
  - apply (proj2 (AddAttempts_counts fixtures.entrant 5 fixtures.t0)).
    + lia.
    + vm_compute. discriminate.
    + vm_compute. discriminate.
Defined.

End ParticipantFacts.

(** ** PlayerAccount *)

Section PlayerFacts.
Import player.

Example NewPlayerAccount_alice :
  NewPlayerAccount "p1" "alice@example.org" "Alice" fixtures.t0 = inl fixtures.alice.
Proof. reflexivity. Qed.

(** C5, as stated, fails for [RecordSession]: on a suspended account it
    reports nothing (it has no error result) and appends the session. *)
Lemma RecordSession_ignores_suspension :
  Suspended fixtures.alice_suspended = true /\
  Sessions (fst (RecordSession fixtures.alice_suspended fixtures.login fixtures.wallA))
    = [fixtures.login] /\
  fst (RecordSession fixtures.alice_suspended fixtures.login fixtures.wallA)
    <> fixtures.alice_suspended.
Proof.
  repeat split. intros H. apply (f_equal Sessions) in H. discriminate H.
Qed.

(** C5, amended. On an account whose [Suspended] flag is set,
    [RegisterDevice] and [CanStartBattle] fail with [ErrAccountSuspended]
    and leave the account unchanged; [RegisterDevice] then does not read
    the clock either. *)
Theorem suspended_account_rejects (p : PlayerAccount) :
  Suspended p = true ->
  (forall device w,
     RegisterDevice p device w = (Ok (p, Some ErrAccountSuspended), w)) /\
  (forall key, CanStartBattle p key = (p, Some ErrAccountSuspended)).
Proof.
  intros Hs. split; intros; [unfold RegisterDevice | unfold CanStartBattle];
    rewrite Hs; reflexivity.
Qed.

Lemma suspended_account_rejects_witness :
  RegisterDevice fixtures.alice_suspended fixtures.phone fixtures.wallA
    = (Ok (fixtures.alice_suspended, Some ErrAccountSuspended), fixtures.wallA) /\
  CanStartBattle fixtures.alice_suspended "k1"
    = (fixtures.alice_suspended, Some ErrAccountSuspended).
Proof.
  destruct (suspended_account_rejects fixtures.alice_suspended) as [Hr Hc];
    [reflexivity |].
  split; [apply Hr | apply Hc].
Defined.

(** C10, as stated, fails when the id is blank too: the id is checked
    first and its error is the one returned. *)
Lemma NewPlayerAccount_blank_id_first :
  NewPlayerAccount "" "" "Bob" fixtures.t0
    = inr (errors_New "player id is required") /\
  NewPlayerAccount "" "" "Bob" fixtures.t0 <> inr ErrEmailRequired.
Proof. split; [reflexivity | discriminate]. Qed.

(** C10, amended. With an id that passes [Validate], an empty email makes
    [NewPlayerAccount] return [ErrEmailRequired] whatever the other
    arguments are.  Every account it returns has an empty, non-nil device
    map, no sessions and [Suspended = false].  The display name is not
    examined: a blank one is accepted. *)
Theorem NewPlayerAccount_contract :
  (forall id displayName now,
     shared.PlayerID_Validate id = None ->
     NewPlayerAccount id "" displayName now = inr ErrEmailRequired) /\
  (forall id email displayName now acct,
     NewPlayerAccount id email displayName now = inl acct ->
     Devices acct = Some ∅ /\ Sessions acct = [] /\ Suspended acct = false) /\
  (forall id email displayName now,
     shared.PlayerID_Validate id = None -> email <> "" ->
     exists acct, NewPlayerAccount id email displayName now = inl acct /\
                  DisplayName acct = displayName).
Proof.
  unfold NewPlayerAccount. split; [| split].
  - intros id dn now ->. reflexivity.
  - intros id email dn now acct.
    destruct (shared.PlayerID_Validate id); [discriminate |].
    destruct (String.eqb email ""); [discriminate |].
    intros [= <-]. repeat split.
  - intros id email dn now -> Hne.
    destruct (String.eqb email "") eqn:He.
    + apply String.eqb_eq in He. contradiction.
    + eexists. split; reflexivity.
Qed.

Lemma NewPlayerAccount_contract_witness :
  NewPlayerAccount "p1" "" "Alice" fixtures.t0 = inr ErrEmailRequired /\
  Devices fixtures.alice = Some ∅ /\
  (exists acct, NewPlayerAccount "p1" "alice@example.org" "  " fixtures.t0 = inl acct /\
                DisplayName acct = "  ").
Proof.
  destruct NewPlayerAccount_contract as (H1 & H2 & H3).
  split; [| split].
  - apply H1. reflexivity.
  - apply (H2 "p1" "alice@example.org" "Alice" fixtures.t0). reflexivity.
  - apply H3; [reflexivity | discriminate].
Defined.

End PlayerFacts.

(** ** Mutators and the wall clock *)

Section MutatorFacts.
Import mutators.

Example Suspend_reads_clock :
  snd (player.Suspend fixtures.alice "abuse" fixtures.wallA)
  = mkWall (wall_at fixtures.wallA) 1.
Proof. reflexivity. Qed.

Example UpdatedAt_after_Suspend :
  player.UpdatedAt (fst (player.Suspend fixtures.alice "abuse" fixtures.wallB))
  = fixtures.t0 + fixtures.hour.
Proof. reflexivity. Qed.

(** C4, as stated, fails for the mutators that read [time.Now]: the same
    call of [Suspend], on the same account with the same message, leaves
    two different accounts under two readings of the wall clock. *)
Lemma Suspend_depends_on_wall_clock :
  fst (run (PlayerSuspend fixtures.alice "abuse") fixtures.wallA)
  <> fst (run (PlayerSuspend fixtures.alice "abuse") fixtures.wallB).
Proof.
  intros H. apply (f_equal player.UpdatedAt) in H. vm_compute in H. discriminate H.
Qed.

(** C4, amended. For the mutators that take their timestamp as an
    argument ([End], [Reset], [AddAttempts], [AddPlayer], [MarkReady],
    [AssignRole]) the receiver after the call and the value returned depend
    on the receiver and the arguments only, and the wall clock is not read.
    [RegisterDevice], [RecordSession], [Suspend] and [UpdateSnapshot] read
    the wall clock: their results are the same under two wall clocks that
    agree on the next two readings. *)
Theorem mutators_and_the_clock (m : MutatorCall) (w1 w2 : Wall) :
  (takes_now m = true ->
     fst (run m w1) = fst (run m w2) /\ snd (run m w1) = w1) /\
  (same_readings w1 w2 -> fst (run m w1) = fst (run m w2)).
Proof.
  split.
  - destruct m; cbn [takes_now]; intros Ht; try discriminate Ht;
      split; reflexivity.
  - intros [H0 H1].
    destruct m; cbn [run]; try reflexivity.
    + (* UpdateSnapshot *)
      unfold battle.UpdateSnapshot.
      destruct (IsZero (battle.ms_UpdatedAt state)); cbn; [rewrite H0 |]; reflexivity.
    + (* RegisterDevice *)
      unfold player.RegisterDevice.
      destruct (player.Suspended p); [reflexivity |].
      destruct (String.eqb (player.dev_ID device) ""); [reflexivity |].
      destruct (IsZero (player.dev_LastSeen device)); cbn;
        destruct (player.Devices p); cbn; rewrite ?H0, ?H1; reflexivity.
    + (* RecordSession *)
      unfold player.RecordSession.
      destruct (String.eqb (player.SessionID session) ""); [reflexivity |].
      destruct (IsZero (player.IssuedAt session)); cbn;
        rewrite ?H0, ?H1; reflexivity.
    + (* Suspend *)
      unfold player.Suspend. cbn. rewrite H0. reflexivity.
Qed.

Lemma mutators_and_the_clock_witness :
  fst (run (TournamentEnd fixtures.cup_value (fixtures.t0 + 26 * fixtures.hour)) fixtures.wallA)
  = fst (run (TournamentEnd fixtures.cup_value (fixtures.t0 + 26 * fixtures.hour)) fixtures.wallB) /\
  fst (run (PlayerSuspend fixtures.alice "abuse") fixtures.wallA)
  = fst (run (PlayerSuspend fixtures.alice "abuse") (mkWall (fun _ => fixtures.t0) 7)).
Proof.
  split.
  - apply (proj1 (mutators_and_the_clock
             (TournamentEnd fixtures.cup_value (fixtures.t0 + 26 * fixtures.hour))
             fixtures.wallA fixtures.wallB)).
    reflexivity.
  - apply (proj2 (mutators_and_the_clock (PlayerSuspend fixtures.alice "abuse")
             fixtures.wallA (mkWall (fun _ => fixtures.t0) 7))).
    split; reflexivity.
Defined.

End MutatorFacts.

(** ** Bot command intake *)

Ltac eff_unfold :=
  unfold mbind, mret, Eff.M_bind, Eff.M_ret, Eff.bind, Eff.ret, Eff.call,
    Eff.note, Eff.panic; cbn [fst snd].

Ltac eff_trace := cbn [fst snd]; rewrite <- ?app_assoc; cbn [app].

Section BotFacts.
Import bot botapp.
Context {E : Type}.

Example Handle_completed_key :
  fst (Handle fixtures.botService
         (mkCommandInput "c9" "chat" "p1" [] "k1") (fixtures.botEnv, []))
  = Ok ({| Accepted := true |}, None).
Proof. reflexivity. Qed.

Example Handle_fresh_key_trace :
  snd (snd (Handle fixtures.botService
              (mkCommandInput "c3" "chat" "p1" [] "k3") (fixtures.botEnv, [])))
  = [CallClock; CallReserveCommand "k3"; CallNewCommand;
     CallSave (mkCommand "c3" "chat" [] "k3" CommandStatePending 0 0 0 "" fixtures.t0);
     CallEnqueue (mkCommand "c3" "chat" [] "k3" CommandStatePending 0 0 0 "" fixtures.t0)].
Proof. reflexivity. Qed.

(** C1. When [ReserveCommand] returns an existing command for the key,
    [Handle] stops there: the environment is the one the reservation left
    and the only calls made are the clock read and the reservation, so
    nothing is saved, enqueued or constructed.  It answers
    [Accepted = true] when that command is completed and [ErrDuplicate]
    in any other state. *)
Theorem Handle_existing_command (s : Service E) (input : CommandInput)
    (e e0 e1 : E) (tr : list Call) (now : Time) (existing : Command) :
  Clock s e = (now, e0) ->
  @ReserveCommand E (Repo s) (in_IdempotencyKey input) e0
    = ((Some existing, None), e1) ->
  let calls := (tr ++ [CallClock; CallReserveCommand (in_IdempotencyKey input)])%list in
  (State existing = CommandStateCompleted ->
     Handle s input (e, tr) = (Ok ({| Accepted := true |}, None), (e1, calls))) /\
  (State existing <> CommandStateCompleted ->
     Handle s input (e, tr)
     = (Ok ({| Accepted := false |}, Some shared.ErrDuplicate), (e1, calls))).
Proof.
  intros Hclock Hres calls. subst calls.
  unfold Handle. eff_unfold. rewrite Hclock. eff_trace. rewrite Hres. eff_trace.
  split; intros Hst.
  - rewrite Hst. reflexivity.
  - destruct (String.eqb (State existing) CommandStateCompleted) eqn:Heq.
    + apply String.eqb_eq in Heq. contradiction.
    + reflexivity.
Qed.

Lemma NewCommand_invalid (id : shared.BotCommandID) (channel : string)
    (payload : list N) (key : shared.IdempotencyKey) (now : Time) :
  shared.BotCommandID_Validate id <> None \/
  shared.IdempotencyKey_Validate key <> None ->
  exists verr, NewCommand id channel payload key now = inr verr /\
    (shared.BotCommandID_Validate id = Some verr \/
     shared.IdempotencyKey_Validate key = Some verr).
Proof.
  unfold NewCommand. intros H.
  destruct (shared.BotCommandID_Validate id) as [e1 |]; [eauto |].
  destruct (shared.IdempotencyKey_Validate key) as [e2 |]; [eauto |].
  destruct H; contradiction.
Qed.

(** C3, amended. On an input whose command id or idempotency key is
    blank, [Handle] reads the clock and asks the repository to reserve the
    key, and calls no collaborator after that: the environment is left as
    the reservation left it, with no [Save], [Enqueue] or [Notify].  When
    the reservation reports [ErrNotFound], the call returns the validation
    error of [NewCommand]. *)
Theorem Handle_invalid_input (s : Service E) (input : CommandInput)
    (e e0 e1 : E) (tr : list Call) (now : Time)
    (existing : option Command) (rerr : option error) :
  shared.BotCommandID_Validate (CommandID input) <> None \/
  shared.IdempotencyKey_Validate (in_IdempotencyKey input) <> None ->
  Clock s e = (now, e0) ->
  @ReserveCommand E (Repo s) (in_IdempotencyKey input) e0
    = ((existing, rerr), e1) ->
  exists verr more,
    NewCommand (CommandID input) (in_Channel input) (in_Payload input)
      (in_IdempotencyKey input) now = inr verr /\
    snd (Handle s input (e, tr))
    = (e1, (tr ++ CallClock :: CallReserveCommand (in_IdempotencyKey input)
               :: more)%list) /\
    (more = [] \/ more = [CallNewCommand]) /\
    (forall err, rerr = Some err -> errors_Is err shared.ErrNotFound = true ->
       fst (Handle s input (e, tr)) = Ok ({| Accepted := false |}, Some verr)).
Proof.
  intros Hbad Hclock Hres.
  destruct (NewCommand_invalid (CommandID input) (in_Channel input)
              (in_Payload input) (in_IdempotencyKey input) now Hbad)
    as (verr & Hnew & _).
  exists verr.
  unfold Handle. eff_unfold. rewrite Hclock. eff_trace. rewrite Hres. eff_trace.
  destruct rerr as [err |].
  - destruct (errors_Is err shared.ErrNotFound) eqn:Hnf; cbn [negb].
    + rewrite Hnew. eff_trace. exists [CallNewCommand].
      repeat split; auto.
    + exists []. repeat split; auto. intros err' [= <-] Habs. congruence.
  - exists []. destruct existing as [c |].
    + destruct (String.eqb (State c) CommandStateCompleted);
        repeat split; auto; discriminate.
    + repeat split; auto; discriminate.
Qed.

End BotFacts.

Section BotExamples.
Import bot botapp.

Lemma Handle_existing_command_witness :
  Handle fixtures.botService (mkCommandInput "c9" "chat" "p1" [] "k1")
    (fixtures.botEnv, [])
  = (Ok ({| Accepted := true |}, None),
     (fixtures.botEnv, [CallClock; CallReserveCommand "k1"])) /\
  Handle fixtures.botService (mkCommandInput "c9" "chat" "p1" [] "k2")
    (fixtures.botEnv, [])
  = (Ok ({| Accepted := false |}, Some shared.ErrDuplicate),
     (fixtures.botEnv, [CallClock; CallReserveCommand "k2"])).
Proof.
  split.
  - apply (proj1 (Handle_existing_command fixtures.botService
                    (mkCommandInput "c9" "chat" "p1" [] "k1")
                    fixtures.botEnv fixtures.botEnv fixtures.botEnv []
                    fixtures.t0 fixtures.done_command eq_refl eq_refl)).
    reflexivity.
  - apply (proj2 (Handle_existing_command fixtures.botService
                    (mkCommandInput "c9" "chat" "p1" [] "k2")
                    fixtures.botEnv fixtures.botEnv fixtures.botEnv []
                    fixtures.t0 fixtures.pending_command eq_refl eq_refl)).
    discriminate.
Defined.

(** C3, as stated, fails: with a blank idempotency key [Handle] still
    asks the repository to reserve the key, and only then meets the
    validation error. *)
Lemma Handle_reserves_before_validating :
  shared.IdempotencyKey_Validate " " <> None /\
  Handle fixtures.botService (mkCommandInput "c3" "chat" "p1" [] " ")
    (fixtures.botEnv, [])
  = (Ok ({| Accepted := false |}, Some (errors_New "idempotency key is required")),
     (fixtures.botEnv, [CallClock; CallReserveCommand " "; CallNewCommand])) /\
  In (CallReserveCommand " ")
     (snd (snd (Handle fixtures.botService (mkCommandInput "c3" "chat" "p1" [] " ")
                  (fixtures.botEnv, [])))).
Proof.
  split; [discriminate |].
  split; [reflexivity |].
  right. left. reflexivity.
Qed.

Lemma Handle_invalid_input_witness :
  exists verr more,
    NewCommand "c3" "chat" [] " " fixtures.t0 = inr verr /\
    snd (Handle fixtures.botService (mkCommandInput "c3" "chat" "p1" [] " ")
           (fixtures.botEnv, []))
    = (fixtures.botEnv, CallClock :: CallReserveCommand " " :: more) /\
    (more = [] \/ more = [CallNewCommand]) /\
    (forall err, Some shared.ErrNotFound = Some err ->
       errors_Is err shared.ErrNotFound = true ->
       fst (Handle fixtures.botService (mkCommandInput "c3" "chat" "p1" [] " ")
              (fixtures.botEnv, []))
       = Ok ({| Accepted := false |}, Some verr)).
Proof.
  apply (Handle_invalid_input fixtures.botService
           (mkCommandInput "c3" "chat" "p1" [] " ")
           fixtures.botEnv fixtures.botEnv fixtures.botEnv [] fixtures.t0
           None (Some shared.ErrNotFound)).
  - right. discriminate.
  - reflexivity.
  - reflexivity.
Defined.

End BotExamples.

(** ** Analytics sessions *)

Section AnalyticsFacts.
Import analytics analyticsapp.
Context {E : Type}.

(** C2, amended. On an existing session that [End] accepts and [Save]
    persists, [EndSession] dispatches the end event.  When the dispatch
    succeeds, the session record is deleted (whatever [Delete] answers)
    and the call returns nil.  When the dispatch fails, the call returns
    [ErrDispatchFailed] at once: [Delete] is not called and the
    environment is the one the dispatcher left. *)
Theorem EndSession_cleanup (s : Service E) (cmd : EndSessionCommand)
    (e e1 e2 e3 e4 e5 : E) (tr : list Call) (now : Time)
    (session ended : Session) (ctx : Context) (ev : Event) (derr : option error) :
  shared.PlayerID_Validate (UserID cmd) = None ->
  @Get E (Sessions s) (UserID cmd) e = ((Some session, None), e1) ->
  Clock s e1 = (now, e2) ->
  analytics.End session now = (ended, None) ->
  @Save E (Sessions s) ended e2 = (None, e3) ->
  ContextFactory s e3 = (ctx, e4) ->
  NewTrackEvent (UserID cmd) EventNameEnd ctx now = inl ev ->
  @Dispatch E (Dispatcher s) [ev] e4 = (derr, e5) ->
  let calls := (tr ++ [CallGet (UserID cmd); CallClock; CallSave ended;
                       CallContextFactory; CallDispatch [ev]])%list in
  (derr = None ->
     EndSession s cmd (e, tr)
     = (Ok None, (snd (@Delete E (Sessions s) (UserID cmd) e5),
                  (calls ++ [CallDelete (UserID cmd)])%list))) /\
  (derr <> None ->
     EndSession s cmd (e, tr) = (Ok (Some ErrDispatchFailed), (e5, calls))).
Proof.
  intros Hid Hget Hclock Hend Hsave Hctx Hev Hdisp calls. subst calls.
  unfold EndSession. rewrite Hid. eff_unfold.
  rewrite Hget. eff_trace. rewrite Hclock. eff_trace. rewrite Hend. eff_trace.
  rewrite Hsave. eff_trace. rewrite Hctx. eff_trace. rewrite Hev. eff_trace.
  rewrite Hdisp. eff_trace.
  split; intros Hd.
  - subst derr. eff_trace.
    destruct (@Delete E (Sessions s) (UserID cmd) e5) as [derr' e6].
    eff_trace. reflexivity.
  - destruct derr; [reflexivity | contradiction].
Qed.

End AnalyticsFacts.

Section AnalyticsExamples.
Import analytics analyticsapp.

Example EndSession_delivered :
  EndSession fixtures.analyticsService (mkEndSessionCommand "u1")
    (fixtures.analyticsEnv None, [])
  = (Ok None,
     (fixtures.set_sessions ∅ (fixtures.analyticsEnv None),
      [CallGet "u1"; CallClock;
       CallSave (fst (End fixtures.live_session (fixtures.t0 + fixtures.hour)));
       CallContextFactory;
       CallDispatch [mkEvent EventTypeTrack "u1" EventNameEnd fixtures.goContext
                       None None (fixtures.t0 + fixtures.hour)];
       CallDelete "u1"])).
Proof. vm_compute. reflexivity. Qed.

(** C2, as stated, fails when the dispatch fails: the ended session has
    been saved, the call returns [ErrDispatchFailed], no [Delete] is
    issued, and the session record is still in the repository. *)
Lemma EndSession_keeps_session_on_dispatch_failure :
  let out := EndSession fixtures.analyticsService (mkEndSessionCommand "u1")
               (fixtures.analyticsEnv (Some fixtures.providerDown), []) in
  fst out = Ok (Some ErrDispatchFailed) /\
  In (CallSave (fst (End fixtures.live_session (fixtures.t0 + fixtures.hour))))
     (snd (snd out)) /\
  ~ In (CallDelete "u1") (snd (snd out)) /\
  fixtures.sessions (fst (snd out)) !! "u1"
  = Some (fst (End fixtures.live_session (fixtures.t0 + fixtures.hour))).
Proof.
  vm_compute. repeat split.
  - right. right. left. reflexivity.
  - intros H. repeat (destruct H as [H | H]; [discriminate H |]). exact H.
Qed.

Lemma EndSession_cleanup_witness :
  let ended := fst (End fixtures.live_session (fixtures.t0 + fixtures.hour)) in
  let ev := mkEvent EventTypeTrack "u1" EventNameEnd fixtures.goContext
              None None (fixtures.t0 + fixtures.hour) in
  EndSession fixtures.analyticsService (mkEndSessionCommand "u1")
    (fixtures.analyticsEnv (Some fixtures.providerDown), [])
  = (Ok (Some ErrDispatchFailed),
     (fixtures.set_sessions {[ "u1" := ended ]}
        (fixtures.analyticsEnv (Some fixtures.providerDown)),
      [CallGet "u1"; CallClock; CallSave ended; CallContextFactory;
       CallDispatch [ev]])).
Proof.
  intros ended ev.
  refine (proj2 (EndSession_cleanup fixtures.analyticsService
            (mkEndSessionCommand "u1")
            (fixtures.analyticsEnv (Some fixtures.providerDown))
            (fixtures.analyticsEnv (Some fixtures.providerDown))
            (fixtures.analyticsEnv (Some fixtures.providerDown))
            (fixtures.set_sessions {[ "u1" := ended ]}
               (fixtures.analyticsEnv (Some fixtures.providerDown)))
            (fixtures.set_sessions {[ "u1" := ended ]}
               (fixtures.analyticsEnv (Some fixtures.providerDown)))
            (fixtures.set_sessions {[ "u1" := ended ]}
               (fixtures.analyticsEnv (Some fixtures.providerDown)))
            [] (fixtures.t0 + fixtures.hour) fixtures.live_session ended
            fixtures.goContext ev (Some fixtures.providerDown)
            _ _ _ _ _ _ _ _) _);
    try reflexivity; try discriminate.
Defined.

End AnalyticsExamples.

(** ** Tournament lifecycle *)

Section TournamentServiceFacts.
Import tournament tournaments.
Context {E : Type}.
Variable unixSeconds : Time -> Z.
Variable durationSeconds : Go.Duration -> Z.

Lemma MemoryRepository_Save_Get (tournaments : E -> gmap string Tournament)
    (set_tournaments : gmap string Tournament -> E -> E) (t : Tournament) (e : E) :
  (forall m e', tournaments (set_tournaments m e') = m) ->
  let repo := MemoryRepository tournaments set_tournaments in
  fst (@Get E repo (ID t) (snd (@Save E repo t e))) = (Some t, None).
Proof.
  intros Hget repo. cbn. rewrite Hget, lookup_insert_eq. reflexivity.
Qed.

(** C8. [CreateTournament] saves to the repository before it calls the
    provider.  When the aggregate cannot be built, neither is called.
    When [Save] fails, its error is returned and the provider is not
    called.  When [Save] succeeds and the provider fails, the provider
    error is returned and no repository call follows the [Save]: nothing
    undoes it. *)
Theorem CreateTournament_save_then_sync (s : Service E)
    (cmd : CreateTournamentCommand) (e e0 : E) (tr : list Call) (now : Time) :
  Clock s e = (now, e0) ->
  let built :=
    NewTournament (c_ID cmd) (c_Title cmd) (c_Description cmd)
      (c_Category cmd) (c_SortOrder cmd) (c_Operator cmd)
      (c_ResetSchedule cmd) (c_Authoritative cmd) (c_JoinRequired cmd)
      (c_MaxSize cmd) (c_MaxNumScore cmd) (c_StartTime cmd)
      (c_Duration cmd) now in
  let params := paramsOf unixSeconds durationSeconds cmd in
  let out := CreateTournament unixSeconds durationSeconds s cmd (e, tr) in
  (forall verr, built = inr verr ->
     out = (Ok ({| r_TournamentID := "" |}, Some verr),
            (e0, (tr ++ [CallClock])%list))) /\
  (forall t err e1, built = inl t ->
     @Save E (Repo s) t e0 = (Some err, e1) ->
     out = (Ok ({| r_TournamentID := "" |}, Some err),
            (e1, (tr ++ [CallClock; CallRepoSave t])%list))) /\
  (forall t e1 err e2, built = inl t ->
     @Save E (Repo s) t e0 = (None, e1) ->
     @ProviderCreateTournament E (Provider s) params e1 = (Some err, e2) ->
     out = (Ok ({| r_TournamentID := "" |}, Some err),
            (e2, (tr ++ [CallClock; CallRepoSave t;
                         CallProviderCreate params])%list))) /\
  (forall t e1 e2, built = inl t ->
     @Save E (Repo s) t e0 = (None, e1) ->
     @ProviderCreateTournament E (Provider s) params e1 = (None, e2) ->
     out = (Ok ({| r_TournamentID := ID t |}, None),
            (e2, (tr ++ [CallClock; CallRepoSave t;
                         CallProviderCreate params])%list))).
Proof.
  intros Hclock built params out. subst built params out.
  unfold CreateTournament. eff_unfold. rewrite Hclock. eff_trace.
  repeat split.
  - intros verr ->. reflexivity.
  - intros t err e1 -> Hsave. eff_trace. rewrite Hsave. eff_trace. reflexivity.
  - intros t e1 err e2 -> Hsave Hprov. eff_trace. rewrite Hsave. eff_trace.
    rewrite Hprov. eff_trace. reflexivity.
  - intros t e1 e2 -> Hsave Hprov. eff_trace. rewrite Hsave. eff_trace.
    rewrite Hprov. eff_trace. reflexivity.
Qed.

(** C9. [DeleteTournament] calls the provider before the repository.
    With a blank id it calls neither.  When the provider delete fails, its
    error is returned and the repository is not called, so the local
    record stays as it was.  Only after the provider delete has succeeded
    is the repository delete called. *)
Theorem DeleteTournament_sync_then_delete (s : Service E)
    (cmd : DeleteTournamentCommand) (e : E) (tr : list Call) :
  let id := d_TournamentID cmd in
  let out := DeleteTournament s cmd (e, tr) in
  (forall verr, shared.TournamentID_Validate id = Some verr ->
     out = (Ok (Some verr), (e, tr))) /\
  (forall err e1, shared.TournamentID_Validate id = None ->
     @ProviderDeleteTournament E (Provider s) id e = (Some err, e1) ->
     out = (Ok (Some err), (e1, (tr ++ [CallProviderDelete id])%list))) /\
  (forall e1, shared.TournamentID_Validate id = None ->
     @ProviderDeleteTournament E (Provider s) id e = (None, e1) ->
     out = (Ok (fst (@Delete E (Repo s) id e1)),
            (snd (@Delete E (Repo s) id e1),
             (tr ++ [CallProviderDelete id; CallRepoDelete id])%list))).
Proof.
  intros id out. subst id out. unfold DeleteTournament.
  repeat split.
  - intros verr ->. reflexivity.
  - intros err e1 -> Hprov. eff_unfold. rewrite Hprov. eff_trace. reflexivity.
  - intros e1 -> Hprov. eff_unfold. rewrite Hprov. eff_trace.
    destruct (@Delete E (Repo s) (d_TournamentID cmd) e1) as [[err |] e2];
      eff_trace; reflexivity.
Qed.

End TournamentServiceFacts.


Section TournamentServiceExamples.
Import tournament tournaments.

Example CreateTournament_cup :
  CreateTournament fixtures.unixSeconds fixtures.wholeSeconds
    fixtures.tournamentService fixtures.cupCommand (fixtures.emptyStore None None, [])
  = (Ok ({| r_TournamentID := "t1" |}, None),
     (fixtures.cupStore None,
      [CallClock; CallRepoSave fixtures.cup_value;
       CallProviderCreate
         (paramsOf fixtures.unixSeconds fixtures.wholeSeconds fixtures.cupCommand)])).
Proof. vm_compute. reflexivity. Qed.

Example cup_duration_in_seconds :
  p_Duration (paramsOf fixtures.unixSeconds fixtures.wholeSeconds fixtures.cupCommand)
  = 86400.
Proof. reflexivity. Qed.

Lemma CreateTournament_save_then_sync_witness :
  let params := paramsOf fixtures.unixSeconds fixtures.wholeSeconds fixtures.cupCommand in
  CreateTournament fixtures.unixSeconds fixtures.wholeSeconds
    fixtures.tournamentService fixtures.cupCommand
    (fixtures.emptyStore (Some fixtures.diskFull) None, [])
  = (Ok ({| r_TournamentID := "" |}, Some fixtures.diskFull),
     (fixtures.emptyStore (Some fixtures.diskFull) None,
      [CallClock; CallRepoSave fixtures.cup_value])) /\
  CreateTournament fixtures.unixSeconds fixtures.wholeSeconds
    fixtures.tournamentService fixtures.cupCommand
    (fixtures.emptyStore None (Some fixtures.providerDown), [])
  = (Ok ({| r_TournamentID := "" |}, Some fixtures.providerDown),
     (fixtures.cupStore (Some fixtures.providerDown),
      [CallClock; CallRepoSave fixtures.cup_value; CallProviderCreate params])) /\
  fixtures.tournaments (fixtures.cupStore (Some fixtures.providerDown)) !! "t1"
  = Some fixtures.cup_value.
Proof.
  intros params. split; [| split].
  - destruct (CreateTournament_save_then_sync fixtures.unixSeconds
                fixtures.wholeSeconds fixtures.tournamentService
                fixtures.cupCommand
                (fixtures.emptyStore (Some fixtures.diskFull) None)
                (fixtures.emptyStore (Some fixtures.diskFull) None)
                [] fixtures.t0 eq_refl) as (_ & Hsave & _).
    apply (Hsave fixtures.cup_value); reflexivity.
  - destruct (CreateTournament_save_then_sync fixtures.unixSeconds
                fixtures.wholeSeconds fixtures.tournamentService
                fixtures.cupCommand
                (fixtures.emptyStore None (Some fixtures.providerDown))
                (fixtures.emptyStore None (Some fixtures.providerDown))
                [] fixtures.t0 eq_refl) as (_ & _ & Hprov & _).
    apply (Hprov fixtures.cup_value (fixtures.cupStore (Some fixtures.providerDown)));
      reflexivity.
  - reflexivity.
Defined.

Lemma DeleteTournament_sync_then_delete_witness :
  DeleteTournament fixtures.tournamentService (mkDeleteTournamentCommand "t1")
    (fixtures.cupStore (Some fixtures.providerDown), [])
  = (Ok (Some fixtures.providerDown),
     (fixtures.cupStore (Some fixtures.providerDown), [CallProviderDelete "t1"])) /\
  DeleteTournament fixtures.tournamentService (mkDeleteTournamentCommand "t1")
    (fixtures.cupStore None, [])
  = (Ok None,
     (fixtures.emptyStore None None, [CallProviderDelete "t1"; CallRepoDelete "t1"])) /\
  (exists verr,
     DeleteTournament fixtures.tournamentService (mkDeleteTournamentCommand "  ")
       (fixtures.cupStore None, [])
     = (Ok (Some verr), (fixtures.cupStore None, []))).
Proof.
  split; [| split].
  - destruct (DeleteTournament_sync_then_delete fixtures.tournamentService
                (mkDeleteTournamentCommand "t1")
                (fixtures.cupStore (Some fixtures.providerDown)) [])
      as (_ & Hfail & _).
    apply Hfail; reflexivity.
  - destruct (DeleteTournament_sync_then_delete fixtures.tournamentService
                (mkDeleteTournamentCommand "t1") (fixtures.cupStore None) [])
      as (_ & _ & Hok).
    apply (Hok (fixtures.cupStore None)); reflexivity.
  - destruct (DeleteTournament_sync_then_delete fixtures.tournamentService
                (mkDeleteTournamentCommand "  ") (fixtures.cupStore None) [])
      as (Hblank & _).
    eexists. apply Hblank. reflexivity.
Defined.

End TournamentServiceExamples.

(* ===================================================================== *)
(** * Further properties of the aggregates                                 *)
(* ===================================================================== *)

Section TournamentMore.
Import tournament.

Lemma NewTournament_inv (id : shared.TournamentID) (title description : string)
    (category : Z) (sortOrder : SortOrder) (operator : Operator)
    (resetSchedule : string) (authoritative joinRequired : bool)
    (maxSize maxNumScore : Z) (startTime : Time) (duration : Go.Duration)
    (now : Time) (t : Tournament) :
  NewTournament id title description category sortOrder operator resetSchedule
    authoritative joinRequired maxSize maxNumScore startTime duration now = inl t ->
  shared.TournamentID_Validate id = None /\ String.eqb title "" = false /\
  IsZero startTime = false /\ 0 <= category /\ 0 <= maxSize /\
  0 <= maxNumScore /\ 0 <= duration /\
  t = mkTournament id title description category sortOrder operator
        resetSchedule authoritative joinRequired maxSize maxNumScore
        startTime None duration StateActive now now.
Proof.
  unfold NewTournament.
  destruct (shared.TournamentID_Validate id); [discriminate |].
  destruct (String.eqb title ""); [discriminate |].
  destruct (category <? 0) eqn:Hc; [discriminate |].
  destruct (maxSize <? 0) eqn:Hm; [discriminate |].
  destruct (maxNumScore <? 0) eqn:Hn; [discriminate |].
  destruct (IsZero startTime); [discriminate |].
  destruct (duration <? 0) eqn:Hd; [discriminate |].
  intros [= <-]. repeat split; lia.
Qed.

(** X1. Every tournament that [NewTournament] returns is active, has no
    end time and passes [Validate]; [End] and [Reset], whether they
    accept or refuse, leave a tournament that passes [Validate] one that
    passes it. *)
Theorem tournament_stays_valid :
  (forall id title description category sortOrder operator resetSchedule
          authoritative joinRequired maxSize maxNumScore startTime duration now t,
     NewTournament id title description category sortOrder operator
       resetSchedule authoritative joinRequired maxSize maxNumScore
       startTime duration now = inl t ->
     Validate t = None /\ State t = StateActive /\ EndTime t = None) /\
  (forall t x, Validate t = None ->
     Validate (fst (tournament.End t x)) = None /\
     Validate (fst (Reset t x)) = None).
Proof.
  split.
  - intros * H. apply NewTournament_inv in H as (Hid & Ht & Hs & _ & _ & _ & _ & ->).
    unfold Validate. cbn. rewrite Hid, Ht, Hs. auto.
  - intros t x Hv. unfold tournament.End, Reset, Validate in *.
    destruct (String.eqb (State t) StateEnded), (Before x (StartTime t)),
      (String.eqb (State t) StateActive); cbn; auto.
Qed.

Lemma tournament_stays_valid_witness :
  Validate fixtures.cup_value = None /\
  Validate (fst (tournament.End fixtures.cup_value (fixtures.t0 + 26 * fixtures.hour))) = None.
Proof.
  destruct tournament_stays_valid as [Hnew Hstep].
  destruct (Hnew "t1" "Cup" "" 0 SortOrderDescending OperatorBest "" true false
              10 10 (fixtures.t0 + fixtures.hour) (24 * fixtures.hour) fixtures.t0
              fixtures.cup_value eq_refl) as (Hv & _ & _).
  split; [exact Hv |].
  exact (proj1 (Hstep fixtures.cup_value (fixtures.t0 + 26 * fixtures.hour) Hv)).
Defined.

(** X2. The life cycle as the code has it.  After a successful [End],
    [Reset] succeeds and keeps the recorded end time.  After a successful
    [Reset], a further [Reset] is refused and changes nothing, while [End]
    is accepted again for any time not before the start: [End] refuses
    only the state ended. *)
Theorem tournament_lifecycle (t : Tournament) (t1 t2 : Time) :
  (forall ended, tournament.End t t1 = (ended, None) ->
     Reset ended t2 = (set_reset ended t2, None) /\
     EndTime (set_reset ended t2) = Some t1 /\
     State (set_reset ended t2) = StateReset) /\
  (forall r, Reset t t1 = (r, None) ->
     (exists err, Reset r t2 = (r, Some err)) /\
     (Before t2 (StartTime r) = false ->
      tournament.End r t2 = (set_ended r t2, None))).
Proof.
  split.
  - intros ended H. apply End_ok_inv in H as (_ & _ & ->). repeat split.
  - intros r H. unfold Reset in H.
    destruct (negb (String.eqb (State t) StateActive)
              && negb (String.eqb (State t) StateEnded)); [discriminate |].
    injection H as <-. split.
    + eexists. reflexivity.
    + intros Hb. cbn in Hb. unfold tournament.End. cbn. rewrite Hb. reflexivity.
Qed.

Lemma tournament_lifecycle_witness :
  let ended := set_ended fixtures.cup_value (fixtures.t0 + 26 * fixtures.hour) in
  Reset ended (fixtures.t0 + 27 * fixtures.hour)
    = (set_reset ended (fixtures.t0 + 27 * fixtures.hour), None) /\
  (exists err,
     Reset (set_reset fixtures.cup_value fixtures.t0) (fixtures.t0 + fixtures.hour)
     = (set_reset fixtures.cup_value fixtures.t0, Some err)).
Proof.
  split.
  - apply (proj1 (tournament_lifecycle fixtures.cup_value
                    (fixtures.t0 + 26 * fixtures.hour)
                    (fixtures.t0 + 27 * fixtures.hour))).
    reflexivity.
  - apply (proj2 (tournament_lifecycle fixtures.cup_value fixtures.t0
                    (fixtures.t0 + fixtures.hour))).
    reflexivity.
Defined.

(** X3. [CalculateEndTime] reports the start plus the duration whenever
    the duration is positive, whatever [End] has recorded; the time that
    [End] recorded is reported only by a tournament without duration,
    which before its end reports the zero time. *)
Theorem CalculateEndTime_cases (t : Tournament) :
  (0 < Duration t ->
     forall e, CalculateEndTime (fst (tournament.End t e)) = StartTime t + Duration t) /\
  (Duration t <= 0 ->
     forall e ended, tournament.End t e = (ended, None) -> CalculateEndTime ended = e) /\
  (Duration t <= 0 -> EndTime t = None -> CalculateEndTime t = zeroTime).
Proof.
  repeat split.
  - intros Hd e. unfold tournament.End.
    destruct (String.eqb (State t) StateEnded), (Before e (StartTime t));
      unfold CalculateEndTime; cbn;
      (assert ((0 <? Duration t) = true) as -> by (apply Z.ltb_lt; lia));
      reflexivity.
  - intros Hd e ended H. apply End_ok_inv in H as (_ & _ & ->).
    unfold CalculateEndTime. cbn.
    assert ((0 <? Duration t) = false) as -> by (apply Z.ltb_ge; lia).
    reflexivity.
  - intros Hd Hn. unfold CalculateEndTime. rewrite Hn.
    assert ((0 <? Duration t) = false) as -> by (apply Z.ltb_ge; lia).
    reflexivity.
Qed.

Lemma CalculateEndTime_cases_witness :
  CalculateEndTime (fst (tournament.End fixtures.cup_value (fixtures.t0 + 2 * fixtures.hour)))
  = (fixtures.t0 + fixtures.hour) + 24 * fixtures.hour.
Proof.
  apply (proj1 (CalculateEndTime_cases fixtures.cup_value)).
  reflexivity.
Defined.

End TournamentMore.

Section ParticipantMore.
Import participant.



End ParticipantMore.

Section BattleMore.
Import battle.

Lemma joined_elem_of (slots : list PlayerSlot) (player : shared.PlayerID) :
  joined slots player = true <-> player ∈ (PlayerID <$> slots).
Proof.
  induction slots as [| slot rest IH]; cbn.
  - split; [discriminate | intros H; inversion H].
  - destruct (String.eqb_spec (PlayerID slot) player) as [-> | Hne].
    + split; [intros _; apply list_elem_of_here | reflexivity].
    + rewrite IH. split; [apply list_elem_of_further |].
      intros H. inversion H; subst; [contradiction | assumption].
Qed.

Lemma slot_index_None (slots : list PlayerSlot) (player : shared.PlayerID) (k : nat) :
  slot_index slots player k = None <-> joined slots player = false.
Proof.
  revert k. induction slots as [| slot rest IH]; intros k; cbn.
  - split; reflexivity.
  - destruct (String.eqb (PlayerID slot) player); [split; discriminate | apply IH].
Qed.

Lemma slot_index_Some (slots : list PlayerSlot) (player : shared.PlayerID)
    (k i : nat) (slot : PlayerSlot) :
  slot_index slots player k = Some (i, slot) ->
  (k <= i)%nat /\ slots !! (i - k)%nat = Some slot /\ PlayerID slot = player.
Proof.
  revert k. induction slots as [| s rest IH]; intros k; cbn; [discriminate |].
  destruct (String.eqb_spec (PlayerID s) player) as [Heq | Hne].
  - intros [= <- <-]. rewrite Nat.sub_diag. auto.
  - intros H. apply IH in H as (Hle & Hl & Hp).
    replace (i - k)%nat with (S (i - S k)) by lia. repeat split; auto. lia.
Qed.

Lemma slot_index_insert_same (slots : list PlayerSlot) (player : shared.PlayerID)
    (k i : nat) (slot slot' : PlayerSlot) :
  slot_index slots player k = Some (i, slot) ->
  PlayerID slot' = PlayerID slot ->
  slot_index (<[(i - k)%nat := slot']> slots) player k = Some (i, slot').
Proof.
  revert k. induction slots as [| s rest IH]; intros k; cbn; [discriminate |].
  destruct (String.eqb_spec (PlayerID s) player) as [Heq | Hne].
  - intros [= <- <-] Hp. rewrite Nat.sub_diag. cbn. rewrite Hp, Heq.
    rewrite String.eqb_refl. reflexivity.
  - intros H Hp. pose proof (slot_index_Some _ _ _ _ _ H) as (Hle & _ & _).
    replace (i - k)%nat with (S (i - S k)) by lia. cbn.
    destruct (String.eqb_spec (PlayerID s) player); [contradiction |].
    apply IH; assumption.
Qed.

Lemma slot_index_insert_other (slots : list PlayerSlot) (other : shared.PlayerID)
    (j k : nat) (slot slot' : PlayerSlot) :
  slots !! j = Some slot ->
  PlayerID slot' = PlayerID slot ->
  PlayerID slot <> other ->
  slot_index (<[j := slot']> slots) other k = slot_index slots other k.
Proof.
  revert j k. induction slots as [| s rest IH]; intros j k; [discriminate |].
  destruct j as [| j]; cbn.
  - intros [= ->] Hp Hne. rewrite Hp.
    destruct (String.eqb_spec (PlayerID slot) other); [contradiction | reflexivity].
  - intros Hl Hp Hne. destruct (String.eqb (PlayerID s) other); [reflexivity |].
    apply (IH j (S k) Hl Hp Hne).
Qed.

Lemma MarkReady_ids (b : Battle) (player : shared.PlayerID) (ready : bool) (now : Time) :
  PlayerID <$> Slots (fst (MarkReady b player ready now)) = PlayerID <$> Slots b.
Proof.
  unfold MarkReady.
  destruct (slot_index (Slots b) player 0) as [[i slot] |] eqn:Hi; [| reflexivity].
  apply slot_index_Some in Hi as (_ & Hl & _). rewrite Nat.sub_0_r in Hl.
  cbn. rewrite list_fmap_insert. apply list_insert_id.
  rewrite list_lookup_fmap, Hl. reflexivity.
Qed.

(** X5. The slots of a battle never hold a player twice: [NewBattle]
    starts with the leader alone, [AddPlayer] keeps the player ids
    distinct, and [MarkReady] does not change which players hold the
    slots, nor their order. *)
Theorem battle_slots_distinct :
  (forall id leader key now b,
     NewBattle id leader key now = inl b ->
     PlayerID <$> Slots b = [leader]) /\
  (forall b player now,
     NoDup (PlayerID <$> Slots b) ->
     NoDup (PlayerID <$> Slots (fst (AddPlayer b player now)))) /\
  (forall b player ready now,
     PlayerID <$> Slots (fst (MarkReady b player ready now)) = PlayerID <$> Slots b).
Proof.
  split; [| split].
  - intros id leader key now b. unfold NewBattle.
    destruct (shared.BattleID_Validate id); [discriminate |].
    destruct (shared.PlayerID_Validate leader); [discriminate |].
    destruct (shared.IdempotencyKey_Validate key); [discriminate |].
    intros [= <-]. reflexivity.
  - intros b player now Hnd. unfold AddPlayer.
    destruct (joined (Slots b) player) eqn:Hj; [exact Hnd |].
    cbn. rewrite fmap_app. apply NoDup_app. split; [exact Hnd |]. split.
    + intros x Hx Hin. cbn in Hin. apply list_elem_of_singleton in Hin. subst x.
      apply joined_elem_of in Hx. congruence.
    + cbn. apply NoDup_singleton.
  - apply MarkReady_ids.
Qed.

(** X6. [AddPlayer] accepts a player exactly when [MarkReady] would
    answer [ErrPlayerNotFound] for them.  Once accepted, the player holds
    one more slot at the end, joined at the given time and not ready; a
    second [AddPlayer] for them answers [ErrPlayerAlreadyJoined] and
    [MarkReady] for them succeeds. *)
Theorem AddPlayer_iff_not_joined (b : Battle) (player : shared.PlayerID)
    (now later : Time) (ready : bool) :
  (snd (AddPlayer b player now) = None <->
   snd (MarkReady b player ready later) = Some ErrPlayerNotFound) /\
  (snd (AddPlayer b player now) = None ->
   let b' := fst (AddPlayer b player now) in
   Slots b' = (Slots b ++ [ {| PlayerID := player; JoinedAt := now; Ready := false |} ])%list /\
   AddPlayer b' player later = (b', Some ErrPlayerAlreadyJoined) /\
   snd (MarkReady b' player ready later) = None).
Proof.
  unfold AddPlayer, MarkReady.
  destruct (joined (Slots b) player) eqn:Hj.
  - split; [| discriminate].
    destruct (slot_index (Slots b) player 0) as [[i slot] |] eqn:Hi.
    + split; discriminate.
    + apply slot_index_None in Hi. congruence.
  - pose proof (proj2 (slot_index_None (Slots b) player 0) Hj) as Hi. rewrite Hi.
    split; [split; reflexivity |].
    intros _. cbn.
    assert (joined (Slots b ++ [ {| PlayerID := player; JoinedAt := now; Ready := false |} ])%list
              player = true) as Hj'.
    { apply joined_elem_of. rewrite fmap_app. apply elem_of_app. right.
      cbn. apply list_elem_of_here. }
    rewrite Hj'. repeat split.
    destruct (slot_index
                (Slots b ++ [ {| PlayerID := player; JoinedAt := now; Ready := false |} ])%list
                player 0) as [[i slot] |] eqn:Hi'; [reflexivity |].
    apply slot_index_None in Hi'. congruence.
Qed.

(** X7. An accepted [MarkReady] changes one thing in the slots: the ready
    flag of the first slot of that player.  That slot keeps its player and
    joining time, every other player's slot is found where and as it was,
    and the battle's [UpdatedAt] becomes the given time. *)
Theorem MarkReady_sets_flag (b b' : Battle) (player : shared.PlayerID)
    (ready : bool) (now : Time) :
  MarkReady b player ready now = (b', None) ->
  (exists i slot,
     slot_index (Slots b) player 0 = Some (i, slot) /\
     slot_index (Slots b') player 0
     = Some (i, {| PlayerID := PlayerID slot; JoinedAt := JoinedAt slot;
                   Ready := ready |})) /\
  (forall other, other <> player ->
     slot_index (Slots b') other 0 = slot_index (Slots b) other 0) /\
  length (Slots b') = length (Slots b) /\
  UpdatedAt b' = now /\ Leader b' = Leader b.
Proof.
  unfold MarkReady.
  destruct (slot_index (Slots b) player 0) as [[i slot] |] eqn:Hi; [| discriminate].
  intros [= <-]. cbn.
  pose proof (slot_index_Some _ _ _ _ _ Hi) as (_ & Hl & Hp).
  rewrite Nat.sub_0_r in Hl.
  split; [| split; [| split; [| split]]]; try reflexivity.
  - exists i, slot. split; [reflexivity |].
    pose proof (slot_index_insert_same (Slots b) player 0 i slot
                  {| PlayerID := PlayerID slot; JoinedAt := JoinedAt slot; Ready := ready |}
                  Hi eq_refl) as H.
    rewrite Nat.sub_0_r in H. exact H.
  - intros other Hne. apply (slot_index_insert_other _ _ _ _ slot); auto.
    congruence.
  - apply length_insert.
Qed.

End BattleMore.

Section BattleExamples.
Import battle.

Example NewBattle_arena : NewBattle "b1" "p1" "k1" fixtures.t0 = inl fixtures.arena.
Proof. reflexivity. Qed.

Lemma battle_slots_distinct_witness :
  NoDup (PlayerID <$> Slots (fst (AddPlayer fixtures.arena "p2" fixtures.t0))).
Proof.
  apply (proj1 (proj2 battle_slots_distinct)).
  rewrite (proj1 battle_slots_distinct "b1" "p1" "k1" fixtures.t0 fixtures.arena eq_refl).
  apply NoDup_singleton.
Defined.

Lemma AddPlayer_iff_not_joined_witness :
  AddPlayer (fst (AddPlayer fixtures.arena "p2" fixtures.t0)) "p2"
    (fixtures.t0 + fixtures.hour)
  = (fst (AddPlayer fixtures.arena "p2" fixtures.t0), Some ErrPlayerAlreadyJoined).
Proof.
  apply (proj2 (AddPlayer_iff_not_joined fixtures.arena "p2" fixtures.t0
                  (fixtures.t0 + fixtures.hour) true)).
  reflexivity.
Defined.

Lemma MarkReady_sets_flag_witness :
  length (Slots (fst (MarkReady fixtures.arena "p1" false fixtures.t0)))
  = length (Slots fixtures.arena).
Proof.
  apply (MarkReady_sets_flag fixtures.arena _ "p1" false fixtures.t0).
  reflexivity.
Defined.

End BattleExamples.

Section GroupMore.
Import group.



End GroupMore.

Section PlayerMore.
Import player.

(** X9. On an account that is not suspended and has a device map,
    [RegisterDevice] with a non-empty device id stores the device under
    its id, replacing any device of that id and leaving the other devices
    and the sessions alone; a device without [LastSeen] is stamped with
    the wall clock.  On an account whose device map is nil the call
    panics. *)
Theorem RegisterDevice_stores (p : PlayerAccount) (device : DeviceFingerprint)
    (w : Wall) :
  Suspended p = false -> dev_ID device <> "" ->
  (forall m, Devices p = Some m ->
     exists p' w' stored,
       RegisterDevice p device w = (Ok (p', None), w') /\
       Devices p' = Some (<[dev_ID device := stored]> m) /\
       dev_ID stored = dev_ID device /\ dev_Platform stored = dev_Platform device /\
       dev_LastSeen stored
       = (if IsZero (dev_LastSeen device) then wall_at w (wall_reads w)
          else dev_LastSeen device) /\
       (forall other, other <> dev_ID device ->
          (<[dev_ID device := stored]> m) !! other = m !! other) /\
       Sessions p' = Sessions p /\ Suspended p' = false) /\
  (Devices p = None ->
     exists msg w', RegisterDevice p device w = (Panic msg, w')).
Proof.
  intros Hs Hid. unfold RegisterDevice. rewrite Hs.
  destruct (String.eqb_spec (dev_ID device) ""); [contradiction |].
  split.
  - intros m Hm.
    destruct (IsZero (dev_LastSeen device)); cbn; rewrite Hm; cbn;
      do 3 eexists; (split; [reflexivity |]); cbn;
      repeat split; auto; intros other Hne; apply lookup_insert_ne; congruence.
  - intros Hm.
    destruct (IsZero (dev_LastSeen device)); cbn; rewrite Hm; eauto.
Qed.

Lemma RegisterDevice_stores_witness :
  exists p' w' stored,
    RegisterDevice fixtures.alice fixtures.phone fixtures.wallA = (Ok (p', None), w') /\
    Devices p' = Some (<["d1" := stored]> ∅).
Proof.
  destruct (proj1 (RegisterDevice_stores fixtures.alice fixtures.phone fixtures.wallA
                     eq_refl ltac:(discriminate)) ∅ eq_refl)
    as (p' & w' & stored & H1 & H2 & _).
  exists p', w', stored. auto.
Defined.

(** X10. [Suspend] closes the gate and [Reinstate] opens it again:
    after [Suspend] the account is suspended with the given message and
    [CanStartBattle] is refused; after [Reinstate] the flag and the
    message are cleared and [CanStartBattle] accepts every valid key.
    Neither touches the id, the email, the devices, the sessions or
    [CreatedAt], and each reads the wall clock once. *)
Theorem Suspend_then_Reinstate (p : PlayerAccount) (message : string) (w : Wall) :
  let p1 := fst (Suspend p message w) in
  let w1 := snd (Suspend p message w) in
  let p2 := fst (Reinstate p1 w1) in
  let w2 := snd (Reinstate p1 w1) in
  Suspended p1 = true /\ SuspensionMsg p1 = message /\
  Suspended p2 = false /\ SuspensionMsg p2 = "" /\
  (ID p2, Email p2, DisplayName p2, Devices p2, Sessions p2, CreatedAt p2)
  = (ID p, Email p, DisplayName p, Devices p, Sessions p, CreatedAt p) /\
  wall_reads w2 = S (S (wall_reads w)) /\
  (forall key, snd (CanStartBattle p1 key) = Some ErrAccountSuspended) /\
  (forall key, shared.IdempotencyKey_Validate key = None ->
     CanStartBattle p2 key = (p2, None)).
Proof.
  cbn. repeat split. intros key Hk. unfold CanStartBattle. cbn. rewrite Hk.
  reflexivity.
Qed.

Lemma Suspend_then_Reinstate_witness :
  CanStartBattle
    (fst (Reinstate (fst (Suspend fixtures.alice "abuse" fixtures.wallA))
            (snd (Suspend fixtures.alice "abuse" fixtures.wallA)))) "k1"
  = (fst (Reinstate (fst (Suspend fixtures.alice "abuse" fixtures.wallA))
            (snd (Suspend fixtures.alice "abuse" fixtures.wallA))), None).
Proof.
  apply (Suspend_then_Reinstate fixtures.alice "abuse" fixtures.wallA).
  reflexivity.
Defined.

(** X11. [RecordSession] with an empty session id does nothing and does
    not read the clock.  Otherwise it appends exactly one session after
    the ones recorded, with the given id, address and agent, stamped with
    the wall clock when it carries no [IssuedAt]; devices and suspension
    are untouched. *)
Theorem RecordSession_appends (p : PlayerAccount) (session : SessionMetadata)
    (w : Wall) :
  (SessionID session = "" -> RecordSession p session w = (p, w)) /\
  (SessionID session <> "" ->
   exists stamped,
     Sessions (fst (RecordSession p session w)) = (Sessions p ++ [stamped])%list /\
     SessionID stamped = SessionID session /\
     IpAddress stamped = IpAddress session /\
     UserAgent stamped = UserAgent session /\
     IssuedAt stamped
     = (if IsZero (IssuedAt session) then wall_at w (wall_reads w)
        else IssuedAt session) /\
     Devices (fst (RecordSession p session w)) = Devices p /\
     Suspended (fst (RecordSession p session w)) = Suspended p).
Proof.
  unfold RecordSession. split.
  - intros ->. reflexivity.
  - intros Hne. destruct (String.eqb_spec (SessionID session) ""); [contradiction |].
    destruct (IsZero (IssuedAt session)); cbn; eexists; repeat split.
Qed.

Lemma RecordSession_appends_witness :
  exists stamped,
    Sessions (fst (RecordSession fixtures.alice fixtures.login fixtures.wallA))
    = [stamped] /\ SessionID stamped = "s1".
Proof.
  destruct (proj2 (RecordSession_appends fixtures.alice fixtures.login fixtures.wallA)
              ltac:(discriminate)) as (stamped & H1 & H2 & _).
  exists stamped. auto.
Defined.

End PlayerMore.

Section SessionMore.
Import analytics.

Lemma max_int_value : max_int = 9223372036854775807.
Proof. reflexivity. Qed.

Lemma min_int_value : min_int = -9223372036854775808.
Proof. reflexivity. Qed.

Lemma Session_End_ok_inv (s ended : Session) (endedAt : Time) :
  analytics.End s endedAt = (ended, None) ->
  String.eqb (State s) SessionStateEnded = false /\
  StartedAt s <= endedAt /\
  ended = mkSession (UserID s) SessionStateEnded (Version s) (Variant s)
            (StartedAt s) (Some endedAt).
Proof.
  unfold analytics.End.
  destruct (String.eqb (State s) SessionStateEnded); [discriminate |].
  destruct (Before endedAt (StartedAt s)) eqn:Hb; [discriminate |].
  intros [= <-]. unfold Before in Hb. apply Z.ltb_ge in Hb. auto.
Qed.

(** X12. Once [End] has accepted an end time, the session is no longer
    active and its [Duration] is the end minus the start, never negative,
    held at the largest [Duration] when the difference does not fit, and
    computed without reading the clock.  A further [End] is refused and
    changes nothing; the error it returns is built in place and is not
    the package's [ErrSessionAlreadyEnded]. *)
Theorem Session_End_then_Duration (s ended : Session) (endedAt : Time) :
  analytics.End s endedAt = (ended, None) ->
  (forall w, Duration ended w = (Sub endedAt (StartedAt s), w)) /\
  0 <= Sub endedAt (StartedAt s) /\
  (endedAt - StartedAt s <= max_int ->
   Sub endedAt (StartedAt s) = endedAt - StartedAt s) /\
  IsActive ended = false /\
  (forall again, exists err,
     analytics.End ended again = (ended, Some err) /\
     errors_Is err ErrSessionAlreadyEnded = false).
Proof.
  intros H. apply Session_End_ok_inv in H as (_ & Hle & ->).
  unfold Sub. rewrite max_int_value, min_int_value.
  split; [reflexivity |]. split; [lia |]. split; [lia |]. split; [reflexivity |].
  intros again. eexists. split; reflexivity.
Qed.

Lemma Session_End_then_Duration_witness :
  Duration (fst (analytics.End fixtures.live_session (fixtures.t0 + fixtures.hour)))
    fixtures.wallA
  = (fixtures.hour, fixtures.wallA) /\
  IsActive (fst (analytics.End fixtures.live_session (fixtures.t0 + fixtures.hour)))
  = false.
Proof.
  destruct (Session_End_then_Duration fixtures.live_session _
              (fixtures.t0 + fixtures.hour) eq_refl) as (Hd & _ & _ & Ha & _).
  split; [exact (Hd fixtures.wallA) | exact Ha].
Defined.

(** X13. The event constructors only return events that [Validate]
    accepts, and attaching application or system information keeps them
    so.  A track event is refused without a name, and every event is
    refused for a blank user id or a zero timestamp. *)
Theorem constructed_events_validate (userID : shared.PlayerID) (name : EventName)
    (ctx : Context) (timestamp : Time) :
  (forall ev, NewIdentifyEvent userID ctx timestamp = inl ev ->
     Validate ev = None /\
     forall a b c d, Validate (WithOSInfo (WithAppInfo ev a b) c d) = None) /\
  (forall ev, NewTrackEvent userID name ctx timestamp = inl ev ->
     Validate ev = None /\
     forall a b c d, Validate (WithOSInfo (WithAppInfo ev a b) c d) = None) /\
  (shared.PlayerID_Validate userID = None -> IsZero timestamp = false ->
     (exists err, NewTrackEvent userID "" ctx timestamp = inr err) /\
     (exists ev, NewIdentifyEvent userID ctx timestamp = inl ev)) /\
  (shared.PlayerID_Validate userID <> None \/ IsZero timestamp = true ->
     (exists err, NewTrackEvent userID name ctx timestamp = inr err) /\
     (exists err, NewIdentifyEvent userID ctx timestamp = inr err)).
Proof.
  unfold NewIdentifyEvent, NewTrackEvent, Validate, WithOSInfo, WithAppInfo.
  destruct (shared.PlayerID_Validate userID) as [verr |] eqn:Hid.
  - repeat split; try discriminate; eauto.
  - destruct (IsZero timestamp) eqn:Hz, (String.eqb name "") eqn:Hn;
      (split; [| split; [| split]]);
      try (intros ev Hev;
           first [ discriminate Hev
                 | injection Hev as <-;
                   cbn [ev_Type ev_UserID ev_Name Timestamp];
                   rewrite ?Hid, ?Hn, ?Hz; split; [reflexivity | intros; reflexivity] ]);
      try (intros _ Habs; discriminate Habs);
      try (intros _ _; split; eexists; reflexivity);
      try (intros _; split; eexists; reflexivity);
      try (intros [Habs | Habs]; congruence).
Qed.

Lemma constructed_events_validate_witness :
  Validate (mkEvent EventTypeTrack "u1" EventNameEnd fixtures.goContext None None
              fixtures.t0) = None /\
  (exists err, NewTrackEvent "u1" "" fixtures.goContext fixtures.t0 = inr err) /\
  (exists err, NewTrackEvent " " EventNameEnd fixtures.goContext fixtures.t0 = inr err).
Proof.
  split; [| split].
  - apply (proj1 (proj2 (constructed_events_validate "u1" EventNameEnd
                           fixtures.goContext fixtures.t0))).
    reflexivity.
  - apply (proj1 (proj2 (proj2 (constructed_events_validate "u1" EventNameEnd
                                  fixtures.goContext fixtures.t0))));
      reflexivity.
  - apply (proj2 (proj2 (proj2 (constructed_events_validate " " EventNameEnd
                                  fixtures.goContext fixtures.t0)))).
    left. discriminate.
Defined.

End SessionMore.

(* ===================================================================== *)
(** * Further properties of the command services                           *)
(* ===================================================================== *)

Section BotMore.
Import bot botapp.
Context {E : Type}.

Lemma NewCommand_ok_inv (id : shared.BotCommandID) (channel : string)
    (payload : list N) (key : shared.IdempotencyKey) (now : Time) (cmd : Command) :
  NewCommand id channel payload key now = inl cmd ->
  cmd = mkCommand id channel payload key CommandStatePending zeroTime zeroTime 0 "" now.
Proof.
  unfold NewCommand.
  destruct (shared.BotCommandID_Validate id); [discriminate |].
  destruct (shared.IdempotencyKey_Validate key); [discriminate |].
  intros [= <-]. reflexivity.
Qed.

(** X14. When the key is fresh and the command is saved but the queue
    refuses it, [Handle] marks the command failed, with one retry counted
    and the text of the queue's error, saves it again whatever that second
    [Save] answers, and returns the queue's error; no one is notified. *)
Theorem Handle_enqueue_failure (s : Service E) (input : CommandInput)
    (e e0 e1 e2 e3 : E) (tr : list Call) (now : Time)
    (existing : option Command) (rerr qerr : error) (cmd : Command)
    (producer : QueueProducer E) :
  Clock s e = (now, e0) ->
  @ReserveCommand E (Repo s) (in_IdempotencyKey input) e0
    = ((existing, Some rerr), e1) ->
  errors_Is rerr shared.ErrNotFound = true ->
  NewCommand (CommandID input) (in_Channel input) (in_Payload input)
    (in_IdempotencyKey input) now = inl cmd ->
  @Save E (Repo s) cmd e1 = (None, e2) ->
  Producer s = Some producer ->
  @Enqueue E producer cmd e2 = (Some qerr, e3) ->
  let failed := MarkAttempt cmd now (Some qerr) in
  Handle s input (e, tr)
  = (Ok ({| Accepted := false |}, Some qerr),
     (snd (@Save E (Repo s) failed e3),
      (tr ++ [CallClock; CallReserveCommand (in_IdempotencyKey input);
              CallNewCommand; CallSave cmd; CallEnqueue cmd; CallSave failed])%list)) /\
  State failed = CommandStateFailed /\ RetryCount failed = 1 /\
  LastError failed = Error qerr /\ AttemptedAt failed = now /\
  IdempotencyKey failed = in_IdempotencyKey input.
Proof.
  intros Hclock Hres Hnf Hnew Hsave Hprod Henq failed. subst failed.
  split.
  - unfold Handle. eff_unfold. rewrite Hclock. eff_trace. rewrite Hres. eff_trace.
    rewrite Hnf. cbn [negb]. rewrite Hnew. eff_trace. rewrite Hsave. eff_trace.
    rewrite Hprod. eff_trace. rewrite Henq. eff_trace.
    destruct (@Save E (Repo s) (MarkAttempt cmd now (Some qerr)) e3) as [x e4].
    eff_trace. reflexivity.
  - apply NewCommand_ok_inv in Hnew. subst cmd. cbn. auto.
Qed.

(** X15. Whatever the collaborators answer, the only command [Handle]
    ever saves is the one built from its input, and it saves it pending
    or, after a refused enqueue, failed with one retry: [Handle] never
    saves a command as completed. *)
Theorem Handle_saves_pending_or_failed (s : Service E) (input : CommandInput)
    (e : E) (c : Command) :
  In (CallSave c) (snd (snd (Handle s input (e, [])))) ->
  ID c = CommandID input /\
  IdempotencyKey c = in_IdempotencyKey input /\
  (State c = CommandStatePending \/
   State c = CommandStateFailed /\ RetryCount c = 1) /\
  State c <> CommandStateCompleted.
Proof.
  unfold Handle, acknowledge. eff_unfold.
  destruct (Clock s e) as [now e0]. eff_trace.
  destruct (@ReserveCommand E (Repo s) (in_IdempotencyKey input) e0)
    as [[existing rerr] e1]. eff_trace.
  destruct rerr as [err |].
  2: { destruct existing as [x |];
         [destruct (String.eqb (State x) CommandStateCompleted) |];
         cbn [fst snd In]; intros H;
         repeat (destruct H as [H | H]; try discriminate H); contradiction. }
  destruct (errors_Is err shared.ErrNotFound); cbn [negb].
  2: { cbn [fst snd In]. intros H.
       repeat (destruct H as [H | H]; try discriminate H). contradiction. }
  eff_trace.
  destruct (NewCommand (CommandID input) (in_Channel input) (in_Payload input)
              (in_IdempotencyKey input) now) as [cmd | verr] eqn:Hnew.
  2: { cbn [fst snd In]. intros H.
       repeat (destruct H as [H | H]; try discriminate H). contradiction. }
  apply NewCommand_ok_inv in Hnew. subst cmd. eff_trace.
  match goal with
  | |- context [@Save E (Repo s) ?c0 e1] =>
      destruct (@Save E (Repo s) c0 e1) as [[serr |] e2]
  end; eff_trace.
  { cbn [In]. intros H.
    repeat (destruct H as [H | H]; try discriminate H); try contradiction.
    injection H as <-. cbn. repeat split; auto; discriminate. }
  destruct (Producer s) as [producer |]; eff_trace.
  - match goal with
    | |- context [@Enqueue E producer ?c0 e2] =>
        destruct (@Enqueue E producer c0 e2) as [[qerr |] e3]
    end; eff_trace.
    + match goal with
      | |- context [@Save E (Repo s) ?c0 e3] =>
          destruct (@Save E (Repo s) c0 e3) as [x e4]
      end; eff_trace.
      cbn [In]. intros H.
      repeat (destruct H as [H | H]; try discriminate H); try contradiction;
        injection H as <-; cbn; repeat split; auto; discriminate.
    + destruct (Notif s) as [n |];
        [destruct (String.eqb (PlayerID input) ""); cbn [negb];
         [| eff_trace;
            match goal with
            | |- context [@Notify E n ?a ?b e3] =>
                destruct (@Notify E n a b e3) as [x e4]
            end] |];
        eff_trace; cbn [In]; intros H;
        repeat (destruct H as [H | H]; try discriminate H); try contradiction;
        injection H as <-; cbn; repeat split; auto; discriminate.
  - destruct (Notif s) as [n |];
      [destruct (String.eqb (PlayerID input) ""); cbn [negb];
       [| eff_trace;
          match goal with
          | |- context [@Notify E n ?a ?b e2] =>
              destruct (@Notify E n a b e2) as [x e4]
          end] |];
      eff_trace; cbn [In]; intros H;
      repeat (destruct H as [H | H]; try discriminate H); try contradiction;
      injection H as <-; cbn; repeat split; auto; discriminate.
Qed.

(** X16. When the key is fresh, the command is saved and the queue takes
    it, [Handle] answers [Accepted = true].  The player is notified once
    when a notifier is set and the input names a player, and not
    otherwise; what [Notify] answers does not change the result. *)
Theorem Handle_accepts_fresh (s : Service E) (input : CommandInput)
    (e e0 e1 e2 e3 : E) (tr : list Call) (now : Time)
    (existing : option Command) (rerr : error) (cmd : Command)
    (producer : QueueProducer E) :
  Clock s e = (now, e0) ->
  @ReserveCommand E (Repo s) (in_IdempotencyKey input) e0
    = ((existing, Some rerr), e1) ->
  errors_Is rerr shared.ErrNotFound = true ->
  NewCommand (CommandID input) (in_Channel input) (in_Payload input)
    (in_IdempotencyKey input) now = inl cmd ->
  @Save E (Repo s) cmd e1 = (None, e2) ->
  Producer s = Some producer ->
  @Enqueue E producer cmd e2 = (None, e3) ->
  let calls := (tr ++ [CallClock; CallReserveCommand (in_IdempotencyKey input);
                       CallNewCommand; CallSave cmd; CallEnqueue cmd])%list in
  fst (Handle s input (e, tr)) = Ok ({| Accepted := true |}, None) /\
  (forall n, Notif s = Some n -> PlayerID input <> "" ->
     snd (Handle s input (e, tr))
     = (snd (@Notify E n (PlayerID input) {[ "status" := "accepted" ]} e3),
        (calls ++ [CallNotify (PlayerID input)])%list)) /\
  (Notif s = None \/ PlayerID input = "" ->
     snd (Handle s input (e, tr)) = (e3, calls)).
Proof.
  intros Hclock Hres Hnf Hnew Hsave Hprod Henq calls. subst calls.
  unfold Handle, acknowledge. eff_unfold. rewrite Hclock. eff_trace.
  rewrite Hres. eff_trace. rewrite Hnf. cbn [negb]. rewrite Hnew. eff_trace.
  rewrite Hsave. eff_trace. rewrite Hprod. eff_trace. rewrite Henq. eff_trace.
  split; [| split].
  - destruct (Notif s) as [n |]; [| reflexivity].
    destruct (String.eqb (PlayerID input) ""); cbn [negb]; [reflexivity |].
    eff_trace. destruct (@Notify E n (PlayerID input) _ e3). reflexivity.
  - intros n -> Hp.
    destruct (String.eqb_spec (PlayerID input) ""); [contradiction |].
    cbn [negb]. eff_trace.
    destruct (@Notify E n (PlayerID input) {[ "status" := "accepted" ]} e3).
    eff_trace. reflexivity.
  - intros [-> | ->]; [reflexivity |].
    destruct (Notif s); reflexivity.
Qed.

(** X17. [Handle] stops at the first collaborator that fails.  An error
    of the reservation other than [ErrNotFound] is returned as it is, and
    nothing is built or saved.  An error of the first [Save] is returned
    as it is, and nothing is enqueued. *)
Theorem Handle_stops_at_first_error (s : Service E) (input : CommandInput)
    (e e0 e1 : E) (tr : list Call) (now : Time)
    (existing : option Command) (rerr : error) :
  Clock s e = (now, e0) ->
  @ReserveCommand E (Repo s) (in_IdempotencyKey input) e0
    = ((existing, Some rerr), e1) ->
  (errors_Is rerr shared.ErrNotFound = false ->
     Handle s input (e, tr)
     = (Ok ({| Accepted := false |}, Some rerr),
        (e1, (tr ++ [CallClock; CallReserveCommand (in_IdempotencyKey input)])%list))) /\
  (forall cmd serr e2,
     errors_Is rerr shared.ErrNotFound = true ->
     NewCommand (CommandID input) (in_Channel input) (in_Payload input)
       (in_IdempotencyKey input) now = inl cmd ->
     @Save E (Repo s) cmd e1 = (Some serr, e2) ->
     Handle s input (e, tr)
     = (Ok ({| Accepted := false |}, Some serr),
        (e2, (tr ++ [CallClock; CallReserveCommand (in_IdempotencyKey input);
                     CallNewCommand; CallSave cmd])%list))).
Proof.
  intros Hclock Hres.
  unfold Handle. eff_unfold. rewrite Hclock. eff_trace. rewrite Hres. eff_trace.
  split.
  - intros ->. reflexivity.
  - intros cmd serr e2 -> Hnew Hsave. cbn [negb]. rewrite Hnew. eff_trace.
    rewrite Hsave. eff_trace. reflexivity.
Qed.

End BotMore.

Section BotMoreExamples.
Import bot botapp.

Lemma Handle_enqueue_failure_witness :
  let failed := MarkAttempt fixtures.freshCommand fixtures.t0 (Some fixtures.providerDown) in
  Handle fixtures.botService fixtures.freshInput
    (fixtures.freshBotEnv (Some fixtures.providerDown), [])
  = (Ok ({| Accepted := false |}, Some fixtures.providerDown),
     (fixtures.savedBotEnv failed (Some fixtures.providerDown),
      [CallClock; CallReserveCommand "k3"; CallNewCommand;
       CallSave fixtures.freshCommand; CallEnqueue fixtures.freshCommand;
       CallSave failed])) /\
  LastError failed = "provider unavailable".
Proof.
  intros failed.
  destruct (Handle_enqueue_failure fixtures.botService fixtures.freshInput
              (fixtures.freshBotEnv (Some fixtures.providerDown))
              (fixtures.freshBotEnv (Some fixtures.providerDown))
              (fixtures.freshBotEnv (Some fixtures.providerDown))
              (fixtures.savedBotEnv fixtures.freshCommand (Some fixtures.providerDown))
              (fixtures.savedBotEnv fixtures.freshCommand (Some fixtures.providerDown))
              [] fixtures.t0 None shared.ErrNotFound fixtures.providerDown
              fixtures.freshCommand fixtures.stubProducer
              eq_refl eq_refl eq_refl eq_refl eq_refl eq_refl eq_refl)
    as (Hrun & _ & _ & Hlast & _).
  split; [exact Hrun | exact Hlast].
Defined.

Lemma Handle_saves_pending_or_failed_witness :
  State (MarkAttempt fixtures.freshCommand fixtures.t0 (Some fixtures.providerDown))
  <> CommandStateCompleted.
Proof.
  apply (Handle_saves_pending_or_failed fixtures.botService fixtures.freshInput
           (fixtures.freshBotEnv (Some fixtures.providerDown))).
  vm_compute. do 5 right. left. reflexivity.
Defined.

Lemma Handle_accepts_fresh_witness :
  Handle fixtures.botService fixtures.freshInput (fixtures.freshBotEnv None, [])
  = (Ok ({| Accepted := true |}, None),
     (fixtures.savedBotEnv fixtures.freshCommand None,
      [CallClock; CallReserveCommand "k3"; CallNewCommand;
       CallSave fixtures.freshCommand; CallEnqueue fixtures.freshCommand])).
Proof.
  destruct (Handle_accepts_fresh fixtures.botService fixtures.freshInput
              (fixtures.freshBotEnv None) (fixtures.freshBotEnv None)
              (fixtures.freshBotEnv None)
              (fixtures.savedBotEnv fixtures.freshCommand None)
              (fixtures.savedBotEnv fixtures.freshCommand None)
              [] fixtures.t0 None shared.ErrNotFound fixtures.freshCommand
              fixtures.stubProducer
              eq_refl eq_refl eq_refl eq_refl eq_refl eq_refl eq_refl)
    as (Hres & _ & Hquiet).
  specialize (Hquiet (or_introl eq_refl)).
  destruct (Handle fixtures.botService fixtures.freshInput
              (fixtures.freshBotEnv None, [])) as [r w].
  cbn in Hres, Hquiet. subst. reflexivity.
Defined.

End BotMoreExamples.

Section BotStopsExample.
Import bot botapp.

Lemma Handle_stops_at_first_error_witness :
  Handle fixtures.brokenBotService fixtures.freshInput (fixtures.freshBotEnv None, [])
  = (Ok ({| Accepted := false |}, Some fixtures.diskFull),
     (fixtures.freshBotEnv None, [CallClock; CallReserveCommand "k3"])).
Proof.
  apply (proj1 (Handle_stops_at_first_error fixtures.brokenBotService
                  fixtures.freshInput (fixtures.freshBotEnv None)
                  (fixtures.freshBotEnv None) (fixtures.freshBotEnv None)
                  [] fixtures.t0 None fixtures.diskFull eq_refl eq_refl)).
  reflexivity.
Defined.

End BotStopsExample.

Section AnalyticsMore.
Import analytics analyticsapp.
Context {E : Type}.
Variable GOOS GOARCH : string.

(** X18. [StartSession] rejects a blank user id, and then an empty
    version with [ErrInvalidEvent], before any call.  A zero clock reading
    is rejected before anything is saved.  Otherwise it saves an active
    session started at the clock reading; when [Save] fails its error is
    returned and nothing is dispatched; when it succeeds, one batch of two
    events is dispatched, an identify event and a start event carrying the
    variant and version as application and the platform as system, and a
    failed dispatch is reported as [ErrDispatchFailed] with nothing
    undone. *)
Theorem StartSession_paths (s : Service E) (cmd : StartSessionCommand)
    (e : E) (tr : list Call) :
  let run := StartSession GOOS GOARCH s cmd (e, tr) in
  let user := start_UserID cmd in
  (forall verr, shared.PlayerID_Validate user = Some verr ->
     run = (Ok (Some verr), (e, tr))) /\
  (shared.PlayerID_Validate user = None -> start_Version cmd = "" ->
     run = (Ok (Some ErrInvalidEvent), (e, tr))) /\
  (forall now e1,
     shared.PlayerID_Validate user = None -> start_Version cmd <> "" ->
     Clock s e = (now, e1) ->
     let session := mkSession user SessionStateActive (start_Version cmd)
                      (start_Variant cmd) now None in
     (IsZero now = true ->
        exists err, run = (Ok (Some err), (e1, (tr ++ [CallClock])%list))) /\
     (IsZero now = false ->
        forall serr e2, @Save E (Sessions s) session e1 = (Some serr, e2) ->
          run = (Ok (Some serr), (e2, (tr ++ [CallClock; CallSave session])%list))) /\
     (IsZero now = false ->
        forall e2 ctx e3 derr e4,
          @Save E (Sessions s) session e1 = (None, e2) ->
          ContextFactory s e2 = (ctx, e3) ->
          let events :=
            [ mkEvent EventTypeIdentify user "" ctx None None now;
              mkEvent EventTypeTrack user EventNameStart ctx
                (Some (mkAppInfo (start_Variant cmd) (start_Version cmd)))
                (Some (mkOSInfo GOOS GOARCH)) now ] in
          @Dispatch E (Dispatcher s) events e3 = (derr, e4) ->
          run = (Ok (match derr with
                     | Some _ => Some ErrDispatchFailed
                     | None => None
                     end),
                 (e4, (tr ++ [CallClock; CallSave session; CallContextFactory;
                              CallDispatch events])%list)))).
Proof.
  intros run user. subst run user. unfold StartSession.
  split; [| split].
  - intros verr ->. reflexivity.
  - intros -> ->. reflexivity.
  - intros now e1 Hid Hv Hclock.
    rewrite Hid. destruct (String.eqb_spec (start_Version cmd) ""); [contradiction |].
    eff_unfold. rewrite Hclock. eff_trace.
    unfold NewSession, NewIdentifyEvent, NewTrackEvent. rewrite Hid.
    change (String.eqb EventNameStart "") with false. cbv iota.
    destruct (String.eqb_spec (start_Version cmd) ""); [contradiction |].
    split; [| split]; intros Hz; rewrite Hz.
    + eexists. reflexivity.
    + intros serr e2 Hsave. eff_trace. rewrite Hsave. eff_trace. reflexivity.
    + intros e2 ctx e3 derr e4 Hsave Hctx Hdisp.
      eff_trace. rewrite Hsave. eff_trace. rewrite Hctx. eff_trace.
      unfold WithOSInfo, WithAppInfo. cbn [ev_Type ev_UserID ev_Name ev_Context App OS Timestamp].
      rewrite Hdisp. eff_trace. destruct derr; reflexivity.
Qed.

End AnalyticsMore.

Section AnalyticsMemory.
Import analytics analyticsapp.
Context {E : Type}.
Variable GOOS GOARCH : string.
Variable sessions : E -> gmap string Session.
Variable set_sessions : gmap string Session -> E -> E.
Variable dispatcher : EventDispatcher E.
Variable clock : E -> Time * E.
Variable contextFactory : E -> Context * E.

Hypothesis sessions_set : forall m e, sessions (set_sessions m e) = m.
Hypothesis clock_frame : forall e, sessions (snd (clock e)) = sessions e.
Hypothesis context_frame : forall e, sessions (snd (contextFactory e)) = sessions e.
Hypothesis dispatch_frame :
  forall events e, sessions (snd (@Dispatch E dispatcher events e)) = sessions e.

(** X19. Against the in-memory session repository, a [StartSession] that
    passes validation with a non-zero clock reading leaves an active
    session of that user in the repository, started at the clock reading,
    whether the dispatch succeeds or fails and whatever session of that
    user was stored before. *)
Theorem StartSession_records (cmd : StartSessionCommand) (e e1 : E)
    (tr : list Call) (now : Time) :
  shared.PlayerID_Validate (start_UserID cmd) = None ->
  start_Version cmd <> "" ->
  clock e = (now, e1) -> IsZero now = false ->
  let s := mkService dispatcher (MemorySessionRepository sessions set_sessions)
             clock contextFactory in
  let out := StartSession GOOS GOARCH s cmd (e, tr) in
  (fst out = Ok None \/ fst out = Ok (Some ErrDispatchFailed)) /\
  sessions (fst (snd out)) !! start_UserID cmd
  = Some (mkSession (start_UserID cmd) SessionStateActive (start_Version cmd)
            (start_Variant cmd) now None).
Proof.
  intros Hid Hv Hclock Hz s out. subst s out.
  unfold StartSession. rewrite Hid.
  destruct (String.eqb_spec (start_Version cmd) ""); [contradiction |].
  eff_unfold. cbn [Clock Sessions Dispatcher ContextFactory].
  rewrite Hclock. eff_trace.
  unfold NewSession, NewIdentifyEvent, NewTrackEvent. rewrite Hid, Hz.
  change (String.eqb EventNameStart "") with false. cbv iota.
  destruct (String.eqb_spec (start_Version cmd) ""); [contradiction |].
  cbn [Save MemorySessionRepository UserID]. eff_trace.
  pose proof (clock_frame e) as Hc. rewrite Hclock in Hc. cbn in Hc.
  match goal with
  | |- context [contextFactory ?x] =>
      pose proof (context_frame x) as Hx;
      destruct (contextFactory x) as [ctx e3]
  end.
  eff_trace.
  match goal with
  | |- context [@Dispatch E dispatcher ?evs e3] =>
      pose proof (dispatch_frame evs e3) as Hd;
      destruct (@Dispatch E dispatcher evs e3) as [derr e4]
  end.
  eff_trace. cbn in Hx, Hd. rewrite sessions_set in Hx.
  destruct derr; cbn [fst snd]; (split; [auto |]);
    rewrite Hd, Hx; apply lookup_insert_eq.
Qed.


End AnalyticsMemory.

Section AnalyticsMoreExamples.
Import analytics analyticsapp.

Lemma StartSession_paths_witness :
  StartSession "linux" "amd64" fixtures.analyticsService
    (mkStartSessionCommand "u1" "" "production") (fixtures.noSession None, [])
  = (Ok (Some ErrInvalidEvent), (fixtures.noSession None, [])).
Proof.
  apply (proj1 (proj2 (StartSession_paths "linux" "amd64" fixtures.analyticsService
                         (mkStartSessionCommand "u1" "" "production")
                         (fixtures.noSession None) []))); reflexivity.
Defined.

Lemma StartSession_records_witness :
  fixtures.sessions
    (fst (snd (StartSession "linux" "amd64" fixtures.analyticsService
                 fixtures.startCommand
                 (fixtures.noSession (Some fixtures.providerDown), []))))
    !! "u1"
  = Some fixtures.started_session.
Proof.
  apply (proj2 (StartSession_records "linux" "amd64"
                  fixtures.sessions fixtures.set_sessions fixtures.stubDispatcher
                  (fun e => (fixtures.analytics_now e, e))
                  (fun e => (fixtures.goContext, e))
                  (fun m e => eq_refl) (fun e => eq_refl) (fun e => eq_refl)
                  (fun events e => eq_refl)
                  fixtures.startCommand
                  (fixtures.noSession (Some fixtures.providerDown))
                  (fixtures.noSession (Some fixtures.providerDown))
                  [] (fixtures.t0 + fixtures.hour)
                  eq_refl ltac:(discriminate) eq_refl eq_refl)).
Defined.


End AnalyticsMoreExamples.

Section TrackEventFacts.
Import analytics analyticsapp.
Context {E : Type}.

(** X21. [TrackEvent] rejects a blank user id before any call, and an
    empty event name or a zero clock reading before anything is
    dispatched.  Otherwise it dispatches one batch of one track event with
    the given name; the event carries application information exactly
    when the command gives an application name or version, and system
    information exactly when it gives a system name or version.  Any
    dispatch error is reported as [ErrDispatchFailed]. *)
Theorem TrackEvent_dispatches_one (s : Service E) (cmd : TrackEventCommand)
    (e e1 e2 : E) (tr : list Call) (now : Time) (ctx : Context) :
  let run := TrackEvent s cmd (e, tr) in
  let user := track_UserID cmd in
  (forall verr, shared.PlayerID_Validate user = Some verr ->
     run = (Ok (Some verr), (e, tr))) /\
  (shared.PlayerID_Validate user = None ->
   Clock s e = (now, e1) -> ContextFactory s e1 = (ctx, e2) ->
   (track_Name cmd = "" \/ IsZero now = true ->
      exists err, run = (Ok (Some err),
                         (e2, (tr ++ [CallClock; CallContextFactory])%list))) /\
   (track_Name cmd <> "" -> IsZero now = false ->
      let event :=
        mkEvent EventTypeTrack user (track_Name cmd) ctx
          (if String.eqb (track_AppName cmd) "" && String.eqb (track_AppVersion cmd) ""
           then None
           else Some (mkAppInfo (track_AppName cmd) (track_AppVersion cmd)))
          (if String.eqb (track_OSName cmd) "" && String.eqb (track_OSVersion cmd) ""
           then None
           else Some (mkOSInfo (track_OSName cmd) (track_OSVersion cmd)))
          now in
      forall derr e3, @Dispatch E (Dispatcher s) [event] e2 = (derr, e3) ->
        run = (Ok (match derr with
                   | Some _ => Some ErrDispatchFailed
                   | None => None
                   end),
               (e3, (tr ++ [CallClock; CallContextFactory;
                            CallDispatch [event]])%list)))).
Proof.
  intros run user. subst run user. unfold TrackEvent.
  split.
  - intros verr ->. reflexivity.
  - intros Hid Hclock Hctx. rewrite Hid. eff_unfold.
    rewrite Hclock. eff_trace. rewrite Hctx. eff_trace.
    unfold NewTrackEvent. rewrite Hid. split.
    + intros [-> | Hz]; [eexists; reflexivity |].
      rewrite Hz. destruct (String.eqb (track_Name cmd) ""); eexists; reflexivity.
    + intros Hn Hz. rewrite Hz.
      destruct (String.eqb_spec (track_Name cmd) ""); [contradiction |].
      intros derr e3. unfold WithAppInfo, WithOSInfo.
      destruct (String.eqb (track_AppName cmd) ""),
        (String.eqb (track_AppVersion cmd) ""),
        (String.eqb (track_OSName cmd) ""),
        (String.eqb (track_OSVersion cmd) "");
        cbn [negb orb andb ev_Type ev_UserID ev_Name ev_Context App OS Timestamp];
        intros Hdisp; eff_trace; rewrite Hdisp; eff_trace;
        destruct derr; reflexivity.
Qed.

End TrackEventFacts.

Section TrackEventExamples.
Import analytics analyticsapp.

Lemma TrackEvent_dispatches_one_witness :
  TrackEvent fixtures.analyticsService
    (mkTrackEventCommand "u1" "level_up" "MyApp" "" "" "")
    (fixtures.noSession (Some fixtures.providerDown), [])
  = (Ok (Some ErrDispatchFailed),
     (fixtures.noSession (Some fixtures.providerDown),
      [CallClock; CallContextFactory;
       CallDispatch [mkEvent EventTypeTrack "u1" "level_up" fixtures.goContext
                       (Some (mkAppInfo "MyApp" "")) None
                       (fixtures.t0 + fixtures.hour)]])).
Proof.
  destruct (proj2 (TrackEvent_dispatches_one fixtures.analyticsService
                     (mkTrackEventCommand "u1" "level_up" "MyApp" "" "" "")
                     (fixtures.noSession (Some fixtures.providerDown))
                     (fixtures.noSession (Some fixtures.providerDown))
                     (fixtures.noSession (Some fixtures.providerDown))
                     [] (fixtures.t0 + fixtures.hour) fixtures.goContext)
              eq_refl eq_refl eq_refl) as [_ Hrun].
  apply (Hrun ltac:(discriminate) eq_refl (Some fixtures.providerDown)
           (fixtures.noSession (Some fixtures.providerDown))).
  reflexivity.
Defined.

End TrackEventExamples.

Section AddAttemptFacts.
Import tournament tournaments.
Context {E : Type}.

(** X22. [AddAttempt] checks the tournament id, the player id and the
    count before any call: a blank id or a count that is not positive
    ends the call with nothing read or written, the count alone with
    [ErrInvalidAttemptCount].  Past validation, an error of the lookup
    other than [ErrParticipantNotFound] is returned as it is; otherwise
    the participant found, or a new one when none is found, is saved with
    the added attempts before the provider is called.  When [Save] fails
    the provider is not called; when the provider fails its error is
    returned and the saved attempts stay. *)
Theorem AddAttempt_save_then_sync (participants : ParticipantRepository E)
    (s : Service E) (cmd : AddAttemptCommand) (e : E) (tr : list AttemptCall) :
  let run := AddAttempt participants s cmd (e, tr) in
  let tid := a_TournamentID cmd in
  let pid := a_PlayerID cmd in
  (shared.TournamentID_Validate tid <> None \/
   shared.PlayerID_Validate pid <> None \/ a_Count cmd <= 0 ->
     exists err, run = (Ok (Some err), (e, tr))) /\
  (shared.TournamentID_Validate tid = None ->
   shared.PlayerID_Validate pid = None -> a_Count cmd <= 0 ->
     run = (Ok (Some ErrInvalidAttemptCount), (e, tr))) /\
  (forall now e1 found gerr e2,
     shared.TournamentID_Validate tid = None ->
     shared.PlayerID_Validate pid = None -> 0 < a_Count cmd ->
     Clock s e = (now, e1) ->
     @ParticipantGet E participants tid pid e1 = ((found, gerr), e2) ->
     let calls := (tr ++ [AttemptClock; AttemptGet tid pid])%list in
     (forall err, gerr = Some err -> error_eqb_head err ErrParticipantNotFound = false ->
        run = (Ok (Some err), (e2, calls))) /\
     (forall p,
        (gerr = None /\ found = Some p) \/
        (exists err, gerr = Some err /\
                     error_eqb_head err ErrParticipantNotFound = true /\
                     participant.NewParticipant tid pid now = inl p) ->
        let p' := fst (participant.AddAttempts p (a_Count cmd) now) in
        (forall serr e3, @ParticipantSave E participants p' e2 = (Some serr, e3) ->
           run = (Ok (Some serr), (e3, (calls ++ [AttemptSave p'])%list))) /\
        (forall e3 perr e4,
           @ParticipantSave E participants p' e2 = (None, e3) ->
           @ProviderAddAttempt E (Provider s) tid pid (a_Count cmd) e3 = (perr, e4) ->
           run = (Ok perr,
                  (e4, (calls ++ [AttemptSave p';
                                  AttemptProvider tid pid (a_Count cmd)])%list))))).
Proof.
  intros run tid pid. subst run tid pid. unfold AddAttempt.
  split; [| split].
  - intros H.
    destruct (shared.TournamentID_Validate (a_TournamentID cmd)); [eauto |].
    destruct (shared.PlayerID_Validate (a_PlayerID cmd)); [eauto |].
    destruct (Z.leb_spec (a_Count cmd) 0); [eauto |].
    destruct H as [H | [H | H]]; try contradiction. lia.
  - intros -> -> Hc. apply Z.leb_le in Hc. rewrite Hc. reflexivity.
  - intros now e1 found gerr e2 -> -> Hc Hclock Hget.
    assert ((a_Count cmd <=? 0) = false) as -> by (apply Z.leb_gt; lia).
    eff_unfold. rewrite Hclock. eff_trace. rewrite Hget. eff_trace.
    assert (forall p w,
              addAndSync participants s cmd now p w
              = let p' := fst (participant.AddAttempts p (a_Count cmd) now) in
                let '(serr, e3) := @ParticipantSave E participants p' (fst w) in
                match serr with
                | Some serr => (Ok (Some serr), (e3, (snd w ++ [AttemptSave p'])%list))
                | None =>
                  let '(perr, e4) :=
                    @ProviderAddAttempt E (Provider s) (a_TournamentID cmd)
                      (a_PlayerID cmd) (a_Count cmd) e3 in
                  (Ok perr, (e4, ((snd w ++ [AttemptSave p'])
                                  ++ [AttemptProvider (a_TournamentID cmd)
                                        (a_PlayerID cmd) (a_Count cmd)])%list))
                end) as Htail.
    { intros p w. unfold addAndSync, participant.AddAttempts.
      assert ((a_Count cmd <=? 0) = false) as -> by (apply Z.leb_gt; lia).
      eff_unfold. cbn [fst snd].
      destruct (@ParticipantSave E participants _ (fst w)) as [[serr |] e3];
        cbn [fst snd]; [reflexivity |].
      destruct (@ProviderAddAttempt E (Provider s) _ _ _ e3) as [[perr |] e4];
        reflexivity. }
    split.
    + intros err -> Hne. rewrite Hne. reflexivity.
    + intros p Hp. cbv zeta.
      destruct Hp as [[-> ->] | (err & -> & Heq & Hnew)];
        rewrite ?Heq, ?Hnew; rewrite Htail; cbv zeta; cbn [fst snd];
        (split;
         [ intros serr e3 ->; eff_trace; reflexivity
         | intros e3 perr e4 -> ->; eff_trace; reflexivity ]).
Qed.

End AddAttemptFacts.

Section AddAttemptMemory.
Import tournament tournaments.
Context {E : Type}.
Variable participants : E -> gmap string participant.Participant.
Variable set_participants : gmap string participant.Participant -> E -> E.
Variable repo : Repository E.
Variable provider : NakamaProvider E.
Variable clock : E -> Time * E.

Hypothesis participants_set : forall m e, participants (set_participants m e) = m.
Hypothesis clock_frame : forall e, participants (snd (clock e)) = participants e.
Hypothesis provider_frame :
  forall t p c e,
    participants (snd (@ProviderAddAttempt E provider t p c e)) = participants e.

(** X23. [AddAttempt] against the in-memory participant repository, for
    valid ids, a positive count and a non-zero clock reading.  When no
    participant is stored for the pair, one is created, joined at the
    clock reading, and stored with the count as its attempts.  When one is
    stored under its own ids, it is stored again with the count added,
    its joining time kept.  In both cases the call returns what the
    provider answers, and the attempts stay stored when the provider
    fails: a repeated call adds again. *)
Theorem AddAttempt_memory (cmd : AddAttemptCommand) (e e1 : E)
    (tr : list AttemptCall) (now : Time) :
  shared.TournamentID_Validate (a_TournamentID cmd) = None ->
  shared.PlayerID_Validate (a_PlayerID cmd) = None ->
  0 < a_Count cmd <= max_int ->
  clock e = (now, e1) -> IsZero now = false ->
  let tid := a_TournamentID cmd in
  let pid := a_PlayerID cmd in
  let out := AddAttempt (MemoryParticipantRepository participants set_participants)
               (mkService repo provider clock) cmd (e, tr) in
  (participants e !! makeKey tid pid = None ->
     participants (fst (snd out)) !! makeKey tid pid
     = Some (participant.mkParticipant tid pid (a_Count cmd) now now)) /\
  (forall p,
     participants e !! makeKey tid pid = Some p ->
     participant.TournamentID p = tid -> participant.PlayerID p = pid ->
     min_int <= participant.Attempts p ->
     participant.Attempts p + a_Count cmd <= max_int ->
     participants (fst (snd out)) !! makeKey tid pid
     = Some (participant.mkParticipant tid pid
               (participant.Attempts p + a_Count cmd)
               (participant.JoinedAt p) now)) /\
  (exists perr, fst out = Ok perr /\
     exists e3, perr = fst (@ProviderAddAttempt E provider tid pid (a_Count cmd) e3)).
Proof.
  intros Htid Hpid [Hc Hcmax] Hclock Hz tid pid out. subst tid pid out.
  pose proof (clock_frame e) as Hcf. rewrite Hclock in Hcf. cbn in Hcf.
  unfold AddAttempt. rewrite Htid, Hpid.
  assert ((a_Count cmd <=? 0) = false) as Hpos by (apply Z.leb_gt; lia).
  rewrite Hpos.
  eff_unfold. cbn [Clock Provider]. rewrite Hclock. eff_trace.
  cbn [ParticipantGet MemoryParticipantRepository]. rewrite Hcf.
  assert (forall p w,
            exists perr,
              fst (addAndSync (MemoryParticipantRepository participants set_participants)
                     (mkService repo provider clock) cmd now p w) = Ok perr /\
              exists e3, perr = fst (@ProviderAddAttempt E provider
                                       (a_TournamentID cmd) (a_PlayerID cmd)
                                       (a_Count cmd) e3)) as Hanswer.
  { intros p w. unfold addAndSync, participant.AddAttempts.
    rewrite Hpos. eff_unfold.
    cbn [ParticipantSave MemoryParticipantRepository Provider fst snd].
    lazymatch goal with
    | |- context [@ProviderAddAttempt E provider ?t ?q ?c ?x] =>
        destruct (@ProviderAddAttempt E provider t q c x) as [perr e4] eqn:Hprov
    end.
    assert (exists e3, perr = fst (@ProviderAddAttempt E provider
                                     (a_TournamentID cmd) (a_PlayerID cmd)
                                     (a_Count cmd) e3)) as Hperr.
    { eexists. rewrite Hprov. reflexivity. }
    destruct perr; cbn [fst snd]; eexists; (split; [reflexivity | exact Hperr]). }
  assert (forall p w,
            participant.TournamentID p = a_TournamentID cmd ->
            participant.PlayerID p = a_PlayerID cmd ->
            participants
              (fst (snd (addAndSync
                           (MemoryParticipantRepository participants set_participants)
                           (mkService repo provider clock) cmd now p w)))
              !! makeKey (a_TournamentID cmd) (a_PlayerID cmd)
            = Some (fst (participant.AddAttempts p (a_Count cmd) now))) as Hstore.
  { intros p w Ht Hp. unfold addAndSync, participant.AddAttempts.
    rewrite Hpos. eff_unfold.
    cbn [ParticipantSave MemoryParticipantRepository Provider
         participant.TournamentID participant.PlayerID fst snd].
    rewrite Ht, Hp.
    lazymatch goal with
    | |- context [@ProviderAddAttempt E provider ?t ?q ?c ?x] =>
        pose proof (provider_frame t q c x) as Hpf;
        destruct (@ProviderAddAttempt E provider t q c x) as [perr e4]
    end.
    cbn [fst snd] in Hpf |- *. rewrite participants_set in Hpf.
    destruct perr; cbn [fst snd]; rewrite Hpf; apply lookup_insert_eq. }
  split; [| split].
  - intros Hnone. rewrite Hnone. eff_trace.
    change (error_eqb_head ErrParticipantNotFound ErrParticipantNotFound) with true.
    cbv iota. unfold participant.NewParticipant. rewrite Htid, Hpid, Hz.
    rewrite Hstore by reflexivity.
    unfold participant.AddAttempts. rewrite Hpos. cbn.
    rewrite int_add_exact; [reflexivity |].
    unfold in_int. rewrite min_int_value. lia.
  - intros p Hsome Ht Hp Hlo Hhi. rewrite Hsome. eff_trace.
    rewrite Hstore by assumption.
    unfold participant.AddAttempts. rewrite Hpos. cbn.
    rewrite Ht, Hp. rewrite int_add_exact; [reflexivity |].
    unfold in_int. lia.
  - destruct (participants e !! makeKey (a_TournamentID cmd) (a_PlayerID cmd))
      as [p |]; eff_trace.
    + apply Hanswer.
    + change (error_eqb_head ErrParticipantNotFound ErrParticipantNotFound) with true.
      cbv iota. unfold participant.NewParticipant. rewrite Htid, Hpid, Hz.
      apply Hanswer.
Qed.

End AddAttemptMemory.

Section AddAttemptExamples.
Import tournament tournaments.

Lemma AddAttempt_save_then_sync_witness :
  AddAttempt (MemoryParticipantRepository fixtures.entrants fixtures.set_entrants)
    fixtures.attemptService (mkAddAttemptCommand "t1" "p1" 0)
    (fixtures.noEntrant None, [])
  = (Ok (Some ErrInvalidAttemptCount), (fixtures.noEntrant None, [])).
Proof.
  apply (proj1 (proj2 (AddAttempt_save_then_sync
                         (MemoryParticipantRepository fixtures.entrants
                            fixtures.set_entrants)
                         fixtures.attemptService (mkAddAttemptCommand "t1" "p1" 0)
                         (fixtures.noEntrant None) [])));
    [reflexivity | reflexivity | cbn; lia].
Defined.

Lemma AddAttempt_memory_witness :
  fixtures.entrants
    (fst (snd (AddAttempt
                 (MemoryParticipantRepository fixtures.entrants fixtures.set_entrants)
                 fixtures.attemptService fixtures.fiveAttempts
                 (fixtures.noEntrant (Some fixtures.providerDown), []))))
    !! makeKey "t1" "p1"
  = Some (participant.mkParticipant "t1" "p1" 5 fixtures.t0 fixtures.t0).
Proof.
  apply (proj1 (AddAttempt_memory fixtures.entrants fixtures.set_entrants
                  fixtures.attemptRepository fixtures.attemptProvider
                  (fun e => (fixtures.attempt_now e, e))
                  (fun m e => eq_refl) (fun e => eq_refl) (fun t p c e => eq_refl)
                  fixtures.fiveAttempts
                  (fixtures.noEntrant (Some fixtures.providerDown))
                  (fixtures.noEntrant (Some fixtures.providerDown))
                  [] fixtures.t0 eq_refl eq_refl
                  ltac:(rewrite max_int_value; cbn; lia) eq_refl eq_refl)).
  reflexivity.
Defined.

Example AddAttempt_twice_adds_twice :
  let once := snd (AddAttempt
                     (MemoryParticipantRepository fixtures.entrants fixtures.set_entrants)
                     fixtures.attemptService fixtures.fiveAttempts
                     (fixtures.noEntrant None, [])) in
  let twice := snd (AddAttempt
                      (MemoryParticipantRepository fixtures.entrants fixtures.set_entrants)
                      fixtures.attemptService fixtures.fiveAttempts once) in
  participant.Attempts <$> (fixtures.entrants (fst twice) !! makeKey "t1" "p1")
  = Some 10.
Proof. vm_compute. reflexivity. Qed.

End AddAttemptExamples.

Section MemoryRepositories.
Import tournament tournaments.

Lemma append_nil_l (b : string) : "" +:+ b = b.
Proof. reflexivity. Qed.

Lemma append_cons_l (x : ascii) (a b : string) :
  String x a +:+ b = String x (a +:+ b).
Proof. reflexivity. Qed.

Lemma append_assoc_r (a b c : string) : (a +:+ b) +:+ c = a +:+ (b +:+ c).
Proof.
  induction a as [| x a IH]; rewrite ?append_nil_l, ?append_cons_l;
    [reflexivity | rewrite IH; reflexivity].
Qed.

Lemma append_colon_assoc (a b c : string) :
  (a +:+ ":" +:+ b) +:+ ":" +:+ c = a +:+ ":" +:+ (b +:+ ":" +:+ c).
Proof. rewrite !append_assoc_r. reflexivity. Qed.

Lemma makeKey_injective (t1 t2 : shared.TournamentID) (p1 p2 : shared.PlayerID) :
  (forall a b, t1 <> a +:+ ":" +:+ b) ->
  (forall a b, t2 <> a +:+ ":" +:+ b) ->
  makeKey t1 p1 = makeKey t2 p2 -> t1 = t2 /\ p1 = p2.
Proof.
  unfold makeKey. revert t2.
  induction t1 as [| x t1 IH]; intros [| y t2] H1 H2;
    rewrite ?append_cons_l, ?append_nil_l.
  - intros [= ->]. auto.
  - intros [= <- _]. exfalso. apply (H2 "" t2). reflexivity.
  - intros [= -> _]. exfalso. apply (H1 "" t1). reflexivity.
  - intros [= -> Heq]. destruct (IH t2) as [-> ->]; auto.
    + intros a b ->. apply (H1 (String y a) b). reflexivity.
    + intros a b ->. apply (H2 (String y a) b). reflexivity.
Qed.

(** X24. The in-memory participant repository keys a participant by the
    tournament id, a colon and the player id.  For tournament ids without
    a colon the key tells the pairs apart.  With a colon in the ids two
    different pairs can share a key: a participant saved for the
    tournament [a:b] and the player [c] is what the repository returns
    for the tournament [a] and the player [b:c]. *)
Theorem makeKey_separates :
  (forall t1 p1 t2 p2,
     (forall a b, t1 <> a +:+ ":" +:+ b) ->
     (forall a b, t2 <> a +:+ ":" +:+ b) ->
     makeKey t1 p1 = makeKey t2 p2 -> t1 = t2 /\ p1 = p2) /\
  (forall a b c, makeKey (a +:+ ":" +:+ b) c = makeKey a (b +:+ ":" +:+ c)) /\
  (forall (E : Type) (participants : E -> gmap string participant.Participant)
          (set_participants : gmap string participant.Participant -> E -> E)
          (p : participant.Participant) (a b c : string) (e : E),
     (forall m e', participants (set_participants m e') = m) ->
     participant.TournamentID p = a +:+ ":" +:+ b ->
     participant.PlayerID p = c ->
     let repo := MemoryParticipantRepository participants set_participants in
     fst (@ParticipantGet E repo a (b +:+ ":" +:+ c)
            (snd (@ParticipantSave E repo p e)))
     = (Some p, None)).
Proof.
  split; [| split].
  - intros t1 p1 t2 p2. apply makeKey_injective.
  - intros a b c. apply append_colon_assoc.
  - intros E participants set_participants p a b c e Hset Ht Hp repo. subst repo.
    cbn [ParticipantGet ParticipantSave MemoryParticipantRepository fst snd].
    rewrite Hset, Ht, Hp.
    assert (makeKey (a +:+ ":" +:+ b) c = makeKey a (b +:+ ":" +:+ c)) as ->
      by apply append_colon_assoc.
    rewrite lookup_insert_eq. reflexivity.
Qed.

Lemma makeKey_separates_witness :
  fst (@ParticipantGet _
         (MemoryParticipantRepository fixtures.entrants fixtures.set_entrants)
         "cup" "eu:p1"
         (snd (@ParticipantSave _
                 (MemoryParticipantRepository fixtures.entrants fixtures.set_entrants)
                 (participant.mkParticipant "cup:eu" "p1" 3 fixtures.t0 fixtures.t0)
                 (fixtures.noEntrant None))))
  = (Some (participant.mkParticipant "cup:eu" "p1" 3 fixtures.t0 fixtures.t0), None).
Proof.
  apply (proj2 (proj2 makeKey_separates) fixtures.AttemptEnv fixtures.entrants
           fixtures.set_entrants
           (participant.mkParticipant "cup:eu" "p1" 3 fixtures.t0 fixtures.t0)
           "cup" "eu" "p1" (fixtures.noEntrant None) (fun m e => eq_refl)
           eq_refl eq_refl).
Defined.

End MemoryRepositories.

Section TournamentMemory.
Import tournament tournaments.
Context {E : Type}.
Variable unixSeconds : Time -> Z.
Variable durationSeconds : Go.Duration -> Z.
Variable store : E -> gmap string Tournament.
Variable set_store : gmap string Tournament -> E -> E.
Variable provider : NakamaProvider E.
Variable clock : E -> Time * E.

Hypothesis store_set : forall m e, store (set_store m e) = m.
Hypothesis clock_frame : forall e, store (snd (clock e)) = store e.
Hypothesis create_frame :
  forall params e, store (snd (@ProviderCreateTournament E provider params e)) = store e.
Hypothesis delete_frame :
  forall id e, store (snd (@ProviderDeleteTournament E provider id e)) = store e.


End TournamentMemory.

Section TournamentMemoryExamples.
Import tournament tournaments.


End TournamentMemoryExamples.

Section ListFacts.
Import tournament tournaments.
Context {E : Type}.
Variable store : E -> gmap string Tournament.
Variable visit : gmap string Tournament -> list Tournament.

Lemma int_add_wraps (a b : Z) :
  max_int < a + b <= 2 * max_int -> int_add a b = a + b - 18446744073709551616.
Proof.
  rewrite max_int_value. intros H. unfold int_add, int_wrap.
  rewrite min_int_value. change (2 ^ int_bits) with 18446744073709551616.
  replace (a + b - -9223372036854775808)
    with ((a + b - 9223372036854775808) + 1 * 18446744073709551616) by lia.
  rewrite Z_mod_plus_full. rewrite Z.mod_small; lia.
Qed.

(** X26. [ListTournaments] over the in-memory repository replaces a limit
    that is not positive by 10 and a negative offset by 0, and returns the
    page of that many tournaments from that offset on, in the order in
    which the repository visits its map: fewer when the map runs out, none
    when the offset is past its end.  That holds while offset plus limit
    fits an [int]; when the sum overflows and the offset is within the
    map, the slice expression panics. *)
Theorem ListTournaments_page (limit offset : Z) (e : E) (tr : list QueryCall) :
  in_int limit -> in_int offset ->
  let limit' := if limit <=? 0 then 10 else limit in
  let offset' := if offset <? 0 then 0 else offset in
  let all := visit (store e) in
  let run := ListTournaments (MemoryRepositoryList store visit) limit offset (e, tr) in
  (offset' + limit' <= max_int ->
     run = (Ok (take (Z.to_nat limit') (drop (Z.to_nat offset') all), None),
            (e, (tr ++ [QueryList limit' offset'])%list))) /\
  (max_int < offset' + limit' -> offset' <= Z.of_nat (length all) ->
     exists msg, fst run = Panic msg).
Proof.
  intros Hl Ho limit' offset' all run.
  unfold in_int in Hl, Ho. rewrite max_int_value, min_int_value in Hl, Ho.
  rewrite max_int_value.
  assert (0 < limit' <= 9223372036854775807) as Hl'.
  { subst limit'. destruct (Z.leb_spec limit 0); lia. }
  assert (0 <= offset' <= 9223372036854775807) as Ho'.
  { subst offset'. destruct (Z.ltb_spec offset 0); lia. }
  subst run. unfold ListTournaments. fold limit' offset'.
  unfold Eff.call_may_panic.
  cbn [List MemoryRepositoryList fst snd]. fold all. unfold paginate.
  clearbody limit' offset' all. clear Hl Ho limit offset.
  split.
  - intros Hsum.
    destruct (Z.ltb_spec (Z.of_nat (length all)) offset') as [Hpast | Hin].
    + rewrite drop_ge by lia. rewrite take_nil. reflexivity.
    + rewrite int_add_exact by (unfold in_int; rewrite max_int_value, min_int_value; lia).
      assert ((0 <=? offset') = true) as -> by (apply Z.leb_le; lia).
      destruct (Z.ltb_spec (Z.of_nat (length all)) (offset' + limit')) as [Hshort | Hfull].
      * assert ((offset' <=? Z.of_nat (length all)) = true) as -> by (apply Z.leb_le; lia).
        cbn [andb].
        rewrite (take_ge (drop (Z.to_nat offset') all) (Z.to_nat limit'))
          by (rewrite length_drop; lia).
        rewrite take_ge by (rewrite length_drop; lia). reflexivity.
      * assert ((offset' <=? offset' + limit') = true) as -> by (apply Z.leb_le; lia).
        cbn [andb]. replace (offset' + limit' - offset') with limit' by lia.
        reflexivity.
  - intros Hsum Hin.
    assert ((Z.of_nat (length all) <? offset') = false) as -> by (apply Z.ltb_ge; lia).
    rewrite int_add_wraps by (rewrite max_int_value; lia).
    assert ((Z.of_nat (length all) <? offset' + limit' - 18446744073709551616) = false)
      as -> by (apply Z.ltb_ge; lia).
    assert ((offset' <=? offset' + limit' - 18446744073709551616) = false)
      as -> by (apply Z.leb_gt; lia).
    rewrite andb_false_r. eexists. reflexivity.
Qed.

End ListFacts.

Section ListExamples.
Import tournament tournaments.

Lemma ListTournaments_page_witness :
  ListTournaments
    (MemoryRepositoryList fixtures.tournaments (fun m => (map_to_list m).*2))
    0 (-3) (fixtures.cupStore None, [])
  = (Ok ([fixtures.cup_value], None), (fixtures.cupStore None, [QueryList 10 0])).
Proof.
  refine (eq_trans
            (proj1 (ListTournaments_page fixtures.tournaments
                      (fun m => (map_to_list m).*2) 0 (-3)
                      (fixtures.cupStore None) [] _ _) _) _).
  - unfold in_int. rewrite max_int_value, min_int_value. lia.
  - unfold in_int. rewrite max_int_value, min_int_value. lia.
  - rewrite max_int_value. cbn. lia.
  - vm_compute. reflexivity.
Defined.

End ListExamples.

Section AuthFacts.
Import player auth.
Context {E : Type}.
Variable wall : E -> Wall.
Variable set_wall : Wall -> E -> E.

Hypothesis set_wall_id : forall e, set_wall (wall e) e = e.

(** X27. A player whom the provider authenticates by device under a
    valid user id, for whom the repository reports [ErrNotFound] and whose
    variables carry no email, cannot be created: [AuthenticateDevice]
    returns [ErrEmailRequired] after the provider call, the clock read and
    the lookup, and saves nothing. *)
Theorem AuthenticateDevice_needs_email (s : Service E) (deviceID username : string)
    (vars : gmap string string) (e e1 e2 e3 : E) (tr : list Call)
    (result : AuthResult) (now : Time) (found : option PlayerAccount)
    (gerr : error) :
  @ProviderAuthenticateDevice E (Auth s) deviceID username vars e
    = ((result, None), e1) ->
  Clock s e1 = (now, e2) ->
  @GetByID E (Repo s) (UserID result) e2 = ((found, Some gerr), e3) ->
  errors_Is gerr shared.ErrNotFound = true ->
  shared.PlayerID_Validate (UserID result) = None ->
  vars !! "email" = None \/ vars !! "email" = Some "" ->
  AuthenticateDevice wall set_wall s deviceID username vars (e, tr)
  = (Ok (noResult, Some ErrEmailRequired),
     (e3, (tr ++ [CallAuthenticateDevice deviceID username; CallClock;
                  CallGetByID (UserID result)])%list)).
Proof.
  intros Hauth Hclock Hget Hnf Hid Hmail.
  unfold AuthenticateDevice, loadOrCreate. eff_unfold.
  rewrite Hauth. eff_trace. rewrite Hclock. eff_trace. rewrite Hget. eff_trace.
  rewrite Hnf. cbn [negb]. unfold NewPlayerAccount. rewrite Hid.
  assert (var vars "email" = "") as -> by (unfold var; destruct Hmail as [-> | ->]; reflexivity).
  reflexivity.
Qed.

(** X28. A suspended account still authenticates by device.
    [RegisterDevice] refuses and its error is dropped, so the devices stay
    as they were; the session is recorded all the same, the account is
    saved with it, and the provider's result is returned when [Save]
    succeeds. *)
Theorem AuthenticateDevice_suspended (s : Service E) (deviceID username : string)
    (vars : gmap string string) (e e1 e2 e3 : E) (tr : list Call)
    (result : AuthResult) (now : Time) (account : PlayerAccount) :
  @ProviderAuthenticateDevice E (Auth s) deviceID username vars e
    = ((result, None), e1) ->
  Clock s e1 = (now, e2) ->
  @GetByID E (Repo s) (UserID result) e2 = ((Some account, None), e3) ->
  Suspended account = true ->
  let session := {| SessionID := SessionToken result; IpAddress := "";
                    UserAgent := ""; IssuedAt := now |} in
  let recorded := RecordSession account session (wall e3) in
  let saved := @Save E (Repo s) (fst recorded) (set_wall (snd recorded) e3) in
  AuthenticateDevice wall set_wall s deviceID username vars (e, tr)
  = (Ok (match fst saved with
         | Some err => (noResult, Some err)
         | None => (result, None)
         end),
     (snd saved,
      (tr ++ [CallAuthenticateDevice deviceID username; CallClock;
              CallGetByID (UserID result); CallSave (fst recorded)])%list)) /\
  Devices (fst recorded) = Devices account /\
  Suspended (fst recorded) = true /\
  (SessionToken result <> "" -> IsZero now = false ->
   Sessions (fst recorded) = (Sessions account ++ [session])%list).
Proof.
  intros Hauth Hclock Hget Hs session recorded saved.
  split; [| split; [| split]].
  - subst saved recorded session.
    unfold AuthenticateDevice, loadOrCreate. eff_unfold.
    rewrite Hauth. eff_trace. rewrite Hclock. eff_trace. rewrite Hget. eff_trace.
    unfold Eff.silent, on_wall. cbn [fst snd].
    unfold RegisterDevice at 1. rewrite Hs. cbn [fst snd].
    rewrite set_wall_id.
    destruct (RecordSession account _ (wall e3)) as [acct w']. cbn [fst snd].
    destruct (@Save E (Repo s) acct (set_wall w' e3)) as [[serr |] e4];
      eff_trace; reflexivity.
  - subst recorded. unfold RecordSession.
    destruct (String.eqb (SessionID session) ""); [reflexivity |].
    destruct (IsZero (IssuedAt session)); reflexivity.
  - subst recorded. unfold RecordSession.
    destruct (String.eqb (SessionID session) ""); [exact Hs |].
    destruct (IsZero (IssuedAt session)); exact Hs.
  - intros Htok Hz. subst recorded session. unfold RecordSession. cbn.
    destruct (String.eqb_spec (SessionToken result) ""); [contradiction |].
    rewrite Hz. reflexivity.
Qed.

End AuthFacts.

Section AuthExamples.
Import player auth.

Lemma AuthenticateDevice_needs_email_witness :
  AuthenticateDevice fixtures.auth_wall fixtures.set_auth_wall fixtures.authService
    "d1" "alice" ∅ (fixtures.authEnv ∅, [])
  = (Ok (noResult, Some ErrEmailRequired),
     (fixtures.authEnv ∅, [CallAuthenticateDevice "d1" "alice"; CallClock;
                           CallGetByID "p1"])).
Proof.
  apply (AuthenticateDevice_needs_email fixtures.auth_wall fixtures.set_auth_wall
           fixtures.authService "d1" "alice" ∅
           (fixtures.authEnv ∅) (fixtures.authEnv ∅) (fixtures.authEnv ∅)
           (fixtures.authEnv ∅) [] fixtures.granted fixtures.t0 None shared.ErrNotFound).
  - reflexivity.
  - reflexivity.
  - vm_compute. reflexivity.
  - reflexivity.
  - reflexivity.
  - left. reflexivity.
Defined.

Lemma AuthenticateDevice_suspended_witness :
  Sessions (fst (RecordSession fixtures.alice_suspended
                   {| SessionID := "token-1"; IpAddress := ""; UserAgent := "";
                      IssuedAt := fixtures.t0 |} fixtures.wallA))
  = [ {| SessionID := "token-1"; IpAddress := ""; UserAgent := "";
         IssuedAt := fixtures.t0 |} ].
Proof.
  refine (proj2 (proj2 (proj2
            (AuthenticateDevice_suspended fixtures.auth_wall fixtures.set_auth_wall
               _
               fixtures.authService "d1" "alice" ∅
               (fixtures.authEnv {[ "p1" := fixtures.alice_suspended ]})
               (fixtures.authEnv {[ "p1" := fixtures.alice_suspended ]})
               (fixtures.authEnv {[ "p1" := fixtures.alice_suspended ]})
               (fixtures.authEnv {[ "p1" := fixtures.alice_suspended ]})
               [] fixtures.granted fixtures.t0 fixtures.alice_suspended
               _ _ _ _))) _ _).
  - intros [? ? ? ?]. reflexivity.
  - reflexivity.
  - reflexivity.
  - vm_compute. reflexivity.
  - reflexivity.
  - discriminate.
  - reflexivity.
Defined.

End AuthExamples.

Section BattleServiceFacts.
Import battle battles.
Context {E : Type}.
Variable Metadata : Type.

Local Arguments c_LeaderID {_} _.
Local Arguments c_IdempotencyKey {_} _.
Local Arguments c_Metadata {_} _.
Local Arguments c_Preset {_} _.
Local Arguments CallClock {_}.
Local Arguments CallCreateMatch {_} _.
Local Arguments CallRepoSave {_} _.
Local Arguments Clock {_ _} _ _.
Local Arguments Repo {_ _} _.
Local Arguments Provider {_ _} _.
Local Arguments StartBattle {_ _} _ _ _.

(** X29. [StartBattle] rejects a blank leader id or idempotency key
    before any call.  Past that it asks the provider for the match first:
    a provider error is returned with nothing saved; a blank battle id in
    the provider's answer is rejected after the match exists, with nothing
    saved; otherwise the battle saved has the leader as its only slot,
    ready, and the provider's ids are returned when [Save] succeeds. *)
Theorem StartBattle_match_then_save (s : Service E Metadata)
    (cmd : StartCommand Metadata) (e : E) (tr : list (Call Metadata)) :
  let run := StartBattle s cmd (e, tr) in
  let payload := {| p_LeaderID := c_LeaderID cmd; p_Metadata := c_Metadata cmd;
                    p_Preset := c_Preset cmd |} in
  (shared.PlayerID_Validate (c_LeaderID cmd) <> None \/
   shared.IdempotencyKey_Validate (c_IdempotencyKey cmd) <> None ->
     exists err, run = (Ok ({| BattleID := ""; MatchID := "" |}, Some err), (e, tr))) /\
  (forall result merr e1,
     shared.PlayerID_Validate (c_LeaderID cmd) = None ->
     shared.IdempotencyKey_Validate (c_IdempotencyKey cmd) = None ->
     @CreateMatch E Metadata (Provider s) payload e = ((result, merr), e1) ->
     (forall err, merr = Some err ->
        run = (Ok ({| BattleID := ""; MatchID := "" |}, Some err),
               (e1, (tr ++ [CallCreateMatch payload])%list))) /\
     (forall now e2, merr = None -> Clock s e1 = (now, e2) ->
        let calls := (tr ++ [CallCreateMatch payload; CallClock])%list in
        (forall verr, shared.BattleID_Validate (r_BattleID result) = Some verr ->
           run = (Ok ({| BattleID := ""; MatchID := "" |}, Some verr), (e2, calls))) /\
        (shared.BattleID_Validate (r_BattleID result) = None ->
           let b := {| ID := r_BattleID result; Leader := c_LeaderID cmd;
                       Slots := [ {| PlayerID := c_LeaderID cmd; JoinedAt := now;
                                     Ready := true |} ];
                       StateSnapshot := {| Tick := 0; Payload := [];
                                           ms_UpdatedAt := zeroTime |};
                       CreatedAt := now; UpdatedAt := now;
                       IdempotencyKey := c_IdempotencyKey cmd |} in
           forall serr e3, @Save E (Repo s) b e2 = (serr, e3) ->
             run = (Ok (match serr with
                        | Some err => ({| BattleID := ""; MatchID := "" |}, Some err)
                        | None => ({| BattleID := r_BattleID result;
                                      MatchID := r_MatchID result |}, None)
                        end),
                    (e3, (calls ++ [CallRepoSave b])%list))))).
Proof.
  intros run payload. subst run payload. unfold StartBattle.
  split.
  - intros H.
    destruct (shared.PlayerID_Validate (c_LeaderID cmd)); [eauto |].
    destruct (shared.IdempotencyKey_Validate (c_IdempotencyKey cmd)); [eauto |].
    destruct H; contradiction.
  - intros result merr e1 Hl Hk Hmatch. rewrite Hl, Hk. eff_unfold.
    rewrite Hmatch. eff_trace. split.
    + intros err ->. reflexivity.
    + intros now e2 -> Hclock. eff_trace. rewrite Hclock. eff_trace.
      unfold NewBattle. rewrite Hl, Hk. split.
      * intros verr ->. reflexivity.
      * intros ->. intros serr e3 Hsave. eff_trace. rewrite Hsave. eff_trace.
        destruct serr; reflexivity.
Qed.

End BattleServiceFacts.

Section BattleServiceExamples.
Import battle battles.

Lemma StartBattle_match_then_save_witness :
  StartBattle unit fixtures.battleService
    (mkStartCommand unit "p1" "k1" tt "ranked")
    (fixtures.mkBattleEnv [] "" fixtures.t0, [])
  = (Ok ({| BattleID := ""; MatchID := "" |},
         Some (errors_New "battle id is required")),
     (fixtures.mkBattleEnv [] "" fixtures.t0,
      [CallCreateMatch unit (mkStartBattlePayload unit "p1" tt "ranked");
       CallClock unit])).
Proof.
  destruct (StartBattle_match_then_save unit fixtures.battleService
              (mkStartCommand unit "p1" "k1" tt "ranked")
              (fixtures.mkBattleEnv [] "" fixtures.t0) []) as [_ H].
  destruct (H (mkStartBattleResult "" "match-1") None
              (fixtures.mkBattleEnv [] "" fixtures.t0)
              eq_refl eq_refl eq_refl) as [_ Hok].
  destruct (Hok fixtures.t0 (fixtures.mkBattleEnv [] "" fixtures.t0)
              eq_refl eq_refl) as [Hbad _].
  exact (Hbad (errors_New "battle id is required") eq_refl).
Defined.

End BattleServiceExamples.

Section GroupServiceFacts.
Import group groups.
Context {E : Type}.

(** X30. [CreateGroup] rejects a blank creator id before any call.
    Past that it reads the clock and creates the group at the provider
    before it checks the name: with an empty name the provider has been
    called and [ErrNameRequired] comes back with nothing saved.  With a
    name and a group id from the provider, the group saved has the
    command's description and the creator as its only member, as owner. *)
Theorem CreateGroup_provider_first (s : Service E) (cmd : CreateInput)
    (e : E) (tr : list Call) :
  let run := CreateGroup s cmd (e, tr) in
  let payload := {| p_Name := in_Name cmd; p_Description := in_Description cmd;
                    p_CreatorID := in_CreatorID cmd; p_AvatarURL := in_AvatarURL cmd;
                    p_LangTag := in_LangTag cmd; p_Open := in_Open cmd |} in
  (forall err, shared.PlayerID_Validate (in_CreatorID cmd) = Some err ->
     run = (Ok ({| out_GroupID := ""; out_Handle := "" |}, Some err), (e, tr))) /\
  (forall now e1 result e2,
     shared.PlayerID_Validate (in_CreatorID cmd) = None ->
     Clock s e = (now, e1) ->
     @ProviderCreateGroup E (Prov s) payload e1 = ((result, None), e2) ->
     shared.GroupID_Validate (r_GroupID result) = None ->
     let calls := (tr ++ [CallClock; CallProviderCreateGroup payload])%list in
     (in_Name cmd = "" ->
        run = (Ok ({| out_GroupID := ""; out_Handle := "" |}, Some ErrNameRequired),
               (e2, calls))) /\
     (in_Name cmd <> "" ->
        let g := {| ID := r_GroupID result; Name := in_Name cmd;
                    Description := in_Description cmd;
                    Members := Some {[ in_CreatorID cmd :=
                      {| PlayerID := in_CreatorID cmd; mem_Role := RoleOwner;
                         JoinedAt := now |} ]};
                    CreatedAt := now; UpdatedAt := now |} in
        forall serr e3, @Save E (Repo s) g e2 = (serr, e3) ->
          run = (Ok (match serr with
                     | Some err => ({| out_GroupID := ""; out_Handle := "" |}, Some err)
                     | None => ({| out_GroupID := r_GroupID result;
                                   out_Handle := r_Handle result |}, None)
                     end),
                 (e3, (calls ++ [CallRepoSave g])%list)))).
Proof.
  intros run payload. subst run payload. unfold CreateGroup. split.
  - intros err ->. reflexivity.
  - intros now e1 result e2 Hc Hclock Hprov Hid. rewrite Hc. eff_unfold.
    rewrite Hclock. eff_trace. rewrite Hprov. eff_trace.
    unfold NewGroup. rewrite Hid, Hc. split.
    + intros ->. reflexivity.
    + intros Hname. destruct (String.eqb_spec (in_Name cmd) ""); [contradiction |].
      intros serr e3 Hsave. cbn [ID Name Members CreatedAt UpdatedAt].
      eff_trace. rewrite Hsave. eff_trace. destruct serr; reflexivity.
Qed.

End GroupServiceFacts.

Section GroupServiceExamples.
Import group groups.

Lemma CreateGroup_provider_first_witness :
  CreateGroup fixtures.groupService
    (mkCreateInput "p1" "" "a guild" true "" "en")
    (fixtures.mkGroupEnv [] fixtures.t0, [])
  = (Ok ({| out_GroupID := ""; out_Handle := "" |}, Some ErrNameRequired),
     (fixtures.mkGroupEnv [] fixtures.t0,
      [CallClock;
       CallProviderCreateGroup (mkCreateGroupPayload "" "a guild" "p1" "" "en" true)])).
Proof.
  destruct (CreateGroup_provider_first fixtures.groupService
              (mkCreateInput "p1" "" "a guild" true "" "en")
              (fixtures.mkGroupEnv [] fixtures.t0) []) as [_ H].
  destruct (H fixtures.t0 (fixtures.mkGroupEnv [] fixtures.t0)
              (mkCreateGroupResult "g1" "guild")
              (fixtures.mkGroupEnv [] fixtures.t0)
              eq_refl eq_refl eq_refl eq_refl) as [Hempty _].
  exact (Hempty eq_refl).
Defined.

End GroupServiceExamples.
